(** * admin-statistics-api: the cache-aside computation layer

    A shallow embedding of the Go packages [repository] (the [Cache]
    capability with its in-memory, mock and Redis implementations, the
    transaction repository interface with its mock, the percentile
    computation of the ledger-backed repository) and [service]
    ([TransactionService] with its three cache-aside operations), and the
    properties of that layer.

    Conventions of the embedding:
    - a Go [interface{}] value is an [Any]: its dynamic type is the
      constructor, its value the argument;
    - reference types that have a nil value (maps, slices) are options:
      [None] is nil;
    - [float64] is Rocq's primitive binary64 float, so every arithmetic
      operation rounds as the Go program's does;
    - [int] is a [Z] (no operation of this layer leaves the 64-bit range);
    - a method with receiver [c *T] is a function on the value of [T] that
      returns the updated value; [time.Now()] is an explicit argument;
    - a panic is the [Panic] outcome. *)

From Stdlib Require Import ZArith String Ascii Floats Lia.
From Stdlib Require Import DecimalString.
From stdpp Require Import gmap strings list.

Set Warnings "-register-all".
Open Scope Z_scope.

(** ** Go values *)

Definition slice (A : Type) : Type := option (list A).

(** [len(s)] and [range s] see a nil slice as empty. *)
Definition elems {A : Type} (s : slice A) : list A := default [] s.

Definition len {A : Type} (s : slice A) : Z := Z.of_nat (length (elems s)).

Definition error : Type := string.

(** The dynamic values this layer meets behind [interface{}]. *)
Inductive Any : Type :=
| ANil                                                    (* nil interface *)
| ABool (b : bool)                                        (* bool *)
| AInt (n : Z)                                            (* int *)
| AInt64 (n : Z)                                          (* int64 *)
| AFloat64 (f : float)                                    (* float64 *)
| AString (s : string)                                    (* string *)
| ASliceAny (l : slice Any)                               (* []interface{} *)
| AMap (m : option (gmap string Any))                     (* map[string]interface{} *)
| ASliceMap (l : slice (option (gmap string Any)))        (* []map[string]interface{} *)
| ABsonM (m : option (gmap string Any))                   (* bson.M *)
| ADecimal128 (s : string).                               (* primitive.Decimal128, by its text *)

(** [map[string]interface{}], and [bson.M], whose underlying type it is. *)
Definition GoMap : Type := option (gmap string Any).
Definition bsonM : Type := GoMap.

(** [m[k]]: the zero value (nil interface) when the key is absent or the
    map is nil. *)
Definition index (m : GoMap) (k : string) : Any :=
  match m with
  | Some g => default ANil (g !! k)
  | None => ANil
  end.

Inductive outcome (A : Type) : Type :=
| Ret (a : A)
| Panic (msg : string).
Arguments Ret {A} a.
Arguments Panic {A} msg.

(** [for i, x := range l { s = body i x s }], started at index [i]. *)
Fixpoint range_from {A St : Type} (body : nat -> A -> St -> St)
    (i : nat) (l : list A) (s : St) : St :=
  match l with
  | [] => s
  | x :: l' => range_from body (S i) l' (body i x s)
  end.

Definition range {A St : Type} (body : nat -> A -> St -> St) (l : list A) (s : St) : St :=
  range_from body 0%nat l s.

(** [make([]T, n)] for a [T] whose zero value is [zero]. *)
Definition make {A : Type} (zero : A) (n : nat) : list A := replicate n zero.

(** ** Package time *)

Definition Duration : Type := Z.            (* nanoseconds *)
Definition Second : Duration := 1000000000.
Definition Minute : Duration := 60 * Second.

(** A [time.Time]: an instant, in nanoseconds since the Unix epoch, and the
    offset east of UTC, in seconds, that its location has at that instant. *)
Record Time : Type := mkTime { ns : Z; offset : Z }.

Definition After (t u : Time) : bool := ns u <? ns t.
Definition Equal (t u : Time) : bool := ns t =? ns u.
Definition Add (t : Time) (d : Duration) : Time := mkTime (ns t + d) (offset t).
Definition UTC (t : Time) : Time := mkTime (ns t) 0.

(** The civil date of a day count from 1970-01-01 (proleptic Gregorian). *)
Definition civil (days : Z) : Z * Z * Z :=
  let z := days + 719468 in
  let era := z / 146097 in
  let doe := z - era * 146097 in
  let yoe := (doe - doe / 1460 + doe / 36524 - doe / 146096) / 365 in
  let doy := doe - (365 * yoe + yoe / 4 - yoe / 100) in
  let mp := (5 * doy + 2) / 153 in
  let d := doy - (153 * mp + 2) / 5 + 1 in
  let m := if mp <? 10 then mp + 3 else mp - 9 in
  let y := yoe + era * 400 + (if m <=? 2 then 1 else 0) in
  (y, m, d).

Definition digits (u : Z) : string := NilZero.string_of_uint (N.to_uint (Z.to_N u)).

Fixpoint zeros (n : nat) : string :=
  match n with
  | O => EmptyString
  | S n' => String "0" (zeros n')
  end.

(** [appendInt]: the decimal form of [x], zero-padded to [width]. *)
Definition appendInt (x : Z) (width : nat) : string :=
  let u := Z.abs x in
  (if x <? 0 then "-" else "")
    +:+ zeros (width - String.length (digits u)) +:+ digits u.

(** [t.Format(time.RFC3339)], layout [2006-01-02T15:04:05Z07:00]. *)
Definition FormatRFC3339 (t : Time) : string :=
  let abs := ns t / Second + offset t in
  let '(year, month, day) := civil (abs / 86400) in
  let sod := abs mod 86400 in
  let zone := Z.quot (offset t) 60 in
  appendInt year 4 +:+ "-" +:+ appendInt month 2 +:+ "-" +:+ appendInt day 2
    +:+ "T" +:+ appendInt (sod / 3600) 2 +:+ ":" +:+ appendInt (sod mod 3600 / 60) 2
    +:+ ":" +:+ appendInt (sod mod 60) 2
    +:+ (if offset t =? 0 then "Z"
         else (if zone <? 0 then "-" else "+")
                +:+ appendInt (Z.abs zone / 60) 2 +:+ ":" +:+ appendInt (Z.abs zone mod 60) 2).

(** ** Package repository: the cache capability *)

(** The [Cache] interface.  A method takes the receiver's state and gives
    the new one; [Get] gives the value and the found flag first.  None of
    the three methods has an error result. *)
Class Cache (C : Type) : Type := {
  Cache_Get : Time -> string -> C -> Any * bool * C;
  Cache_Set : Time -> string -> Any -> Duration -> C -> C;
  Cache_Delete : Time -> string -> C -> C
}.

(** *** MemoryCache *)

Record cacheItem : Type := mkItem { value : Any; expiration : Time }.

(** The lock [mu] makes every method atomic; the state is the map. *)
Record MemoryCache : Type := mkMemoryCache { items : gmap string cacheItem }.

Definition NewMemoryCache : MemoryCache := mkMemoryCache ∅.

Definition MemoryCache_Get (now : Time) (key : string) (c : MemoryCache) : Any * bool :=
  match items c !! key with
  | None => (ANil, false)
  | Some item =>
      if After now (expiration item) then (ANil, false)
      else (value item, true)
  end.

Definition MemoryCache_Set (now : Time) (key : string) (v : Any) (d : Duration)
    (c : MemoryCache) : MemoryCache :=
  mkMemoryCache (<[key := mkItem v (Add now d)]> (items c)).

Definition MemoryCache_Delete (key : string) (c : MemoryCache) : MemoryCache :=
  mkMemoryCache (delete key (items c)).

(** One round of the loop of [cleanup], run when the ticker fires at [now]. *)
Definition MemoryCache_cleanup (now : Time) (c : MemoryCache) : MemoryCache :=
  mkMemoryCache (filter (fun kv => After now (expiration kv.2) = false) (items c)).

#[export] Instance MemoryCache_Cache : Cache MemoryCache := {
  Cache_Get now key c := (MemoryCache_Get now key c, c);
  Cache_Set now key v d c := MemoryCache_Set now key v d c;
  Cache_Delete _ key c := MemoryCache_Delete key c
}.

(** What can be done to a [MemoryCache], each at the time it happens. *)
Inductive cache_op : Type :=
| OpSet (now : Time) (key : string) (v : Any) (d : Duration)
| OpDelete (key : string)
| OpGet (now : Time) (key : string)
| OpCleanup (now : Time).

Definition run_op (o : cache_op) (c : MemoryCache) : MemoryCache :=
  match o with
  | OpSet now key v d => MemoryCache_Set now key v d c
  | OpDelete key => MemoryCache_Delete key c
  | OpGet _ _ => c
  | OpCleanup now => MemoryCache_cleanup now c
  end.

Definition run_ops (os : list cache_op) (c : MemoryCache) : MemoryCache :=
  foldl (fun c o => run_op o c) c os.

(** *** MockCache *)

Record MockCache : Type := mkMockCache {
  mock_items : gmap string Any;
  GetCalls : list string;
  SetCalls : gmap string Any;
  DeleteCalls : list string;
  GetShouldFail : bool;
  GetCustomResults : gmap string Any
}.

Definition NewMockCache : MockCache := mkMockCache ∅ [] ∅ [] false ∅.

Definition MockCache_Get (key : string) (c : MockCache) : Any * bool * MockCache :=
  let c' := mkMockCache (mock_items c) (GetCalls c ++ [key]) (SetCalls c)
              (DeleteCalls c) (GetShouldFail c) (GetCustomResults c) in
  if GetShouldFail c then (ANil, false, c')
  else match GetCustomResults c !! key with
       | Some result => (result, true, c')
       | None =>
           match mock_items c !! key with
           | Some v => (v, true, c')
           | None => (ANil, false, c')
           end
       end.

Definition MockCache_Set (key : string) (v : Any) (c : MockCache) : MockCache :=
  mkMockCache (<[key := v]> (mock_items c)) (GetCalls c) (<[key := v]> (SetCalls c))
    (DeleteCalls c) (GetShouldFail c) (GetCustomResults c).

Definition MockCache_Delete (key : string) (c : MockCache) : MockCache :=
  mkMockCache (delete key (mock_items c)) (GetCalls c) (SetCalls c)
    (DeleteCalls c ++ [key]) (GetShouldFail c) (GetCustomResults c).

#[export] Instance MockCache_Cache : Cache MockCache := {
  Cache_Get _ key c := MockCache_Get key c;
  Cache_Set _ key v _ c := MockCache_Set key v c;
  Cache_Delete _ key c := MockCache_Delete key c
}.

(** *** RedisCache *)

Section RedisCache.
(** The go-redis client with the server behind it, and [encoding/json]:
    the calls the cache makes, with the results it looks at.  A call that
    times out or cannot connect is a call that gives an error. *)
Context {Client : Type}.
Variable client_Get : Time -> string -> Client -> string * option error * Client.
Variable client_Set : Time -> string -> string -> Duration -> Client -> Client.
Variable client_Del : Time -> string -> Client -> Client.
Variable json_Marshal : Any -> string * option error.
Variable json_Unmarshal : string -> Any * option error.

Record RedisCache : Type := mkRedisCache { client : Client }.

Definition RedisCache_Get (now : Time) (key : string) (c : RedisCache)
    : Any * bool * RedisCache :=
  let '(val, err, cl) := client_Get now key (client c) in
  match err with
  | Some _ => (ANil, false, mkRedisCache cl)
  | None =>
      let '(result, err) := json_Unmarshal val in
      match err with
      | Some _ => (ANil, false, mkRedisCache cl)
      | None => (result, true, mkRedisCache cl)
      end
  end.

Definition RedisCache_Set (now : Time) (key : string) (v : Any) (d : Duration)
    (c : RedisCache) : RedisCache :=
  let '(data, err) := json_Marshal v in
  match err with
  | Some _ => c
  | None => mkRedisCache (client_Set now key data d (client c))
  end.

Definition RedisCache_Delete (now : Time) (key : string) (c : RedisCache) : RedisCache :=
  mkRedisCache (client_Del now key (client c)).

#[export] Instance RedisCache_Cache : Cache RedisCache := {
  Cache_Get := RedisCache_Get;
  Cache_Set := RedisCache_Set;
  Cache_Delete := RedisCache_Delete
}.
End RedisCache.

(** ** Package repository: the transaction repository *)

(** [TransactionRepositoryInterface].  The context argument is left out: a
    cancelled context shows as the error a method returns. *)
Class TransactionRepositoryInterface (R : Type) : Type := {
  repo_CalculateGGR :
    Time -> Time -> R -> outcome (slice bsonM * option error) * R;
  repo_CalculateDailyWagerVolume :
    Time -> Time -> R -> outcome (slice bsonM * option error) * R;
  repo_CalculateUserWagerPercentile :
    string -> Time -> Time -> R -> outcome (float * option error) * R
}.

(** *** MockTransactionRepository *)

Record MockTransactionRepository : Type := mkMockRepo {
  CalculateGGRFn : Time -> Time -> outcome (slice bsonM * option error);
  CalculateDailyWagerVolumeFn : Time -> Time -> outcome (slice bsonM * option error);
  CalculateUserWagerPercentileFn : string -> Time -> Time -> outcome (float * option error);
  CalculateGGRCalls : list (Time * Time);
  CalculateDailyWagerVolumeCalls : list (Time * Time);
  CalculateUserWagerPercentileCalls : list (string * Time * Time)
}.

Definition NewMockTransactionRepository : MockTransactionRepository :=
  mkMockRepo
    (fun _ _ => Ret (Some [], None))
    (fun _ _ => Ret (Some [], None))
    (fun _ _ _ => Ret (0%float, None))
    [] [] [].

Definition MockTransactionRepository_CalculateGGR (from to : Time)
    (r : MockTransactionRepository)
    : outcome (slice bsonM * option error) * MockTransactionRepository :=
  let r' := mkMockRepo (CalculateGGRFn r) (CalculateDailyWagerVolumeFn r)
              (CalculateUserWagerPercentileFn r)
              (CalculateGGRCalls r ++ [(from, to)])
              (CalculateDailyWagerVolumeCalls r) (CalculateUserWagerPercentileCalls r) in
  (CalculateGGRFn r from to, r').

Definition MockTransactionRepository_CalculateDailyWagerVolume (from to : Time)
    (r : MockTransactionRepository)
    : outcome (slice bsonM * option error) * MockTransactionRepository :=
  let r' := mkMockRepo (CalculateGGRFn r) (CalculateDailyWagerVolumeFn r)
              (CalculateUserWagerPercentileFn r)
              (CalculateGGRCalls r)
              (CalculateDailyWagerVolumeCalls r ++ [(from, to)])
              (CalculateUserWagerPercentileCalls r) in
  (CalculateDailyWagerVolumeFn r from to, r').

Definition MockTransactionRepository_CalculateUserWagerPercentile (userID : string)
    (from to : Time) (r : MockTransactionRepository)
    : outcome (float * option error) * MockTransactionRepository :=
  let r' := mkMockRepo (CalculateGGRFn r) (CalculateDailyWagerVolumeFn r)
              (CalculateUserWagerPercentileFn r)
              (CalculateGGRCalls r) (CalculateDailyWagerVolumeCalls r)
              (CalculateUserWagerPercentileCalls r ++ [(userID, from, to)]) in
  (CalculateUserWagerPercentileFn r userID from to, r').

#[export] Instance MockTransactionRepository_Interface :
    TransactionRepositoryInterface MockTransactionRepository := {
  repo_CalculateGGR := MockTransactionRepository_CalculateGGR;
  repo_CalculateDailyWagerVolume := MockTransactionRepository_CalculateDailyWagerVolume;
  repo_CalculateUserWagerPercentile := MockTransactionRepository_CalculateUserWagerPercentile
}.

(** How many calls a mock repository has recorded, over its three methods. *)
Definition calls (r : MockTransactionRepository) : nat :=
  (length (CalculateGGRCalls r) + length (CalculateDailyWagerVolumeCalls r)
   + length (CalculateUserWagerPercentileCalls r))%nat.

(** *** TransactionRepository.CalculateUserWagerPercentile *)

(** [float64(x)] for an [int] x: the nearest binary64, ties to even. *)
Definition float64_of_int (x : Z) : float :=
  SF2Prim (binary_normalize prec emax x 0 false).

(** The two aggregation pipelines of the method. *)
Inductive Pipeline : Type :=
| userWagerPipeline (userID : string) (from to : Time)
| allUsersPipeline (from to : Time).

(** The loop that finds the user's position: [i] is the index of the head
    of [rows], [userRank] the value the variable has so far.  The type
    assertion [id.(string)] panics on anything that is not a string. *)
Fixpoint find_rank (userID : string) (i : Z) (rows : list bsonM) (userRank : Z)
    : outcome Z :=
  match rows with
  | [] => Ret userRank
  | result :: rest =>
      match index result "_id" with
      | AString id =>
          if String.eqb id userID then Ret (i + 1)
          else find_rank userID (i + 1) rest userRank
      | _ => Panic "interface conversion: interface {} is not string"
      end
  end.

(** [100.0 - (float64(userRank-1) / float64(totalUsers) * 100.0)], every
    operation rounded on its own. *)
Definition percentile_of (userRank totalUsers : Z) : float :=
  (100 - (float64_of_int (userRank - 1) / float64_of_int totalUsers * 100))%float.

Section TransactionRepository.
(** The MongoDB driver: [collection.Aggregate] gives a cursor or an error,
    [cursor.All] the decoded rows or an error. *)
Context {Collection Cursor : Type}.
Variable Aggregate : Collection -> Pipeline -> Cursor * option error.
Variable All : Cursor -> slice bsonM * option error.

Record TransactionRepository : Type := mkRepo { collection : Collection }.

Definition TransactionRepository_CalculateUserWagerPercentile
    (userID : string) (from to : Time) (r : TransactionRepository)
    : outcome (float * option error) :=
  let '(userCursor, err) := Aggregate (collection r) (userWagerPipeline userID from to) in
  match err with
  | Some e => Ret (0%float, Some e)
  | None =>
  let '(userResults, err) := All userCursor in
  match err with
  | Some e => Ret (0%float, Some e)
  | None =>
  if len userResults =? 0 then Ret (0%float, None)
  else
  let '(allUsersCursor, err) := Aggregate (collection r) (allUsersPipeline from to) in
  match err with
  | Some e => Ret (0%float, Some e)
  | None =>
  let '(allUsersResults, err) := All allUsersCursor in
  match err with
  | Some e => Ret (0%float, Some e)
  | None =>
  let totalUsers := len allUsersResults in
  if totalUsers =? 0 then Ret (0%float, None)
  else
  match find_rank userID 0 (elems allUsersResults) 0 with
  | Panic msg => Panic msg
  | Ret userRank => Ret (percentile_of userRank totalUsers, None)
  end
  end end end end.
End TransactionRepository.

(** ** Package service *)

Section TransactionService.
Context {C R : Type} {cacheImpl : Cache C} {repoImpl : TransactionRepositoryInterface R}.

(** [strconv.ParseFloat(s, 64)]. *)
Variable ParseFloat : string -> float * option error.

(** What a [TransactionService] works on: the cache and the repository it
    points to, the clock, and the lines written with [log.Printf]. *)
Record World : Type := mkWorld {
  now : Time;
  cache : C;
  repo : R;
  logged : list string
}.

Definition M (A : Type) : Type := World -> outcome A * World.

Definition ret {A : Type} (a : A) : M A := fun w => (Ret a, w).

Definition bind {A B : Type} (m : M A) (k : A -> M B) : M B :=
  fun w =>
    match m w with
    | (Ret a, w') => k a w'
    | (Panic msg, w') => (Panic msg, w')
    end.

Notation "'let*' p ':=' c1 'in' c2" := (bind c1 (fun p => c2))
  (at level 10, p pattern, c1 at level 200, c2 at level 200).
Notation "c1 ;; c2" := (bind c1 (fun _ => c2))
  (at level 100, c2 at level 200, right associativity).

Definition cache_Get (key : string) : M (Any * bool) :=
  fun w =>
    let '(v, found, c') := Cache_Get (now w) key (cache w) in
    (Ret (v, found), mkWorld (now w) c' (repo w) (logged w)).

Definition cache_Set (key : string) (v : Any) (d : Duration) : M unit :=
  fun w =>
    (Ret tt, mkWorld (now w) (Cache_Set (now w) key v d (cache w)) (repo w) (logged w)).

Definition call_repo {A : Type} (f : R -> outcome A * R) : M A :=
  fun w =>
    let '(o, r') := f (repo w) in
    (o, mkWorld (now w) (cache w) r' (logged w)).

Definition log_Printf (line : string) : M unit :=
  fun w => (Ret tt, mkWorld (now w) (cache w) (repo w) (logged w ++ [line])).

Definition mismatch (cacheKey : string) : string :=
  "Cache type mismatch for key " +:+ cacheKey +:+ ", fetching from DB".

(** The loop that turns a [[]interface{}] into a [[]map[string]interface{}]. *)
Definition convert_body (i : nat) (item : Any) (result : list GoMap) : list GoMap :=
  match item with
  | AMap mapItem => <[i := mapItem]> result
  | _ => result
  end.

(** The loop that copies the repository's rows into the response. *)
Definition copy_body (i : nat) (result : bsonM) (response : list GoMap) : list GoMap :=
  <[i := result]> response.

Definition TransactionService_CalculateGGR (from to : Time)
    : M (slice GoMap * option error) :=
  let cacheKey := "ggr:" +:+ FormatRFC3339 from +:+ ":" +:+ FormatRFC3339 to in
  let query : M (slice GoMap * option error) :=
    let* (results, err) := call_repo (repo_CalculateGGR from to) in
    match err with
    | Some e => ret (None, Some e)
    | None =>
        let response :=
          range copy_body (elems results) (make None (length (elems results))) in
        cache_Set cacheKey (ASliceMap (Some response)) (5 * Minute) ;;
        ret (Some response, None)
    end in
  let* (cachedData, found) := cache_Get cacheKey in
  if found then
    match cachedData with
    | ASliceMap data => ret (data, None)
    | ASliceAny data =>
        let result :=
          range convert_body (elems data) (make None (length (elems data))) in
        ret (Some result, None)
    | _ => log_Printf (mismatch cacheKey) ;; query
    end
  else query.

Definition TransactionService_CalculateDailyWagerVolume (from to : Time)
    : M (slice GoMap * option error) :=
  let cacheKey := "daily_wager:" +:+ FormatRFC3339 from +:+ ":" +:+ FormatRFC3339 to in
  let query : M (slice GoMap * option error) :=
    let* (results, err) := call_repo (repo_CalculateDailyWagerVolume from to) in
    match err with
    | Some e => ret (None, Some e)
    | None =>
        let response :=
          range copy_body (elems results) (make None (length (elems results))) in
        cache_Set cacheKey (ASliceMap (Some response)) (5 * Minute) ;;
        ret (Some response, None)
    end in
  let* (cachedData, found) := cache_Get cacheKey in
  if found then
    match cachedData with
    | ASliceMap data => ret (data, None)
    | ASliceAny data =>
        let result :=
          range convert_body (elems data) (make None (length (elems data))) in
        ret (Some result, None)
    | _ => log_Printf (mismatch cacheKey) ;; query
    end
  else query.

Definition TransactionService_CalculateUserWagerPercentile (userID : string)
    (from to : Time) : M (float * option error) :=
  let cacheKey :=
    "percentile:" +:+ userID +:+ ":" +:+ FormatRFC3339 from +:+ ":" +:+ FormatRFC3339 to in
  let query : M (float * option error) :=
    let* (percentile, err) := call_repo (repo_CalculateUserWagerPercentile userID from to) in
    match err with
    | Some e => ret (0%float, Some e)
    | None =>
        cache_Set cacheKey (AFloat64 percentile) (5 * Minute) ;;
        ret (percentile, None)
    end in
  let* (cachedData, found) := cache_Get cacheKey in
  if found then
    match cachedData with
    | AFloat64 data => ret (data, None)
    | AInt data => ret (float64_of_int data, None)
    | AString data =>
        let '(val, err) := ParseFloat data in
        match err with
        | None => ret (val, None)
        | Some _ => query
        end
    | AMap data =>
        match index data "value" with
        | AFloat64 val => ret (val, None)
        | _ => query
        end
    | _ => log_Printf (mismatch cacheKey) ;; query
    end
  else query.
End TransactionService.


(** ** Package repository: the list methods of the ledger-backed repository *)

(** The pipelines of [CalculateGGR] and [CalculateDailyWagerVolume], by the
    method that builds them and the bounds they match on; what the stages
    compute is the database's. *)
Inductive RowsPipeline : Type :=
| ggrPipeline (from to : Time)
| dailyWagerPipeline (from to : Time).

Section TransactionRepositoryRows.
Context {Collection Cursor : Type}.
Variable AggregateRows : Collection -> RowsPipeline -> Cursor * option error.
Variable Aggregate : Collection -> Pipeline -> Cursor * option error.
Variable All : Cursor -> slice bsonM * option error.

Definition TransactionRepository_CalculateGGR (from to : Time)
    (r : @TransactionRepository Collection) : slice bsonM * option error :=
  let '(cursor, err) := AggregateRows (collection r) (ggrPipeline from to) in
  match err with
  | Some e => (None, Some e)
  | None =>
      let '(results, err) := All cursor in
      match err with
      | Some e => (None, Some e)
      | None => (results, None)
      end
  end.

Definition TransactionRepository_CalculateDailyWagerVolume (from to : Time)
    (r : @TransactionRepository Collection) : slice bsonM * option error :=
  let '(cursor, err) := AggregateRows (collection r) (dailyWagerPipeline from to) in
  match err with
  | Some e => (None, Some e)
  | None =>
      let '(results, err) := All cursor in
      match err with
      | Some e => (None, Some e)
      | None => (results, None)
      end
  end.

(** The repository reads the collection and keeps no state of its own. *)
#[export] Instance TransactionRepository_Interface :
    TransactionRepositoryInterface (@TransactionRepository Collection) := {
  repo_CalculateGGR from to r := (Ret (TransactionRepository_CalculateGGR from to r), r);
  repo_CalculateDailyWagerVolume from to r :=
    (Ret (TransactionRepository_CalculateDailyWagerVolume from to r), r);
  repo_CalculateUserWagerPercentile userID from to r :=
    (TransactionRepository_CalculateUserWagerPercentile Aggregate All userID from to r, r)
}.
End TransactionRepositoryRows.

(** ** Package config *)

Record MongoDBConfig : Type := mkMongoDBConfig {
  URI : string;
  Database : string;
  Collection_ : string
}.

Record HTTPConfig : Type := mkHTTPConfig { Port : string; Timeout : Duration }.
Record AuthConfig : Type := mkAuthConfig { APIKey : string }.
Record RedisConfig : Type := mkRedisConfig { URL : string }.

Record Config : Type := mkConfig {
  MongoDB : MongoDBConfig;
  HTTP : HTTPConfig;
  Auth : AuthConfig;
  Redis : RedisConfig;
  CacheTimeout : Duration
}.

(** The environment of the process; [os.Getenv] gives the empty string for
    a variable that is not set. *)
Definition Getenv (env : gmap string string) (key : string) : string :=
  default EmptyString (env !! key).

Definition getEnv (env : gmap string string) (key defaultValue : string) : string :=
  let value := Getenv env key in
  if String.eqb value EmptyString then defaultValue else value.

Definition DefaultConfig (env : gmap string string) : Config :=
  mkConfig
    (mkMongoDBConfig
       (getEnv env "MONGODB_URI" "mongodb://localhost:27017")
       (getEnv env "MONGODB_DATABASE" "casino")
       (getEnv env "MONGODB_COLLECTION" "transactions"))
    (mkHTTPConfig (getEnv env "HTTP_PORT" "8080") (30 * Second))
    (mkAuthConfig (getEnv env "API_KEY" "test-api-key"))
    (mkRedisConfig (getEnv env "REDIS_URL" "redis://localhost:6379/0"))
    (5 * Minute).

(** ** The gin context *)

(** What the handlers put into a JSON response: [gin.H] is a map from
    strings to values. *)
Inductive ginValue : Type :=
| GString (s : string)
| GTime (t : Time)
| GFloat64 (f : float)
| GRows (rows : slice GoMap)
| GH (h : gmap string ginValue).

(** The request as the handlers read it: the header fields by canonical
    name, the path parameters, and the raw query for the binder. *)
Record Request : Type := mkRequest {
  Header : gmap string (list string);
  Params : gmap string string;
  RawQuery : string
}.

(** A [gin.Context]: the request, whether the chain was aborted, and the
    JSON renderings written so far, with their status codes. *)
Record Context : Type := mkContext {
  request : Request;
  aborted : bool;
  written : list (Z * ginValue)
}.

(** [c.GetHeader(key)]: the first value of the field, or the empty string. *)
Definition GetHeader (c : Context) (key : string) : string :=
  match Header (request c) !! key with
  | Some (v :: _) => v
  | _ => EmptyString
  end.

(** [c.Param(key)]: the path parameter, or the empty string. *)
Definition Param (c : Context) (key : string) : string :=
  default EmptyString (Params (request c) !! key).

Definition JSON (code : Z) (obj : ginValue) (c : Context) : Context :=
  mkContext (request c) (aborted c) (written c ++ [(code, obj)]).

Definition Abort (c : Context) : Context :=
  mkContext (request c) true (written c).

Definition AbortWithStatusJSON (code : Z) (obj : ginValue) (c : Context) : Context :=
  JSON code obj (Abort c).

Definition StatusOK : Z := 200.
Definition StatusBadRequest : Z := 400.
Definition StatusUnauthorized : Z := 401.
Definition StatusInternalServerError : Z := 500.

(** ** Package middleware *)

(** [c.Next()] runs the handlers that follow; they are [next], and [W] is
    what they work on besides the context. *)
Definition AuthMiddleware {W : Type} (cfg : Config)
    (next : Context -> W -> outcome Context * W) (c : Context) (w : W)
    : outcome Context * W :=
  let authHeader := GetHeader c "Authorization" in
  if negb (String.eqb authHeader (APIKey (Auth cfg))) then
    (Ret (AbortWithStatusJSON StatusUnauthorized
            (GH {["error" := GString "Invalid or missing API key"]}) c), w)
  else next c w.

(** ** Package service: the interface *)

Class TransactionServiceInterface (S : Type) : Type := {
  service_CalculateGGR :
    Time -> Time -> S -> outcome (slice GoMap * option error) * S;
  service_CalculateDailyWagerVolume :
    Time -> Time -> S -> outcome (slice GoMap * option error) * S;
  service_CalculateUserWagerPercentile :
    string -> Time -> Time -> S -> outcome (float * option error) * S
}.

#[export] Instance TransactionService_Interface {C R : Type} {cacheImpl : Cache C}
    {repoImpl : TransactionRepositoryInterface R}
    (ParseFloat : string -> float * option error)
    : TransactionServiceInterface (@World C R) := {
  service_CalculateGGR := TransactionService_CalculateGGR;
  service_CalculateDailyWagerVolume := TransactionService_CalculateDailyWagerVolume;
  service_CalculateUserWagerPercentile :=
    TransactionService_CalculateUserWagerPercentile ParseFloat
}.

(** ** Package handler *)

Record TimeframeParams : Type := mkParams { From : Time; To : Time }.

Section TransactionHandler.
Context {S : Type} {serviceImpl : TransactionServiceInterface S}.

(** [c.ShouldBindQuery(&params)] of gin and [validate.Struct(params)] of the
    validator: what is bound, and the error if there is one. *)
Variable ShouldBindQuery : Request -> TimeframeParams * option error.
Variable validate_Struct : TimeframeParams -> option error.

Definition timeframe (params : TimeframeParams) : ginValue :=
  GH (<["from" := GTime (From params)]> {["to" := GTime (To params)]}).

Definition GetGrossGamingRevenue (c : Context) (s : S) : outcome Context * S :=
  let '(params, err) := ShouldBindQuery (request c) in
  match err with
  | Some _ =>
      (Ret (JSON StatusBadRequest
              (GH {["error" :=
                 GString "Invalid date format. Use ISO 8601 (YYYY-MM-DDThh:mm:ssZ)"]}) c), s)
  | None =>
  match validate_Struct params with
  | Some e =>
      (Ret (JSON StatusBadRequest
              (GH {["error" := GString ("Validation error: " +:+ e)]}) c), s)
  | None =>
  match service_CalculateGGR (From params) (To params) s with
  | (Panic msg, s') => (Panic msg, s')
  | (Ret (_, Some e), s') =>
      (Ret (JSON StatusInternalServerError
              (GH {["error" := GString ("Failed to calculate GGR: " +:+ e)]}) c), s')
  | (Ret (results, None), s') =>
      (Ret (JSON StatusOK
              (GH (<["timeframe" := timeframe params]> {["data" := GRows results]})) c), s')
  end end end.

Definition GetDailyWagerVolume (c : Context) (s : S) : outcome Context * S :=
  let '(params, err) := ShouldBindQuery (request c) in
  match err with
  | Some _ =>
      (Ret (JSON StatusBadRequest
              (GH {["error" :=
                 GString "Invalid date format. Use ISO 8601 (YYYY-MM-DDThh:mm:ssZ)"]}) c), s)
  | None =>
  match validate_Struct params with
  | Some e =>
      (Ret (JSON StatusBadRequest
              (GH {["error" := GString ("Validation error: " +:+ e)]}) c), s)
  | None =>
  match service_CalculateDailyWagerVolume (From params) (To params) s with
  | (Panic msg, s') => (Panic msg, s')
  | (Ret (_, Some e), s') =>
      (Ret (JSON StatusInternalServerError
              (GH {["error" :=
                 GString ("Failed to calculate daily wager volume: " +:+ e)]}) c), s')
  | (Ret (results, None), s') =>
      (Ret (JSON StatusOK
              (GH (<["timeframe" := timeframe params]> {["data" := GRows results]})) c), s')
  end end end.

Definition GetUserWagerPercentile (c : Context) (s : S) : outcome Context * S :=
  let userID := Param c "user_id" in
  if String.eqb userID EmptyString then
    (Ret (JSON StatusBadRequest (GH {["error" := GString "User ID is required"]}) c), s)
  else
  let '(params, err) := ShouldBindQuery (request c) in
  match err with
  | Some _ =>
      (Ret (JSON StatusBadRequest
              (GH {["error" :=
                 GString "Invalid date format. Use ISO 8601 (YYYY-MM-DDThh:mm:ssZ)"]}) c), s)
  | None =>
  match validate_Struct params with
  | Some e =>
      (Ret (JSON StatusBadRequest
              (GH {["error" := GString ("Validation error: " +:+ e)]}) c), s)
  | None =>
  match service_CalculateUserWagerPercentile userID (From params) (To params) s with
  | (Panic msg, s') => (Panic msg, s')
  | (Ret (_, Some e), s') =>
      (Ret (JSON StatusInternalServerError
              (GH {["error" :=
                 GString ("Failed to calculate user wager percentile: " +:+ e)]}) c), s')
  | (Ret (percentile, None), s') =>
      (Ret (JSON StatusOK
              (GH (<["userID" := GString userID]>
                     (<["percentile" := GFloat64 percentile]>
                        {["timeframe" := timeframe params]}))) c), s')
  end end end.
End TransactionHandler.

(** ** Command seed: the batching of [main] *)

Definition numRounds : Z := 2000000.
Definition batchSize : Z := 1000.

Section Seed.
(** A transaction document is a [T].  The collection is known by the batches
    it was given so far; whether [collection.InsertMany] fails on the next
    one is the driver's. *)
Context {T : Type}.
Variable InsertMany : list (list T) -> list T -> option error.

Definition insertBatch (collection : list (list T)) (transactions : list T)
    : option error * list (list T) :=
  (InsertMany collection transactions, collection ++ [transactions]).

(** The loop of [main] over the rounds, each round given by the wager and
    the payout generated for it; [log.Fatalf] ends the program with its
    message.  The progress lines are left out. *)
Fixpoint seed_rounds (rounds : list (T * T)) (transactions : slice T)
    (collection : list (list T)) : string + slice T * list (list T) :=
  match rounds with
  | [] => inr (transactions, collection)
  | (wager, payout) :: rest =>
      let transactions := Some ((elems transactions ++ [wager]) ++ [payout]) in
      if batchSize <=? len transactions then
        match insertBatch collection (elems transactions) with
        | (Some e, _) => inl ("Failed to insert batch: " +:+ e)
        | (None, collection') => seed_rounds rest None collection'
        end
      else seed_rounds rest transactions collection
  end.

(** The loop, then the insertion of what is left. *)
Definition seed (rounds : list (T * T)) (collection : list (list T))
    : string + list (list T) :=
  match seed_rounds rounds None collection with
  | inl msg => inl msg
  | inr (transactions, collection') =>
      if 0 <? len transactions then
        match insertBatch collection' (elems transactions) with
        | (Some e, _) => inl ("Failed to insert final batch: " +:+ e)
        | (None, collection'') => inr collection''
        end
      else inr collection'
  end.
End Seed.
(** * Vocabulary of the properties *)

(** ** MemoryCache *)

(** The operations of a run that write, or remove, the entry of [key]. *)
Definition sets (key : string) (o : cache_op) : bool :=
  match o with
  | OpSet _ k _ _ => bool_decide (k = key)
  | _ => false
  end.

Definition deletes (key : string) (o : cache_op) : bool :=
  match o with
  | OpDelete k => bool_decide (k = key)
  | _ => false
  end.

(** A sweep that runs after [limit]. *)
Definition sweeps_after (limit : Time) (o : cache_op) : bool :=
  match o with
  | OpCleanup now => After now limit
  | _ => false
  end.

(** The entry of [key] is absent or expired at [now]. *)
Definition stale (now : Time) (key : string) (c : MemoryCache) : Prop :=
  forall item, items c !! key = Some item -> After now (expiration item) = true.

(** The entry of [key] holds [v] and expires at [limit]. *)
Definition holds (key : string) (v : Any) (limit : Time) (c : MemoryCache) : Prop :=
  items c !! key = Some (mkItem v limit).

(** ** TransactionService *)

(** The cache keys of the three operations. *)
Definition GGRKey (from to : Time) : string :=
  "ggr:" +:+ FormatRFC3339 from +:+ ":" +:+ FormatRFC3339 to.

Definition DailyWagerKey (from to : Time) : string :=
  "daily_wager:" +:+ FormatRFC3339 from +:+ ":" +:+ FormatRFC3339 to.

Definition PercentileKey (userID : string) (from to : Time) : string :=
  "percentile:" +:+ userID +:+ ":" +:+ FormatRFC3339 from +:+ ":" +:+ FormatRFC3339 to.

(** The type assertion [item.(map[string]interface{})], with the zero value
    (the nil map) when it fails. *)
Definition coerce (item : Any) : GoMap :=
  match item with
  | AMap m => m
  | _ => None
  end.

(** The rows a cached value reconstructs to, if it does. *)
Definition rows_hit (v : Any) : option (slice GoMap) :=
  match v with
  | ASliceMap data => Some data
  | ASliceAny data => Some (Some (map coerce (elems data)))
  | _ => None
  end.

(** The percentile a cached value reconstructs to, if it does. *)
Definition percentile_hit (ParseFloat : string -> float * option error) (v : Any)
    : option float :=
  match v with
  | AFloat64 data => Some data
  | AInt data => Some (float64_of_int data)
  | AString data =>
      match ParseFloat data with
      | (val, None) => Some val
      | (_, Some _) => None
      end
  | AMap data =>
      match index data "value" with
      | AFloat64 val => Some val
      | _ => None
      end
  | _ => None
  end.

(** The shapes the percentile operation has a case for. *)
Definition percentile_shape (v : Any) : bool :=
  match v with
  | AFloat64 _ | AInt _ | AString _ | AMap _ => true
  | _ => false
  end.

(** The log after a lookup that did not end the operation: a found value of
    an unexpected shape is reported, a miss is not. *)
Definition log_after (reported : bool) (key : string) (l : list string) : list string :=
  if reported then l ++ [mismatch key] else l.

(** A live cache: what was stored is found, unchanged, until it expires. *)
Definition live (C : Type) {cacheImpl : Cache C} : Prop :=
  forall (t t' : Time) (key : string) (v : Any) (d : Duration) (c : C),
    After t' (Add t d) = false ->
    exists c', Cache_Get t' key (Cache_Set t key v d c) = (v, true, c').

(** The value and the error of an outcome. *)
Definition error_of {A : Type} (o : outcome (A * option error)) : option error :=
  match o with
  | Ret (_, e) => e
  | Panic _ => None
  end.

(** A percentile in the closed interval from 0 to 100. *)
Definition in_range (p : float) : bool := ((0 <=? p) && (p <=? 100))%float.

(** The position of [userID] in a ranking is [r], counted from 1: the row
    is there, and no row before it is the user's. *)
Definition ranked (userID : string) (rows : list bsonM) (r : nat) : Prop :=
  (exists row, rows !! (r - 1)%nat = Some row /\ index row "_id" = AString userID)
  /\ (1 <= r)%nat
  /\ forall j row, (j < r - 1)%nat -> rows !! j = Some row ->
       exists id, index row "_id" = AString id /\ id <> userID.

(** The same world when the clock has moved to [t]. *)
Definition at_time {C R : Type} (t : Time) (w : @World C R) : @World C R :=
  mkWorld t (cache w) (repo w) (logged w).

(** An outcome that is a value without an error. *)
Definition succeeded {A : Type} (o : outcome (A * option error)) : Prop :=
  exists a, o = Ret (a, None).

(** A mock repository whose every method fails. *)
Definition failing_repo : MockTransactionRepository :=
  mkMockRepo
    (fun _ _ => Ret (None, Some "database error"))
    (fun _ _ => Ret (None, Some "database error"))
    (fun _ _ _ => Ret (0%float, Some "database error"))
    [] [] [].

(** The bounds of the tests: January 2023, in UTC. *)
Definition jan01 : Time := mkTime (1672531200 * Second) 0.
Definition jan31 : Time := mkTime (1675123200 * Second) 0.

(** A row of the revenue report, as the tests have it. *)
Definition btc_row : GoMap :=
  Some (<["currency" := AString "BTC"]> (<["ggr" := AString "10.50"]> ∅)).

(** A world of the tests: an in-memory cache in which the rows of January
    are stored for a minute, and a fresh mock repository. *)
Definition cached_world : @World MemoryCache MockTransactionRepository :=
  mkWorld jan01
    (MemoryCache_Set jan01 (GGRKey jan01 jan31) (ASliceMap (Some [btc_row])) Minute
       NewMemoryCache)
    NewMockTransactionRepository [].

(** A world with nothing cached and a repository that fails. *)
Definition failing_world : @World MemoryCache MockTransactionRepository :=
  mkWorld jan01 NewMemoryCache failing_repo [].

(** A world with nothing cached and a fresh mock repository. *)
Definition fresh_world : @World MemoryCache MockTransactionRepository :=
  mkWorld jan01 NewMemoryCache NewMockTransactionRepository [].

(** A reading of decimal numerals [ddd] and [ddd.ddd], for the examples:
    the quotient of the digits by the power of ten, both exact in binary64
    for the short numerals it is used on. *)
Fixpoint digits_value (s : string) (acc : Z) : option Z :=
  match s with
  | EmptyString => Some acc
  | String a s' =>
      let d := Z.of_N (N_of_ascii a) - 48 in
      if (0 <=? d) && (d <=? 9) then digits_value s' (10 * acc + d) else None
  end.

Fixpoint split_dot (s : string) (int_part : string) : string * option string :=
  match s with
  | EmptyString => (int_part, None)
  | String a s' =>
      if Ascii.eqb a "." then (int_part, Some s')
      else split_dot s' (int_part +:+ String a EmptyString)
  end.

Definition ParseFloat_decimal (s : string) : float * option error :=
  let bad := (0%float, Some "strconv.ParseFloat: invalid syntax") in
  match split_dot s EmptyString with
  | (EmptyString, _) => bad
  | (i, None) =>
      match digits_value i 0 with
      | Some n => (float64_of_int n, None)
      | None => bad
      end
  | (i, Some f) =>
      match digits_value (i +:+ f) 0 with
      | Some n =>
          ((float64_of_int n / float64_of_int (10 ^ Z.of_nat (String.length f)))%float, None)
      | None => bad
      end
  end.

(** A cached list as a JSON decoder leaves it, with two elements that are
    not generic maps. *)
Definition decoded_rows : Any :=
  ASliceAny (Some [AMap btc_row; AString "BTC"; ABsonM btc_row; ANil]).

Definition decoded_world : @World MemoryCache MockTransactionRepository :=
  mkWorld jan01
    (MemoryCache_Set jan01 (GGRKey jan01 jan31) decoded_rows Minute NewMemoryCache)
    NewMockTransactionRepository [].

(** The user of the tests, and a world in which the percentile of January is
    cached as [v]. *)
Definition test_user : string := "01HRMD5HGTZB3TW3PGYXRD07CQT".

Definition percentile_world (v : Any) : @World MemoryCache MockTransactionRepository :=
  mkWorld jan01
    (MemoryCache_Set jan01 (PercentileKey test_user jan01 jan31) v Minute NewMemoryCache)
    NewMockTransactionRepository [].

(** The same instant as [jan01], as a caller in India writes it. *)
Definition jan01_ist : Time := mkTime (1672531200 * Second) 19800.

(** A world of the tests with a fresh mock cache. *)
Definition mock_world : @World MockCache MockTransactionRepository :=
  mkWorld jan01 NewMockCache NewMockTransactionRepository [].

(** The keys a mock cache was asked for during a run. *)
Definition asked {R A : Type} (run : outcome A * @World MockCache R) : list string :=
  GetCalls (cache run.2).

(** A Redis client whose every call times out, and a JSON codec that
    refuses everything, for the examples. *)
Definition down_Get (_ : Time) (_ : string) (cl : unit) : string * option error * unit :=
  (EmptyString, Some "i/o timeout", cl).
Definition down_Set (_ : Time) (_ _ : string) (_ : Duration) (cl : unit) : unit := cl.
Definition down_Del (_ : Time) (_ : string) (cl : unit) : unit := cl.
Definition no_Marshal (_ : Any) : string * option error :=
  (EmptyString, Some "json: unsupported value").
Definition no_Unmarshal (_ : string) : Any * option error :=
  (ANil, Some "invalid character").

(** What an operation returns when it has nothing but its repository. *)
Definition rows_of_repo (o : outcome (slice bsonM * option error))
    : outcome (slice GoMap * option error) :=
  match o with
  | Panic msg => Panic msg
  | Ret (_, Some e) => Ret (None, Some e)
  | Ret (results, None) => Ret (Some (elems results), None)
  end.

Definition percentile_of_repo (o : outcome (float * option error))
    : outcome (float * option error) :=
  match o with
  | Panic msg => Panic msg
  | Ret (_, Some e) => Ret (0%float, Some e)
  | Ret (p, None) => Ret (p, None)
  end.

(** A ledger for the examples, already grouped by user and sorted by total
    wager: the pipeline of one user selects that user's row, the pipeline of
    all users gives the ranking; a cursor is the rows it will decode to. *)
Definition total_row (userID total : string) : bsonM :=
  Some (<["_id" := AString userID]> (<["totalWagerUSD" := ADecimal128 total]> ∅)).

Definition is_user (userID : string) (row : bsonM) : bool :=
  match index row "_id" with
  | AString id => String.eqb id userID
  | _ => false
  end.

Definition ranking_Aggregate (ranking : list bsonM) (p : Pipeline)
    : slice bsonM * option error :=
  match p with
  | userWagerPipeline userID _ _ => (Some (List.filter (is_user userID) ranking), None)
  | allUsersPipeline _ _ => (Some ranking, None)
  end.

Definition ranking_All (cursor : slice bsonM) : slice bsonM * option error :=
  (cursor, None).

(** Five users whose totals are 100, 80, 50, 50 and 10. *)
Definition five_users : @TransactionRepository (list bsonM) :=
  mkRepo [total_row "u1" "100"; total_row "u2" "80"; total_row "u3" "50";
          total_row "u4" "50"; total_row "u5" "10"].

(** A ledger read at two moments: the rows of the user as the first query
    saw them, and the ranking as the second query saw it. *)
Definition two_reads_Aggregate (reads : list bsonM * list bsonM) (p : Pipeline)
    : slice bsonM * option error :=
  match p with
  | userWagerPipeline _ _ _ => (Some reads.1, None)
  | allUsersPipeline _ _ => (Some reads.2, None)
  end.

(** The wagers of ["u9"] are there for the first query; the ranking the
    second query reads holds ["u1"] alone. *)
Definition u9_gone : @TransactionRepository (list bsonM * list bsonM) :=
  mkRepo ([total_row "u9" "5"], [total_row "u1" "100"]).

(** A ranking whose first row has a numeric [_id]. *)
Definition numeric_id : @TransactionRepository (list bsonM * list bsonM) :=
  mkRepo ([total_row "u1" "100"],
          [Some (<["_id" := AInt 7]> ∅); total_row "u1" "100"]).

(** A row whose [_id] is a string other than [userID]. *)
Definition other_user (userID : string) (row : bsonM) : Prop :=
  exists id, index row "_id" = AString id /\ id <> userID.

(** A value that is not a string. *)
Definition not_string (v : Any) : Prop :=
  match v with
  | AString _ => False
  | _ => True
  end.

(** ** Further vocabulary *)

(** An operation that leaves what [Get] returns for [key] at [t] alone: it
    neither writes nor removes the entry, and is no sweep later than [t]. *)
Definition spares (key : string) (t : Time) (o : cache_op) : bool :=
  negb (sets key o || deletes key o || sweeps_after t o).

(** A mock cache with a scripted answer for ["k"]. *)
Definition scripted_cache : MockCache :=
  mkMockCache ∅ [] ∅ [] false {["k" := AString "scripted"]}.

(** A mock cache told to fail its lookups. *)
Definition failing_cache : MockCache := mkMockCache ∅ [] ∅ [] true ∅.

(** A lookup that ends a list operation, or the percentile operation: the
    value was found and reconstructs. *)
Definition rows_served (found : bool) (v : Any) : bool :=
  found && bool_decide (is_Some (rows_hit v)).

Definition percentile_served (PF : string -> float * option error) (found : bool) (v : Any)
    : bool :=
  found && bool_decide (is_Some (percentile_hit PF v)).

(** A mock repository that answers the revenue query with one row. *)
Definition one_row_repo : MockTransactionRepository :=
  mkMockRepo
    (fun _ _ => Ret (Some [btc_row], None))
    (fun _ _ => Ret (Some [], None))
    (fun _ _ _ => Ret (95.5%float, None))
    [] [] [].

Definition one_row_world : @World MemoryCache MockTransactionRepository :=
  mkWorld jan01 NewMemoryCache one_row_repo [].

(** The response of the middleware to a request it turns away. *)
Definition turned_away (c : Context) : Context :=
  mkContext (request c) true
    (written c
       ++ [(StatusUnauthorized, GH {["error" := GString "Invalid or missing API key"]})]).

(** The body of an error response. *)
Definition error_body (message : string) : ginValue :=
  GH {["error" := GString message]}.

(** The body of a successful list response. *)
Definition rows_body (params : TimeframeParams) (rows : slice GoMap) : ginValue :=
  GH (<["timeframe" := timeframe params]> {["data" := GRows rows]}).

(** The body of a successful percentile response. *)
Definition percentile_body (userID : string) (params : TimeframeParams) (p : float)
    : ginValue :=
  GH (<["userID" := GString userID]>
        (<["percentile" := GFloat64 p]> {["timeframe" := timeframe params]})).

(** A request with the given [Authorization] values, path parameters and
    query. *)
Definition request_with (auth : list string) (params : gmap string string) (query : string)
    : Context :=
  mkContext (mkRequest {["Authorization" := auth]} params query) false [].

(** A request without header fields. *)
Definition bare_request : Context := mkContext (mkRequest ∅ ∅ EmptyString) false [].

(** A binder and a validator for the examples: every query binds to
    January 2023, and the bounds must be in order. *)
Definition bind_january (_ : Request) : TimeframeParams * option error :=
  (mkParams jan01 jan31, None).

Definition bounds_in_order (p : TimeframeParams) : option error :=
  if After (From p) (To p) then Some "Field validation for 'To' failed on the 'gtefield' tag"
  else None.

(** A configuration with the key of the tests. *)
Definition test_config : Config := DefaultConfig ∅.

(** The message of a request whose query does not bind. *)
Definition invalid_date : string :=
  "Invalid date format. Use ISO 8601 (YYYY-MM-DDThh:mm:ssZ)".

(** What a handler did with a request: it wrote one response, [code] and
    [body], and left the rest of the context alone. *)
Definition answered (c c' : Context) (code : Z) (body : ginValue) : Prop :=
  c' = JSON code body c.

(** A driver for the examples whose aggregations fail. *)
Definition broken_AggregateRows (_ : unit) (_ : RowsPipeline) : unit * option error :=
  (tt, Some "server selection timeout").
Definition broken_Aggregate (_ : unit) (_ : Pipeline) : unit * option error :=
  (tt, Some "server selection timeout").
Definition no_rows (_ : unit) : slice bsonM * option error := (None, None).

(** A Redis server for the examples that keeps what it is given, and a codec
    that knows one text: the rows of the examples, which it decodes the way
    [encoding/json] decodes an array of objects into an [interface{}]. *)
Definition kept_Get (_ : Time) (key : string) (cl : gmap string string)
    : string * option error * gmap string string :=
  match cl !! key with
  | Some data => (data, None, cl)
  | None => (EmptyString, Some "redis: nil", cl)
  end.
Definition kept_Set (_ : Time) (key data : string) (_ : Duration) (cl : gmap string string)
    : gmap string string := <[key := data]> cl.
Definition kept_Del (_ : Time) (key : string) (cl : gmap string string)
    : gmap string string := delete key cl.
Definition rows_Marshal (_ : Any) : string * option error := ("[{...}]", None).
Definition rows_Unmarshal (_ : string) : Any * option error :=
  (ASliceAny (Some [AMap btc_row]), None).

(** The transactions of a list of rounds, in the order they are generated. *)
Definition generated {T : Type} (rounds : list (T * T)) : list T :=
  flat_map (fun round => [round.1; round.2]) rounds.

(** A driver that never fails. *)
Definition always_inserts {T : Type} (_ : list (list T)) (_ : list T) : option error := None.

(** ** Rounding to binary64 *)

(** A mantissa [M] at exponent [E], with what was lost of the number placed
    by [l], is under the bound [c * 2 ^ t]: at most the bound, and below it
    when something was lost. *)
Definition under (c t M E : Z) (l : location) : Prop :=
  E <= t /\ M <= c * 2 ^ (t - E) /\ (l <> loc_Exact -> M < c * 2 ^ (t - E)).

(** The integer nearest to [n] that binary64 holds, a tie going to the even
    mantissa: the value of the conversion [float64(n)] of a positive
    [int]. *)
Definition nearest64 (n : Z) : Z :=
  let k := Zdigits2 n - 53 in
  if k <=? 0 then n
  else
    let m := n / 2 ^ k in
    let rest := n mod 2 ^ k in
    let half := 2 ^ (k - 1) in
    if (half <? rest) || ((rest =? half) && Z.odd m) then (m + 1) * 2 ^ k else m * 2 ^ k.
(** * Properties *)

(** ** MemoryCache *)

Lemma cleanup_lookup (now : Time) (key : string) (c : MemoryCache) :
  items (MemoryCache_cleanup now c) !! key =
    match items c !! key with
    | Some item => if After now (expiration item) then None else Some item
    | None => None
    end.
Proof.
  unfold MemoryCache_cleanup; simpl.
  destruct (items c !! key) as [item|] eqn:E.
  - destruct (After now (expiration item)) eqn:EA.
    + apply map_lookup_filter_None. right. intros x Hx. simpl.
      rewrite E in Hx. inversion Hx; subst. rewrite EA. discriminate.
    + apply map_lookup_filter_Some. split; [exact E | exact EA].
  - apply map_lookup_filter_None. left. exact E.
Qed.

Lemma Get_stale (now : Time) (key : string) (c : MemoryCache) :
  stale now key c -> MemoryCache_Get now key c = (ANil, false).
Proof.
  unfold stale, MemoryCache_Get. intros H.
  destruct (items c !! key) as [item|]; [|reflexivity].
  rewrite (H item eq_refl). reflexivity.
Qed.

Lemma Get_holds (now : Time) (key : string) (v : Any) (limit : Time) (c : MemoryCache) :
  holds key v limit c -> After now limit = false ->
  MemoryCache_Get now key c = (v, true).
Proof.
  unfold holds, MemoryCache_Get. intros -> H. simpl. rewrite H. reflexivity.
Qed.

Lemma stale_step (now : Time) (key : string) (o : cache_op) (c : MemoryCache) :
  sets key o = false -> stale now key c -> stale now key (run_op o c).
Proof.
  unfold stale. intros Hs H item.
  destruct o as [t k v d | k | t k | t];
    cbn [run_op sets MemoryCache_Set MemoryCache_Delete items] in *.
  - apply bool_decide_eq_false in Hs.
    rewrite lookup_insert_ne by exact Hs. apply H.
  - destruct (decide (k = key)) as [->|Hne].
    + rewrite lookup_delete_eq. discriminate.
    + rewrite lookup_delete_ne by exact Hne. apply H.
  - apply H.
  - rewrite cleanup_lookup.
    destruct (items c !! key) as [it|] eqn:E; [|discriminate].
    destruct (After t (expiration it)); [discriminate|].
    intros Hi. inversion Hi; subst. apply H. reflexivity.
Qed.

Lemma stale_run (now : Time) (key : string) (os : list cache_op) (c : MemoryCache) :
  forallb (fun o => negb (sets key o)) os = true ->
  stale now key c -> stale now key (run_ops os c).
Proof.
  revert c. induction os as [|o os IH]; intros c Hos H; [exact H|].
  simpl in Hos. apply andb_prop in Hos as [Ho Hos].
  apply negb_true_iff in Ho.
  unfold run_ops. simpl. apply IH; [exact Hos|].
  apply stale_step; assumption.
Qed.

Lemma holds_step (key : string) (v : Any) (limit : Time) (o : cache_op) (c : MemoryCache) :
  sets key o = false -> deletes key o = false -> sweeps_after limit o = false ->
  holds key v limit c -> holds key v limit (run_op o c).
Proof.
  unfold holds. intros Hs Hd Hw H.
  destruct o as [t k w d | k | t k | t];
    cbn [run_op sets deletes sweeps_after MemoryCache_Set MemoryCache_Delete items] in *.
  - apply bool_decide_eq_false in Hs.
    rewrite lookup_insert_ne by exact Hs. exact H.
  - apply bool_decide_eq_false in Hd.
    rewrite lookup_delete_ne by exact Hd. exact H.
  - exact H.
  - rewrite cleanup_lookup, H. simpl. rewrite Hw. reflexivity.
Qed.

Lemma holds_run (key : string) (v : Any) (limit : Time) (os : list cache_op) (c : MemoryCache) :
  forallb (fun o => negb (sets key o || deletes key o || sweeps_after limit o)) os = true ->
  holds key v limit c -> holds key v limit (run_ops os c).
Proof.
  revert c. induction os as [|o os IH]; intros c Hos H; [exact H|].
  simpl in Hos. apply andb_prop in Hos as [Ho Hos].
  apply negb_true_iff in Ho.
  apply orb_false_elim in Ho as [Ho Hw]. apply orb_false_elim in Ho as [Hs Hd].
  unfold run_ops. simpl. apply IH; [exact Hos|].
  apply holds_step; assumption.
Qed.

(** C2.  [Get] never finds an entry whose expiration has passed: when the
    stored entry of a key expired before [now], [Get] at [now] returns
    [(nil, false)], directly and after any further operations among sweeps,
    deletes, reads and writes of other keys. *)
Theorem MemoryCache_Get_never_expired :
  forall (c : MemoryCache) (key : string) (item : cacheItem) (now : Time)
         (os : list cache_op),
    items c !! key = Some item ->
    After now (expiration item) = true ->
    forallb (fun o => negb (sets key o)) os = true ->
    MemoryCache_Get now key c = (ANil, false)
    /\ MemoryCache_Get now key (run_ops os c) = (ANil, false).
Proof.
  intros c key item now os Hitem Hexp Hos.
  assert (Hst : stale now key c).
  { intros it Hit. rewrite Hitem in Hit. inversion Hit; subst. exact Hexp. }
  split.
  - apply Get_stale. exact Hst.
  - apply Get_stale. apply stale_run; assumption.
Qed.

Lemma MemoryCache_Get_never_expired_witness :
  let c := MemoryCache_Set (mkTime 0 0) "k" (AInt 7) (1 * Second) NewMemoryCache in
  let now := mkTime (2 * Second) 0 in
  MemoryCache_Get now "k" c = (ANil, false)
  /\ MemoryCache_Get now "k" (run_ops [OpCleanup (mkTime 1 0); OpGet now "k"] c)
     = (ANil, false).
Proof.
  intros c now.
  apply (MemoryCache_Get_never_expired c "k" (mkItem (AInt 7) (mkTime (1 * Second) 0)) now).
  - reflexivity.
  - reflexivity.
  - reflexivity.
Defined.

(** C10.  In-memory round trip.  (1) After [Set key v ttl] at [t0], a [Get]
    no later than the expiration [t0 + ttl] returns [(v, true)], whatever
    happened in between to other keys and whatever sweeps ran up to then.
    (2) After [Delete key], a [Get] returns [(nil, false)] as long as no
    [Set] of that key came in between.  (3) A [Set] on an existing key
    replaces the entry: the second value is the one read back. *)
Theorem MemoryCache_round_trip :
  (forall (c : MemoryCache) (key : string) (v : Any) (ttl : Duration) (t0 t1 : Time)
          (os : list cache_op),
      0 < ttl ->
      After t1 (Add t0 ttl) = false ->
      forallb (fun o => negb (sets key o || deletes key o || sweeps_after (Add t0 ttl) o)) os
        = true ->
      MemoryCache_Get t1 key (run_ops os (MemoryCache_Set t0 key v ttl c)) = (v, true))
  /\ (forall (c : MemoryCache) (key : string) (t : Time) (os : list cache_op),
      forallb (fun o => negb (sets key o)) os = true ->
      MemoryCache_Get t key (run_ops os (MemoryCache_Delete key c)) = (ANil, false))
  /\ (forall (c : MemoryCache) (key : string) (v1 v2 : Any) (d1 d2 : Duration)
          (t1 t2 t : Time),
      After t (Add t2 d2) = false ->
      MemoryCache_Set t2 key v2 d2 (MemoryCache_Set t1 key v1 d1 c)
        = MemoryCache_Set t2 key v2 d2 c
      /\ MemoryCache_Get t key (MemoryCache_Set t2 key v2 d2 (MemoryCache_Set t1 key v1 d1 c))
         = (v2, true)).
Proof.
  split; [|split].
  - intros c key v ttl t0 t1 os _ Hlive Hos.
    apply Get_holds with (limit := Add t0 ttl); [|exact Hlive].
    apply holds_run; [exact Hos|].
    unfold holds, MemoryCache_Set. simpl. apply lookup_insert_eq.
  - intros c key t os Hos.
    apply Get_stale. apply stale_run; [exact Hos|].
    intros item. unfold MemoryCache_Delete. simpl.
    rewrite lookup_delete_eq. discriminate.
  - intros c key v1 v2 d1 d2 t1 t2 t Hlive. split.
    + unfold MemoryCache_Set. simpl. f_equal. apply insert_insert_eq.
    + apply Get_holds with (limit := Add t2 d2); [|exact Hlive].
      unfold holds, MemoryCache_Set. simpl. apply lookup_insert_eq.
Qed.

Lemma MemoryCache_round_trip_witness :
  let t0 := mkTime 0 0 in
  let c := MemoryCache_Set t0 "k" (AInt 1) Minute NewMemoryCache in
  MemoryCache_Get (mkTime (30 * Second) 0) "k"
    (run_ops [OpSet t0 "j" ANil Second; OpDelete "j"; OpCleanup (mkTime (10 * Second) 0)]
       (MemoryCache_Set t0 "k" (AString "v") Minute c)) = (AString "v", true)
  /\ MemoryCache_Get t0 "k" (run_ops [OpCleanup t0] (MemoryCache_Delete "k" c)) = (ANil, false)
  /\ MemoryCache_Get t0 "k" (MemoryCache_Set t0 "k" (AInt 2) Minute c) = (AInt 2, true).
Proof.
  intros t0 c.
  destruct MemoryCache_round_trip as [Hset [Hdel Hover]].
  split; [|split].
  - apply Hset; reflexivity.
  - apply Hdel; reflexivity.
  - apply (Hover NewMemoryCache "k" (AInt 1) (AInt 2) Minute Minute t0 t0 t0). reflexivity.
Defined.

(** ** The loops of the service *)

Lemma range_from_convert (data : list Any) : forall (done : list GoMap),
  range_from convert_body (length done) data (done ++ make None (length data))
  = done ++ map coerce data.
Proof.
  induction data as [|item data IH]; intros done; simpl.
  - reflexivity.
  - replace (convert_body (length done) item (done ++ None :: make None (length data)))
      with ((done ++ [coerce item]) ++ make None (length data)).
    + replace (S (length done)) with (length (done ++ [coerce item]))
        by (rewrite length_app; simpl; apply Nat.add_1_r).
      rewrite IH, <- app_assoc. reflexivity.
    + rewrite <- app_assoc. simpl.
      destruct item; simpl; try reflexivity.
      rewrite insert_app_r_alt by apply Nat.le_refl.
      rewrite Nat.sub_diag. reflexivity.
Qed.

Lemma range_convert (data : list Any) :
  range convert_body data (make None (length data)) = map coerce data.
Proof. apply (range_from_convert data []). Qed.

Lemma range_from_copy (results : list bsonM) : forall (done : list GoMap),
  range_from copy_body (length done) results (done ++ make None (length results))
  = done ++ results.
Proof.
  induction results as [|row results IH]; intros done; simpl.
  - reflexivity.
  - replace (copy_body (length done) row (done ++ None :: make None (length results)))
      with ((done ++ [row]) ++ make None (length results)).
    + replace (S (length done)) with (length (done ++ [row]))
        by (rewrite length_app; simpl; apply Nat.add_1_r).
      rewrite IH, <- app_assoc. reflexivity.
    + rewrite <- app_assoc. simpl. unfold copy_body.
      rewrite insert_app_r_alt by apply Nat.le_refl.
      rewrite Nat.sub_diag. reflexivity.
Qed.

Lemma range_copy (results : list bsonM) :
  range copy_body results (make None (length results)) = results.
Proof. apply (range_from_copy results []). Qed.

Lemma coerce_lookup (data : list Any) (i : nat) :
  map coerce data !! i = coerce <$> data !! i.
Proof. apply list_lookup_fmap. Qed.

(** ** The two ways through an operation *)

Section Paths.
Context {C R : Type} {cacheImpl : Cache C} {repoImpl : TransactionRepositoryInterface R}.
Variable ParseFloat : string -> float * option error.

Implicit Types (w : @World C R) (from to : Time) (v : Any).

Lemma GGR_hit w from to v c1 x :
  Cache_Get (now w) (GGRKey from to) (cache w) = (v, true, c1) ->
  rows_hit v = Some x ->
  TransactionService_CalculateGGR from to w
  = (Ret (x, None), mkWorld (now w) c1 (repo w) (logged w)).
Proof.
  intros HGet Hhit.
  unfold TransactionService_CalculateGGR, bind, cache_Get.
  fold (GGRKey from to). rewrite HGet. cbn.
  destruct v; try discriminate; cbn in Hhit |- *; inversion Hhit; subst.
  - unfold ret. rewrite range_convert. reflexivity.
  - reflexivity.
Qed.

Lemma GGR_miss w from to v found c1 :
  Cache_Get (now w) (GGRKey from to) (cache w) = (v, found, c1) ->
  found = false \/ rows_hit v = None ->
  TransactionService_CalculateGGR from to w
  = let l := log_after found (GGRKey from to) (logged w) in
    match repo_CalculateGGR from to (repo w) with
    | (Panic msg, r') => (Panic msg, mkWorld (now w) c1 r' l)
    | (Ret (_, Some e), r') => (Ret (None, Some e), mkWorld (now w) c1 r' l)
    | (Ret (results, None), r') =>
        (Ret (Some (elems results), None),
         mkWorld (now w)
           (Cache_Set (now w) (GGRKey from to) (ASliceMap (Some (elems results)))
              (5 * Minute) c1) r' l)
    end.
Proof.
  intros HGet Hmiss.
  unfold TransactionService_CalculateGGR, bind, cache_Get.
  fold (GGRKey from to). rewrite HGet. cbn.
  assert (Hq : forall l,
    (let (o, w') := call_repo (repo_CalculateGGR from to) (mkWorld (now w) c1 (repo w) l) in
     match o with
     | Ret a =>
         (let '(results, err) := a in
          match err with
          | Some e => ret (None, Some e)
          | None =>
              bind (cache_Set (GGRKey from to)
                      (ASliceMap (Some (range copy_body (elems results)
                                          (make None (length (elems results))))))
                      (5 * Minute))
                (fun _ => ret (Some (range copy_body (elems results)
                                       (make None (length (elems results)))), None))
          end) w'
     | Panic msg => (Panic msg, w')
     end)
    = match repo_CalculateGGR from to (repo w) with
      | (Panic msg, r') => (Panic msg, mkWorld (now w) c1 r' l)
      | (Ret (_, Some e), r') => (Ret (None, Some e), mkWorld (now w) c1 r' l)
      | (Ret (results, None), r') =>
          (Ret (Some (elems results), None),
           mkWorld (now w)
             (Cache_Set (now w) (GGRKey from to) (ASliceMap (Some (elems results)))
                (5 * Minute) c1) r' l)
      end).
  { intros l. unfold call_repo. cbn.
    destruct (repo_CalculateGGR from to (repo w)) as [[[results [e|]]|msg] r']; cbn;
      try reflexivity.
    rewrite range_copy. reflexivity. }
  destruct found; cbn.
  - destruct Hmiss as [Hf|Hmiss]; [discriminate|].
    destruct v; try discriminate; cbn; apply Hq.
  - apply Hq.
Qed.

Lemma DailyWager_hit w from to v c1 x :
  Cache_Get (now w) (DailyWagerKey from to) (cache w) = (v, true, c1) ->
  rows_hit v = Some x ->
  TransactionService_CalculateDailyWagerVolume from to w
  = (Ret (x, None), mkWorld (now w) c1 (repo w) (logged w)).
Proof.
  intros HGet Hhit.
  unfold TransactionService_CalculateDailyWagerVolume, bind, cache_Get.
  fold (DailyWagerKey from to). rewrite HGet. cbn.
  destruct v; try discriminate; cbn in Hhit |- *; inversion Hhit; subst.
  - unfold ret. rewrite range_convert. reflexivity.
  - reflexivity.
Qed.

Lemma DailyWager_miss w from to v found c1 :
  Cache_Get (now w) (DailyWagerKey from to) (cache w) = (v, found, c1) ->
  found = false \/ rows_hit v = None ->
  TransactionService_CalculateDailyWagerVolume from to w
  = let l := log_after found (DailyWagerKey from to) (logged w) in
    match repo_CalculateDailyWagerVolume from to (repo w) with
    | (Panic msg, r') => (Panic msg, mkWorld (now w) c1 r' l)
    | (Ret (_, Some e), r') => (Ret (None, Some e), mkWorld (now w) c1 r' l)
    | (Ret (results, None), r') =>
        (Ret (Some (elems results), None),
         mkWorld (now w)
           (Cache_Set (now w) (DailyWagerKey from to) (ASliceMap (Some (elems results)))
              (5 * Minute) c1) r' l)
    end.
Proof.
  intros HGet Hmiss.
  unfold TransactionService_CalculateDailyWagerVolume, bind, cache_Get.
  fold (DailyWagerKey from to). rewrite HGet. cbn.
  assert (Hq : forall l,
    (let (o, w') := call_repo (repo_CalculateDailyWagerVolume from to)
                      (mkWorld (now w) c1 (repo w) l) in
     match o with
     | Ret a =>
         (let '(results, err) := a in
          match err with
          | Some e => ret (None, Some e)
          | None =>
              bind (cache_Set (DailyWagerKey from to)
                      (ASliceMap (Some (range copy_body (elems results)
                                          (make None (length (elems results))))))
                      (5 * Minute))
                (fun _ => ret (Some (range copy_body (elems results)
                                       (make None (length (elems results)))), None))
          end) w'
     | Panic msg => (Panic msg, w')
     end)
    = match repo_CalculateDailyWagerVolume from to (repo w) with
      | (Panic msg, r') => (Panic msg, mkWorld (now w) c1 r' l)
      | (Ret (_, Some e), r') => (Ret (None, Some e), mkWorld (now w) c1 r' l)
      | (Ret (results, None), r') =>
          (Ret (Some (elems results), None),
           mkWorld (now w)
             (Cache_Set (now w) (DailyWagerKey from to) (ASliceMap (Some (elems results)))
                (5 * Minute) c1) r' l)
      end).
  { intros l. unfold call_repo. cbn.
    destruct (repo_CalculateDailyWagerVolume from to (repo w))
      as [[[results [e|]]|msg] r']; cbn; try reflexivity.
    rewrite range_copy. reflexivity. }
  destruct found; cbn.
  - destruct Hmiss as [Hf|Hmiss]; [discriminate|].
    destruct v; try discriminate; cbn; apply Hq.
  - apply Hq.
Qed.

Lemma Percentile_hit w userID from to v c1 x :
  Cache_Get (now w) (PercentileKey userID from to) (cache w) = (v, true, c1) ->
  percentile_hit ParseFloat v = Some x ->
  TransactionService_CalculateUserWagerPercentile ParseFloat userID from to w
  = (Ret (x, None), mkWorld (now w) c1 (repo w) (logged w)).
Proof.
  intros HGet Hhit.
  unfold TransactionService_CalculateUserWagerPercentile, bind, cache_Get.
  fold (PercentileKey userID from to). rewrite HGet. cbn.
  destruct v; try discriminate; cbn in Hhit |- *.
  - inversion Hhit; subst. reflexivity.
  - inversion Hhit; subst. reflexivity.
  - destruct (ParseFloat s) as [val [e|]]; [discriminate|].
    inversion Hhit; subst. reflexivity.
  - destruct (index m "value"); try discriminate.
    inversion Hhit; subst. reflexivity.
Qed.

Lemma Percentile_miss w userID from to v found c1 :
  Cache_Get (now w) (PercentileKey userID from to) (cache w) = (v, found, c1) ->
  found = false \/ percentile_hit ParseFloat v = None ->
  TransactionService_CalculateUserWagerPercentile ParseFloat userID from to w
  = let key := PercentileKey userID from to in
    let l := log_after (found && negb (percentile_shape v)) key (logged w) in
    match repo_CalculateUserWagerPercentile userID from to (repo w) with
    | (Panic msg, r') => (Panic msg, mkWorld (now w) c1 r' l)
    | (Ret (_, Some e), r') => (Ret (0%float, Some e), mkWorld (now w) c1 r' l)
    | (Ret (percentile, None), r') =>
        (Ret (percentile, None),
         mkWorld (now w)
           (Cache_Set (now w) key (AFloat64 percentile) (5 * Minute) c1) r' l)
    end.
Proof.
  intros HGet Hmiss.
  unfold TransactionService_CalculateUserWagerPercentile, bind, cache_Get.
  fold (PercentileKey userID from to). rewrite HGet. cbn.
  assert (Hq : forall l,
    (let (o, w') := call_repo (repo_CalculateUserWagerPercentile userID from to)
                      (mkWorld (now w) c1 (repo w) l) in
     match o with
     | Ret a =>
         (let '(percentile, err) := a in
          match err with
          | Some e => ret (0%float, Some e)
          | None =>
              bind (cache_Set (PercentileKey userID from to) (AFloat64 percentile)
                      (5 * Minute))
                (fun _ => ret (percentile, None))
          end) w'
     | Panic msg => (Panic msg, w')
     end)
    = match repo_CalculateUserWagerPercentile userID from to (repo w) with
      | (Panic msg, r') => (Panic msg, mkWorld (now w) c1 r' l)
      | (Ret (_, Some e), r') => (Ret (0%float, Some e), mkWorld (now w) c1 r' l)
      | (Ret (percentile, None), r') =>
          (Ret (percentile, None),
           mkWorld (now w)
             (Cache_Set (now w) (PercentileKey userID from to) (AFloat64 percentile)
                (5 * Minute) c1) r' l)
      end).
  { intros l. unfold call_repo. cbn.
    destruct (repo_CalculateUserWagerPercentile userID from to (repo w))
      as [[[percentile [e|]]|msg] r']; cbn; reflexivity. }
  destruct found; cbn.
  - destruct Hmiss as [Hf|Hmiss]; [discriminate|].
    destruct v; try discriminate; cbn in Hmiss |- *; try apply Hq.
    + destruct (ParseFloat s) as [val [e|]]; [apply Hq|discriminate].
    + destruct (index m "value"); try discriminate; apply Hq.
  - apply Hq.
Qed.
End Paths.

(** ** Cache hits and the repository *)

Lemma rows_hit_cases (v : Any) (found : bool) :
  (found = true /\ exists x, rows_hit v = Some x) \/ (found = false \/ rows_hit v = None).
Proof.
  destruct found; [|right; left; reflexivity].
  destruct (rows_hit v) as [x|]; [left|right; right; reflexivity].
  split; [reflexivity|exists x; reflexivity].
Qed.

Lemma percentile_hit_cases (PF : string -> float * option error) (v : Any) (found : bool) :
  (found = true /\ exists x, percentile_hit PF v = Some x)
  \/ (found = false \/ percentile_hit PF v = None).
Proof.
  destruct found; [|right; left; reflexivity].
  destruct (percentile_hit PF v) as [x|]; [left|right; right; reflexivity].
  split; [reflexivity|exists x; reflexivity].
Qed.

Section MockCalls.
Context {C : Type} {cacheImpl : Cache C}.
Variable ParseFloat : string -> float * option error.

Implicit Types (w : @World C MockTransactionRepository).

(** Every operation calls the repository at most once. *)
Lemma GGR_calls_once w from to :
  (calls (repo (TransactionService_CalculateGGR from to w).2) <= calls (repo w) + 1)%nat.
Proof.
  destruct (Cache_Get (now w) (GGRKey from to) (cache w)) as [[v found] c1] eqn:HGet.
  destruct (rows_hit_cases v found) as [[-> [x Hx]]|Hmiss].
  - rewrite (GGR_hit w from to v c1 x HGet Hx). simpl. apply Nat.le_add_r.
  - rewrite (GGR_miss w from to v found c1 HGet Hmiss). cbn.
    destruct (CalculateGGRFn (repo w) from to) as [[results [e|]]|msg];
      cbn; unfold calls; cbn; rewrite length_app; cbn;
      rewrite <- !Nat.add_assoc, (Nat.add_comm 1), !Nat.add_assoc; apply Nat.le_refl.
Qed.

Lemma DailyWager_calls_once w from to :
  (calls (repo (TransactionService_CalculateDailyWagerVolume from to w).2)
   <= calls (repo w) + 1)%nat.
Proof.
  destruct (Cache_Get (now w) (DailyWagerKey from to) (cache w)) as [[v found] c1] eqn:HGet.
  destruct (rows_hit_cases v found) as [[-> [x Hx]]|Hmiss].
  - rewrite (DailyWager_hit w from to v c1 x HGet Hx). simpl. apply Nat.le_add_r.
  - rewrite (DailyWager_miss w from to v found c1 HGet Hmiss). cbn.
    destruct (CalculateDailyWagerVolumeFn (repo w) from to) as [[results [e|]]|msg];
      cbn; unfold calls; cbn; rewrite length_app; cbn;
      rewrite <- !Nat.add_assoc, (Nat.add_comm 1 (length _)), !Nat.add_assoc;
      apply Nat.le_refl.
Qed.

Lemma Percentile_calls_once w userID from to :
  (calls (repo (TransactionService_CalculateUserWagerPercentile ParseFloat userID from to w).2)
   <= calls (repo w) + 1)%nat.
Proof.
  destruct (Cache_Get (now w) (PercentileKey userID from to) (cache w))
    as [[v found] c1] eqn:HGet.
  destruct (percentile_hit_cases ParseFloat v found) as [[-> [x Hx]]|Hmiss].
  - rewrite (Percentile_hit ParseFloat w userID from to v c1 x HGet Hx). simpl.
    apply Nat.le_add_r.
  - rewrite (Percentile_miss ParseFloat w userID from to v found c1 HGet Hmiss). cbn.
    destruct (CalculateUserWagerPercentileFn (repo w) userID from to)
      as [[percentile [e|]]|msg];
      cbn; unfold calls; cbn; rewrite length_app; cbn;
      rewrite !Nat.add_assoc; apply Nat.le_refl.
Qed.
End MockCalls.

Section Twice.
Context {C : Type} {cacheImpl : Cache C}.
Variable ParseFloat : string -> float * option error.
Hypothesis cache_live : live C.

Implicit Types (w : @World C MockTransactionRepository).

Lemma GGR_twice w from to (t : Time) :
  succeeded (TransactionService_CalculateGGR from to w).1 ->
  After t (Add (now w) (5 * Minute)) = false ->
  (calls (repo (TransactionService_CalculateGGR from to
                  (at_time t (TransactionService_CalculateGGR from to w).2)).2)
   <= calls (repo w) + 1)%nat.
Proof.
  intros [a Ha] Ht.
  destruct (Cache_Get (now w) (GGRKey from to) (cache w)) as [[v found] c1] eqn:HGet.
  destruct (rows_hit_cases v found) as [[-> [x Hx]]|Hmiss].
  - rewrite (GGR_hit w from to v c1 x HGet Hx) in *. cbn.
    apply (GGR_calls_once (at_time t (mkWorld (now w) c1 (repo w) (logged w)))).
  - rewrite (GGR_miss w from to v found c1 HGet Hmiss) in *. cbn in *.
    destruct (CalculateGGRFn (repo w) from to) as [[results [e|]]|msg];
      cbn in *; try discriminate.
    destruct (cache_live (now w) t (GGRKey from to) (ASliceMap (Some (elems results)))
                (5 * Minute) c1 Ht) as [c2 Hc2].
    erewrite GGR_hit; [| cbn; exact Hc2 | reflexivity].
    cbn. unfold calls. cbn. rewrite length_app. cbn.
    rewrite <- !Nat.add_assoc, (Nat.add_comm 1), !Nat.add_assoc. apply Nat.le_refl.
Qed.

Lemma DailyWager_twice w from to (t : Time) :
  succeeded (TransactionService_CalculateDailyWagerVolume from to w).1 ->
  After t (Add (now w) (5 * Minute)) = false ->
  (calls (repo (TransactionService_CalculateDailyWagerVolume from to
                  (at_time t (TransactionService_CalculateDailyWagerVolume from to w).2)).2)
   <= calls (repo w) + 1)%nat.
Proof.
  intros [a Ha] Ht.
  destruct (Cache_Get (now w) (DailyWagerKey from to) (cache w)) as [[v found] c1] eqn:HGet.
  destruct (rows_hit_cases v found) as [[-> [x Hx]]|Hmiss].
  - rewrite (DailyWager_hit w from to v c1 x HGet Hx) in *. cbn.
    apply (DailyWager_calls_once (at_time t (mkWorld (now w) c1 (repo w) (logged w)))).
  - rewrite (DailyWager_miss w from to v found c1 HGet Hmiss) in *. cbn in *.
    destruct (CalculateDailyWagerVolumeFn (repo w) from to) as [[results [e|]]|msg];
      cbn in *; try discriminate.
    destruct (cache_live (now w) t (DailyWagerKey from to)
                (ASliceMap (Some (elems results))) (5 * Minute) c1 Ht) as [c2 Hc2].
    erewrite DailyWager_hit; [| cbn; exact Hc2 | reflexivity].
    cbn. unfold calls. cbn. rewrite length_app. cbn.
    rewrite <- !Nat.add_assoc, (Nat.add_comm 1 (length _)), !Nat.add_assoc.
    apply Nat.le_refl.
Qed.

Lemma Percentile_twice w userID from to (t : Time) :
  succeeded (TransactionService_CalculateUserWagerPercentile ParseFloat userID from to w).1 ->
  After t (Add (now w) (5 * Minute)) = false ->
  (calls (repo (TransactionService_CalculateUserWagerPercentile ParseFloat userID from to
                  (at_time t (TransactionService_CalculateUserWagerPercentile
                                ParseFloat userID from to w).2)).2)
   <= calls (repo w) + 1)%nat.
Proof.
  intros [a Ha] Ht.
  destruct (Cache_Get (now w) (PercentileKey userID from to) (cache w))
    as [[v found] c1] eqn:HGet.
  destruct (percentile_hit_cases ParseFloat v found) as [[-> [x Hx]]|Hmiss].
  - rewrite (Percentile_hit ParseFloat w userID from to v c1 x HGet Hx) in *. cbn.
    apply (Percentile_calls_once ParseFloat
             (at_time t (mkWorld (now w) c1 (repo w) (logged w)))).
  - rewrite (Percentile_miss ParseFloat w userID from to v found c1 HGet Hmiss) in *.
    cbn in *.
    destruct (CalculateUserWagerPercentileFn (repo w) userID from to)
      as [[percentile [e|]]|msg]; cbn in *; try discriminate.
    destruct (cache_live (now w) t (PercentileKey userID from to) (AFloat64 percentile)
                (5 * Minute) c1 Ht) as [c2 Hc2].
    erewrite Percentile_hit; [| cbn; exact Hc2 | reflexivity].
    cbn. unfold calls. cbn. rewrite length_app. cbn.
    rewrite !Nat.add_assoc. apply Nat.le_refl.
Qed.
End Twice.

Lemma MemoryCache_live : live MemoryCache.
Proof.
  intros t t' key v d c Ht. exists (MemoryCache_Set t key v d c). cbn.
  rewrite (Get_holds t' key v (Add t d)); [reflexivity| |exact Ht].
  unfold holds, MemoryCache_Set. cbn. apply lookup_insert_eq.
Qed.

(** C1 (amended).  On a cache hit whose value reconstructs, each of the three
    operations returns the reconstructed value, leaves the repository as it
    was and does not depend on which repository it has; and two calls in
    succession with the same parameters against a live cache, the second
    within the five minutes an entry lives, call the repository at most once
    in all, provided the first call returned without error. *)
Theorem cache_hit_skips_repository :
  (forall (C R : Type) (cacheImpl : Cache C) (repoImpl : TransactionRepositoryInterface R)
          (PF : string -> float * option error) (w : @World C R)
          (userID : string) (from to : Time) (v : Any) (c1 : C),
      (forall x,
          Cache_Get (now w) (GGRKey from to) (cache w) = (v, true, c1) ->
          rows_hit v = Some x ->
          TransactionService_CalculateGGR from to w
          = (Ret (x, None), mkWorld (now w) c1 (repo w) (logged w)))
      /\ (forall x,
          Cache_Get (now w) (DailyWagerKey from to) (cache w) = (v, true, c1) ->
          rows_hit v = Some x ->
          TransactionService_CalculateDailyWagerVolume from to w
          = (Ret (x, None), mkWorld (now w) c1 (repo w) (logged w)))
      /\ (forall x,
          Cache_Get (now w) (PercentileKey userID from to) (cache w) = (v, true, c1) ->
          percentile_hit PF v = Some x ->
          TransactionService_CalculateUserWagerPercentile PF userID from to w
          = (Ret (x, None), mkWorld (now w) c1 (repo w) (logged w))))
  /\ (forall (C : Type) (cacheImpl : Cache C) (PF : string -> float * option error)
          (w : @World C MockTransactionRepository) (userID : string) (from to t : Time),
      live C ->
      After t (Add (now w) (5 * Minute)) = false ->
      (succeeded (TransactionService_CalculateGGR from to w).1 ->
       (calls (repo (TransactionService_CalculateGGR from to
                       (at_time t (TransactionService_CalculateGGR from to w).2)).2)
        <= calls (repo w) + 1)%nat)
      /\ (succeeded (TransactionService_CalculateDailyWagerVolume from to w).1 ->
       (calls (repo (TransactionService_CalculateDailyWagerVolume from to
                       (at_time t (TransactionService_CalculateDailyWagerVolume from to w).2)).2)
        <= calls (repo w) + 1)%nat)
      /\ (succeeded (TransactionService_CalculateUserWagerPercentile PF userID from to w).1 ->
       (calls (repo (TransactionService_CalculateUserWagerPercentile PF userID from to
                       (at_time t (TransactionService_CalculateUserWagerPercentile
                                     PF userID from to w).2)).2)
        <= calls (repo w) + 1)%nat)).
Proof.
  split.
  - intros C R cacheImpl repoImpl PF w userID from to v c1. repeat split; intros x HGet Hx.
    + apply (GGR_hit w from to v c1 x HGet Hx).
    + apply (DailyWager_hit w from to v c1 x HGet Hx).
    + apply (Percentile_hit PF w userID from to v c1 x HGet Hx).
  - intros C cacheImpl PF w userID from to t Hlive Ht. repeat split; intros Hok.
    + apply GGR_twice; assumption.
    + apply DailyWager_twice; assumption.
    + apply Percentile_twice; assumption.
Qed.

Lemma cache_hit_skips_repository_witness :
  TransactionService_CalculateGGR jan01 jan31 cached_world
  = (Ret (Some [btc_row], None), cached_world)
  /\ (calls (repo (TransactionService_CalculateUserWagerPercentile ParseFloat_decimal
                     "01HRMD5HGTZB3TW3PGYXRD07CQT" jan01 jan31
                     (at_time (Add jan01 Minute)
                        (TransactionService_CalculateUserWagerPercentile ParseFloat_decimal
                           "01HRMD5HGTZB3TW3PGYXRD07CQT" jan01 jan31 fresh_world).2)).2)
      <= calls (repo fresh_world) + 1)%nat.
Proof.
  destruct cache_hit_skips_repository as [Hhit Htwice].
  split.
  - destruct (Hhit MemoryCache MockTransactionRepository _ _ ParseFloat_decimal cached_world
                EmptyString jan01 jan31 (ASliceMap (Some [btc_row])) (cache cached_world))
      as [HGGR _].
    apply HGGR; reflexivity.
  - destruct (Htwice MemoryCache _ ParseFloat_decimal fresh_world
                "01HRMD5HGTZB3TW3PGYXRD07CQT" jan01 jan31 (Add jan01 Minute)
                MemoryCache_live eq_refl) as [_ [_ HP]].
    apply HP. exists 0%float. reflexivity.
Defined.

(** The second sentence of C1 fails as it stands: when the repository fails,
    nothing is cached, and the second of two calls in succession against a
    live cache calls the repository again. *)
Lemma failing_repository_is_called_twice :
  live MemoryCache
  /\ After jan01 (Add (now failing_world) (5 * Minute)) = false
  /\ ~ (calls (repo (TransactionService_CalculateGGR jan01 jan31
                       (at_time jan01
                          (TransactionService_CalculateGGR jan01 jan31 failing_world).2)).2)
        <= calls (repo failing_world) + 1)%nat.
Proof.
  split; [exact MemoryCache_live|]. split; [reflexivity|].
  vm_compute. intros H. inversion H as [|? H1]. inversion H1.
Qed.

(** C3.  When the repository call of an operation returns an error, the
    operation returns that very error with the zero value (a nil slice, or
    0), and the cache is left as the lookup left it: nothing is stored.
    Conversely an error an operation returns is the one its repository call
    returned.  With the in-memory cache the state is the initial one. *)
Theorem repository_error_is_returned_uncached :
  (forall (C R : Type) (cacheImpl : Cache C) (repoImpl : TransactionRepositoryInterface R)
          (PF : string -> float * option error) (w : @World C R)
          (userID : string) (from to : Time) (e : error),
      (forall v found c1 results r',
          Cache_Get (now w) (GGRKey from to) (cache w) = (v, found, c1) ->
          found = false \/ rows_hit v = None ->
          repo_CalculateGGR from to (repo w) = (Ret (results, Some e), r') ->
          TransactionService_CalculateGGR from to w
          = (Ret (None, Some e),
             mkWorld (now w) c1 r' (log_after found (GGRKey from to) (logged w))))
      /\ (forall v found c1 results r',
          Cache_Get (now w) (DailyWagerKey from to) (cache w) = (v, found, c1) ->
          found = false \/ rows_hit v = None ->
          repo_CalculateDailyWagerVolume from to (repo w) = (Ret (results, Some e), r') ->
          TransactionService_CalculateDailyWagerVolume from to w
          = (Ret (None, Some e),
             mkWorld (now w) c1 r' (log_after found (DailyWagerKey from to) (logged w))))
      /\ (forall v found c1 p r',
          Cache_Get (now w) (PercentileKey userID from to) (cache w) = (v, found, c1) ->
          found = false \/ percentile_hit PF v = None ->
          repo_CalculateUserWagerPercentile userID from to (repo w) = (Ret (p, Some e), r') ->
          TransactionService_CalculateUserWagerPercentile PF userID from to w
          = (Ret (0%float, Some e),
             mkWorld (now w) c1 r'
               (log_after (found && negb (percentile_shape v))
                  (PercentileKey userID from to) (logged w))))
      /\ (forall x w',
          TransactionService_CalculateGGR from to w = (Ret (x, Some e), w') ->
          x = None
          /\ cache w' = (Cache_Get (now w) (GGRKey from to) (cache w)).2
          /\ exists results,
               repo_CalculateGGR from to (repo w) = (Ret (results, Some e), repo w'))
      /\ (forall x w',
          TransactionService_CalculateDailyWagerVolume from to w = (Ret (x, Some e), w') ->
          x = None
          /\ cache w' = (Cache_Get (now w) (DailyWagerKey from to) (cache w)).2
          /\ exists results,
               repo_CalculateDailyWagerVolume from to (repo w)
               = (Ret (results, Some e), repo w'))
      /\ (forall x w',
          TransactionService_CalculateUserWagerPercentile PF userID from to w
          = (Ret (x, Some e), w') ->
          x = 0%float
          /\ cache w' = (Cache_Get (now w) (PercentileKey userID from to) (cache w)).2
          /\ exists p,
               repo_CalculateUserWagerPercentile userID from to (repo w)
               = (Ret (p, Some e), repo w')))
  /\ (forall (R : Type) (repoImpl : TransactionRepositoryInterface R)
          (PF : string -> float * option error) (w : @World MemoryCache R)
          (userID : string) (from to : Time) (e : error),
      (forall x w',
          TransactionService_CalculateGGR from to w = (Ret (x, Some e), w') ->
          cache w' = cache w)
      /\ (forall x w',
          TransactionService_CalculateDailyWagerVolume from to w = (Ret (x, Some e), w') ->
          cache w' = cache w)
      /\ (forall x w',
          TransactionService_CalculateUserWagerPercentile PF userID from to w
          = (Ret (x, Some e), w') ->
          cache w' = cache w)).
Proof.
  assert (Hgen : forall (C R : Type) (cacheImpl : Cache C)
            (repoImpl : TransactionRepositoryInterface R)
            (PF : string -> float * option error) (w : @World C R)
            (userID : string) (from to : Time) (e : error),
      (forall x w',
          TransactionService_CalculateGGR from to w = (Ret (x, Some e), w') ->
          x = None
          /\ cache w' = (Cache_Get (now w) (GGRKey from to) (cache w)).2
          /\ exists results,
               repo_CalculateGGR from to (repo w) = (Ret (results, Some e), repo w'))
      /\ (forall x w',
          TransactionService_CalculateDailyWagerVolume from to w = (Ret (x, Some e), w') ->
          x = None
          /\ cache w' = (Cache_Get (now w) (DailyWagerKey from to) (cache w)).2
          /\ exists results,
               repo_CalculateDailyWagerVolume from to (repo w)
               = (Ret (results, Some e), repo w'))
      /\ (forall x w',
          TransactionService_CalculateUserWagerPercentile PF userID from to w
          = (Ret (x, Some e), w') ->
          x = 0%float
          /\ cache w' = (Cache_Get (now w) (PercentileKey userID from to) (cache w)).2
          /\ exists p,
               repo_CalculateUserWagerPercentile userID from to (repo w)
               = (Ret (p, Some e), repo w'))).
  { intros C R cacheImpl repoImpl PF w userID from to e. repeat split.
    - destruct (Cache_Get (now w) (GGRKey from to) (cache w)) as [[v found] c1] eqn:HGet.
      destruct (rows_hit_cases v found) as [[-> [y Hy]]|Hmiss].
      + rewrite (GGR_hit w from to v c1 y HGet Hy) in H. discriminate.
      + rewrite (GGR_miss w from to v found c1 HGet Hmiss) in H. cbn in H.
        destruct (repo_CalculateGGR from to (repo w)) as [[[results [e'|]]|msg] r'];
          inversion H; reflexivity.
    - destruct (Cache_Get (now w) (GGRKey from to) (cache w)) as [[v found] c1] eqn:HGet.
      destruct (rows_hit_cases v found) as [[-> [y Hy]]|Hmiss].
      + rewrite (GGR_hit w from to v c1 y HGet Hy) in H. discriminate.
      + rewrite (GGR_miss w from to v found c1 HGet Hmiss) in H. cbn in H.
        destruct (repo_CalculateGGR from to (repo w)) as [[[results [e'|]]|msg] r'];
          inversion H; reflexivity.
    - destruct (Cache_Get (now w) (GGRKey from to) (cache w)) as [[v found] c1] eqn:HGet.
      destruct (rows_hit_cases v found) as [[-> [y Hy]]|Hmiss].
      + rewrite (GGR_hit w from to v c1 y HGet Hy) in H. discriminate.
      + rewrite (GGR_miss w from to v found c1 HGet Hmiss) in H. cbn in H.
        destruct (repo_CalculateGGR from to (repo w)) as [[[results [e'|]]|msg] r'];
          inversion H; subst. exists results. reflexivity.
    - destruct (Cache_Get (now w) (DailyWagerKey from to) (cache w))
        as [[v found] c1] eqn:HGet.
      destruct (rows_hit_cases v found) as [[-> [y Hy]]|Hmiss].
      + rewrite (DailyWager_hit w from to v c1 y HGet Hy) in H. discriminate.
      + rewrite (DailyWager_miss w from to v found c1 HGet Hmiss) in H. cbn in H.
        destruct (repo_CalculateDailyWagerVolume from to (repo w))
          as [[[results [e'|]]|msg] r']; inversion H; reflexivity.
    - destruct (Cache_Get (now w) (DailyWagerKey from to) (cache w))
        as [[v found] c1] eqn:HGet.
      destruct (rows_hit_cases v found) as [[-> [y Hy]]|Hmiss].
      + rewrite (DailyWager_hit w from to v c1 y HGet Hy) in H. discriminate.
      + rewrite (DailyWager_miss w from to v found c1 HGet Hmiss) in H. cbn in H.
        destruct (repo_CalculateDailyWagerVolume from to (repo w))
          as [[[results [e'|]]|msg] r']; inversion H; reflexivity.
    - destruct (Cache_Get (now w) (DailyWagerKey from to) (cache w))
        as [[v found] c1] eqn:HGet.
      destruct (rows_hit_cases v found) as [[-> [y Hy]]|Hmiss].
      + rewrite (DailyWager_hit w from to v c1 y HGet Hy) in H. discriminate.
      + rewrite (DailyWager_miss w from to v found c1 HGet Hmiss) in H. cbn in H.
        destruct (repo_CalculateDailyWagerVolume from to (repo w))
          as [[[results [e'|]]|msg] r']; inversion H; subst. exists results. reflexivity.
    - destruct (Cache_Get (now w) (PercentileKey userID from to) (cache w))
        as [[v found] c1] eqn:HGet.
      destruct (percentile_hit_cases PF v found) as [[-> [y Hy]]|Hmiss].
      + rewrite (Percentile_hit PF w userID from to v c1 y HGet Hy) in H. discriminate.
      + rewrite (Percentile_miss PF w userID from to v found c1 HGet Hmiss) in H. cbn in H.
        destruct (repo_CalculateUserWagerPercentile userID from to (repo w))
          as [[[p [e'|]]|msg] r']; inversion H; reflexivity.
    - destruct (Cache_Get (now w) (PercentileKey userID from to) (cache w))
        as [[v found] c1] eqn:HGet.
      destruct (percentile_hit_cases PF v found) as [[-> [y Hy]]|Hmiss].
      + rewrite (Percentile_hit PF w userID from to v c1 y HGet Hy) in H. discriminate.
      + rewrite (Percentile_miss PF w userID from to v found c1 HGet Hmiss) in H. cbn in H.
        destruct (repo_CalculateUserWagerPercentile userID from to (repo w))
          as [[[p [e'|]]|msg] r']; inversion H; reflexivity.
    - destruct (Cache_Get (now w) (PercentileKey userID from to) (cache w))
        as [[v found] c1] eqn:HGet.
      destruct (percentile_hit_cases PF v found) as [[-> [y Hy]]|Hmiss].
      + rewrite (Percentile_hit PF w userID from to v c1 y HGet Hy) in H. discriminate.
      + rewrite (Percentile_miss PF w userID from to v found c1 HGet Hmiss) in H. cbn in H.
        destruct (repo_CalculateUserWagerPercentile userID from to (repo w))
          as [[[p [e'|]]|msg] r']; inversion H; subst. exists p. reflexivity. }
  split.
  - intros C R cacheImpl repoImpl PF w userID from to e.
    destruct (Hgen C R cacheImpl repoImpl PF w userID from to e) as [HG [HD HP]].
    split; [|split; [|split; [|split; [exact HG|split; [exact HD|exact HP]]]]].
    + intros v found c1 results r' HGet Hmiss Hrepo.
      rewrite (GGR_miss w from to v found c1 HGet Hmiss). cbn. rewrite Hrepo. reflexivity.
    + intros v found c1 results r' HGet Hmiss Hrepo.
      rewrite (DailyWager_miss w from to v found c1 HGet Hmiss). cbn.
      rewrite Hrepo. reflexivity.
    + intros v found c1 p r' HGet Hmiss Hrepo.
      rewrite (Percentile_miss PF w userID from to v found c1 HGet Hmiss). cbn.
      rewrite Hrepo. reflexivity.
  - intros R repoImpl PF w userID from to e.
    destruct (Hgen MemoryCache R _ repoImpl PF w userID from to e) as [HG [HD HP]].
    repeat split; intros x w' H.
    + destruct (HG x w' H) as [_ [Hc _]]. exact Hc.
    + destruct (HD x w' H) as [_ [Hc _]]. exact Hc.
    + destruct (HP x w' H) as [_ [Hc _]]. exact Hc.
Qed.

Lemma repository_error_is_returned_uncached_witness :
  TransactionService_CalculateGGR jan01 jan31 failing_world
  = (Ret (None, Some "database error"),
     mkWorld jan01 NewMemoryCache
       (MockTransactionRepository_CalculateGGR jan01 jan31 failing_repo).2 [])
  /\ cache (TransactionService_CalculateUserWagerPercentile ParseFloat_decimal
              test_user jan01 jan31 failing_world).2 = cache failing_world.
Proof.
  destruct repository_error_is_returned_uncached as [Hgen Hmem].
  split.
  - destruct (Hgen MemoryCache MockTransactionRepository _ _ ParseFloat_decimal
                failing_world test_user jan01 jan31 "database error") as [HG _].
    apply (HG ANil false NewMemoryCache None); [reflexivity|left; reflexivity|reflexivity].
  - destruct (Hmem MockTransactionRepository _ ParseFloat_decimal failing_world
                test_user jan01 jan31 "database error") as [_ [_ HP]].
    apply (HP 0%float). reflexivity.
Defined.

(** C9.  When the cached value of a list operation is a generic sequence,
    the operation succeeds with a list of the same length, repository and
    log untouched; the slot of an element that is a generic map holds that
    map, the slot of any other element holds the nil map. *)
Theorem list_reconstruction_is_per_element :
  forall (C R : Type) (cacheImpl : Cache C) (repoImpl : TransactionRepositoryInterface R)
         (w : @World C R) (from to : Time) (data : slice Any) (c1 : C),
    (Cache_Get (now w) (GGRKey from to) (cache w) = (ASliceAny data, true, c1) ->
     exists result,
       TransactionService_CalculateGGR from to w
       = (Ret (Some result, None), mkWorld (now w) c1 (repo w) (logged w))
       /\ length result = length (elems data)
       /\ forall i item, elems data !! i = Some item ->
            result !! i = Some match item with AMap m => m | _ => None end)
    /\ (Cache_Get (now w) (DailyWagerKey from to) (cache w) = (ASliceAny data, true, c1) ->
     exists result,
       TransactionService_CalculateDailyWagerVolume from to w
       = (Ret (Some result, None), mkWorld (now w) c1 (repo w) (logged w))
       /\ length result = length (elems data)
       /\ forall i item, elems data !! i = Some item ->
            result !! i = Some match item with AMap m => m | _ => None end).
Proof.
  intros C R cacheImpl repoImpl w from to data c1.
  assert (Hslots : length (map coerce (elems data)) = length (elems data)
                   /\ forall i item, elems data !! i = Some item ->
                        map coerce (elems data) !! i
                        = Some match item with AMap m => m | _ => None end).
  { split; [apply length_map|].
    intros i item Hi. rewrite coerce_lookup, Hi. reflexivity. }
  split; intros HGet; exists (map coerce (elems data)); (split; [|exact Hslots]).
  - apply (GGR_hit w from to (ASliceAny data) c1 _ HGet). reflexivity.
  - apply (DailyWager_hit w from to (ASliceAny data) c1 _ HGet). reflexivity.
Qed.

Lemma list_reconstruction_is_per_element_witness :
  let w := decoded_world in
  let data := Some [AMap btc_row; AString "BTC"; ABsonM btc_row; ANil] in
  exists result,
    TransactionService_CalculateGGR jan01 jan31 w
    = (Ret (Some result, None), mkWorld (now w) (cache w) (repo w) (logged w))
    /\ length result = length (elems data)
    /\ forall i item, elems data !! i = Some item ->
         result !! i = Some match item with AMap m => m | _ => None end.
Proof.
  intros w data.
  destruct (list_reconstruction_is_per_element MemoryCache MockTransactionRepository _ _
              w jan01 jan31 data (cache w)) as [HG _].
  apply HG. vm_compute. reflexivity.
Defined.

Example decoded_rows_result :
  (TransactionService_CalculateGGR jan01 jan31 decoded_world).1
  = Ret (Some [btc_row; None; None; None], None).
Proof. vm_compute. reflexivity. Qed.

(** C6.  On a found value the percentile operation accepts four shapes and
    returns without touching the repository: a float, an int (converted), a
    string that [ParseFloat] reads (the number read), and a generic map
    whose ["value"] is a float (that float; the map with that one field is
    the instance of the claim). *)
Theorem percentile_accepts_numeric_shapes :
  forall (C R : Type) (cacheImpl : Cache C) (repoImpl : TransactionRepositoryInterface R)
         (PF : string -> float * option error) (w : @World C R)
         (userID : string) (from to : Time) (v : Any) (c1 : C),
    Cache_Get (now w) (PercentileKey userID from to) (cache w) = (v, true, c1) ->
    let hit x :=
      TransactionService_CalculateUserWagerPercentile PF userID from to w
      = (Ret (x, None), mkWorld (now w) c1 (repo w) (logged w)) in
    (forall s val, v = AString s -> PF s = (val, None) -> hit val)
    /\ (forall f, v = AFloat64 f -> hit f)
    /\ (forall n, v = AInt n -> hit (float64_of_int n))
    /\ (forall m f, v = AMap m -> index m "value" = AFloat64 f -> hit f)
    /\ (forall f, v = AMap (Some {["value" := AFloat64 f]}) -> hit f).
Proof.
  intros C R cacheImpl repoImpl PF w userID from to v c1 HGet hit. subst hit.
  repeat split.
  - intros s val -> HPF.
    apply (Percentile_hit PF w userID from to _ c1 val HGet). cbn. rewrite HPF. reflexivity.
  - intros f ->. apply (Percentile_hit PF w userID from to _ c1 f HGet). reflexivity.
  - intros n ->. apply (Percentile_hit PF w userID from to _ c1 _ HGet). reflexivity.
  - intros m f -> Hm.
    apply (Percentile_hit PF w userID from to _ c1 f HGet). cbn. rewrite Hm. reflexivity.
  - intros f ->.
    apply (Percentile_hit PF w userID from to _ c1 f HGet). cbn.
    rewrite lookup_singleton_eq. reflexivity.
Qed.

Lemma percentile_accepts_numeric_shapes_witness :
  let w := percentile_world (AString "95.5") in
  TransactionService_CalculateUserWagerPercentile ParseFloat_decimal test_user jan01 jan31 w
  = (Ret (95.5%float, None), mkWorld (now w) (cache w) (repo w) (logged w)).
Proof.
  intros w.
  assert (HGet : Cache_Get (now w) (PercentileKey test_user jan01 jan31) (cache w)
                 = (AString "95.5", true, cache w)) by (vm_compute; reflexivity).
  destruct (percentile_accepts_numeric_shapes MemoryCache MockTransactionRepository _ _
              ParseFloat_decimal w test_user jan01 jan31 (AString "95.5") (cache w) HGet)
    as [Hstring _].
  apply (Hstring "95.5" 95.5%float); [reflexivity|vm_compute; reflexivity].
Defined.

(** ** Failures of the cache *)

Section CacheFailure.
Context {C R : Type} {cacheImpl : Cache C} {repoImpl : TransactionRepositoryInterface R}.
Variable PF : string -> float * option error.

Implicit Types (w : @World C R).

(** When the lookup finds nothing, the outcome is the repository's, whatever
    the cache does with what it is given to store. *)
Lemma GGR_unfound w from to v c1 :
  Cache_Get (now w) (GGRKey from to) (cache w) = (v, false, c1) ->
  (TransactionService_CalculateGGR from to w).1
  = rows_of_repo (repo_CalculateGGR from to (repo w)).1.
Proof.
  intros HGet. rewrite (GGR_miss w from to v false c1 HGet (or_introl eq_refl)). cbn.
  destruct (repo_CalculateGGR from to (repo w)) as [[[results [e|]]|msg] r']; reflexivity.
Qed.

Lemma DailyWager_unfound w from to v c1 :
  Cache_Get (now w) (DailyWagerKey from to) (cache w) = (v, false, c1) ->
  (TransactionService_CalculateDailyWagerVolume from to w).1
  = rows_of_repo (repo_CalculateDailyWagerVolume from to (repo w)).1.
Proof.
  intros HGet. rewrite (DailyWager_miss w from to v false c1 HGet (or_introl eq_refl)).
  cbn. destruct (repo_CalculateDailyWagerVolume from to (repo w))
    as [[[results [e|]]|msg] r']; reflexivity.
Qed.

Lemma Percentile_unfound w userID from to v c1 :
  Cache_Get (now w) (PercentileKey userID from to) (cache w) = (v, false, c1) ->
  (TransactionService_CalculateUserWagerPercentile PF userID from to w).1
  = percentile_of_repo (repo_CalculateUserWagerPercentile userID from to (repo w)).1.
Proof.
  intros HGet.
  rewrite (Percentile_miss PF w userID from to v false c1 HGet (or_introl eq_refl)).
  cbn. destruct (repo_CalculateUserWagerPercentile userID from to (repo w))
    as [[[p [e|]]|msg] r']; reflexivity.
Qed.

(** An error an operation returns is the error of its repository call. *)
Lemma GGR_error_source w from to e :
  error_of (TransactionService_CalculateGGR from to w).1 = Some e ->
  error_of (repo_CalculateGGR from to (repo w)).1 = Some e.
Proof.
  destruct (Cache_Get (now w) (GGRKey from to) (cache w)) as [[v found] c1] eqn:HGet.
  destruct (rows_hit_cases v found) as [[-> [y Hy]]|Hmiss].
  - rewrite (GGR_hit w from to v c1 y HGet Hy). discriminate.
  - rewrite (GGR_miss w from to v found c1 HGet Hmiss). cbn.
    destruct (repo_CalculateGGR from to (repo w)) as [[[results [e'|]]|msg] r'];
      cbn; congruence.
Qed.

Lemma DailyWager_error_source w from to e :
  error_of (TransactionService_CalculateDailyWagerVolume from to w).1 = Some e ->
  error_of (repo_CalculateDailyWagerVolume from to (repo w)).1 = Some e.
Proof.
  destruct (Cache_Get (now w) (DailyWagerKey from to) (cache w)) as [[v found] c1] eqn:HGet.
  destruct (rows_hit_cases v found) as [[-> [y Hy]]|Hmiss].
  - rewrite (DailyWager_hit w from to v c1 y HGet Hy). discriminate.
  - rewrite (DailyWager_miss w from to v found c1 HGet Hmiss). cbn.
    destruct (repo_CalculateDailyWagerVolume from to (repo w))
      as [[[results [e'|]]|msg] r']; cbn; congruence.
Qed.

Lemma Percentile_error_source w userID from to e :
  error_of (TransactionService_CalculateUserWagerPercentile PF userID from to w).1 = Some e ->
  error_of (repo_CalculateUserWagerPercentile userID from to (repo w)).1 = Some e.
Proof.
  destruct (Cache_Get (now w) (PercentileKey userID from to) (cache w))
    as [[v found] c1] eqn:HGet.
  destruct (percentile_hit_cases PF v found) as [[-> [y Hy]]|Hmiss].
  - rewrite (Percentile_hit PF w userID from to v c1 y HGet Hy). discriminate.
  - rewrite (Percentile_miss PF w userID from to v found c1 HGet Hmiss). cbn.
    destruct (repo_CalculateUserWagerPercentile userID from to (repo w))
      as [[[p [e'|]]|msg] r']; cbn; congruence.
Qed.
End CacheFailure.

(** C7.  The cache has no error channel.  [RedisCache.Get] reports a failed
    backend call and a failed decoding as not found; [RedisCache.Set]
    returns with the client untouched when marshalling fails.  For every
    implementation of the cache, an operation whose lookup finds nothing
    returns what its repository returns, whatever becomes of the store
    call, and an error an operation returns is always the error of its
    repository call. *)
Theorem cache_failures_never_surface :
  (forall (Client : Type)
          (client_Get : Time -> string -> Client -> string * option error * Client)
          (client_Set : Time -> string -> string -> Duration -> Client -> Client)
          (json_Marshal : Any -> string * option error)
          (json_Unmarshal : string -> Any * option error)
          (now : Time) (key : string) (c : RedisCache),
      (forall val e cl,
          client_Get now key (client c) = (val, Some e, cl) ->
          RedisCache_Get client_Get json_Unmarshal now key c = (ANil, false, mkRedisCache cl))
      /\ (forall val cl result e,
          client_Get now key (client c) = (val, None, cl) ->
          json_Unmarshal val = (result, Some e) ->
          RedisCache_Get client_Get json_Unmarshal now key c = (ANil, false, mkRedisCache cl))
      /\ (forall v d data e,
          json_Marshal v = (data, Some e) ->
          RedisCache_Set client_Set json_Marshal now key v d c = c))
  /\ (forall (C R : Type) (cacheImpl : Cache C) (repoImpl : TransactionRepositoryInterface R)
          (PF : string -> float * option error) (w : @World C R)
          (userID : string) (from to : Time),
      (forall v c1,
          Cache_Get (now w) (GGRKey from to) (cache w) = (v, false, c1) ->
          (TransactionService_CalculateGGR from to w).1
          = rows_of_repo (repo_CalculateGGR from to (repo w)).1)
      /\ (forall v c1,
          Cache_Get (now w) (DailyWagerKey from to) (cache w) = (v, false, c1) ->
          (TransactionService_CalculateDailyWagerVolume from to w).1
          = rows_of_repo (repo_CalculateDailyWagerVolume from to (repo w)).1)
      /\ (forall v c1,
          Cache_Get (now w) (PercentileKey userID from to) (cache w) = (v, false, c1) ->
          (TransactionService_CalculateUserWagerPercentile PF userID from to w).1
          = percentile_of_repo (repo_CalculateUserWagerPercentile userID from to (repo w)).1)
      /\ (forall e,
          error_of (TransactionService_CalculateGGR from to w).1 = Some e ->
          error_of (repo_CalculateGGR from to (repo w)).1 = Some e)
      /\ (forall e,
          error_of (TransactionService_CalculateDailyWagerVolume from to w).1 = Some e ->
          error_of (repo_CalculateDailyWagerVolume from to (repo w)).1 = Some e)
      /\ (forall e,
          error_of (TransactionService_CalculateUserWagerPercentile PF userID from to w).1
          = Some e ->
          error_of (repo_CalculateUserWagerPercentile userID from to (repo w)).1 = Some e)).
Proof.
  split.
  - intros Client client_Get client_Set json_Marshal json_Unmarshal now key c.
    split; [|split].
    + intros val e cl H. unfold RedisCache_Get. rewrite H. reflexivity.
    + intros val cl result e H HU. unfold RedisCache_Get. rewrite H, HU. reflexivity.
    + intros v d data e H. unfold RedisCache_Set. rewrite H. reflexivity.
  - intros C R cacheImpl repoImpl PF w userID from to.
    split; [|split; [|split; [|split; [|split]]]].
    + intros v c1. apply GGR_unfound.
    + intros v c1. apply DailyWager_unfound.
    + intros v c1. apply Percentile_unfound.
    + intros e. apply GGR_error_source.
    + intros e. apply DailyWager_error_source.
    + intros e. apply (Percentile_error_source PF).
Qed.

Lemma cache_failures_never_surface_witness :
  let redis := RedisCache_Cache down_Get down_Set down_Del no_Marshal no_Unmarshal in
  let w : @World RedisCache MockTransactionRepository :=
    mkWorld jan01 (mkRedisCache tt) NewMockTransactionRepository [] in
  RedisCache_Get down_Get no_Unmarshal jan01 "k" (mkRedisCache tt)
  = (ANil, false, mkRedisCache tt)
  /\ RedisCache_Set down_Set no_Marshal jan01 "k" (AFloat64 1) Minute (mkRedisCache tt)
     = mkRedisCache tt
  /\ (TransactionService_CalculateUserWagerPercentile ParseFloat_decimal test_user
        jan01 jan31 w).1
     = Ret (0%float, None).
Proof.
  intros redis w.
  destruct cache_failures_never_surface as [Hredis Hops].
  split; [|split].
  - destruct (Hredis unit down_Get down_Set no_Marshal no_Unmarshal jan01 "k"
                (mkRedisCache tt)) as [HGet _].
    apply (HGet EmptyString "i/o timeout" tt). reflexivity.
  - destruct (Hredis unit down_Get down_Set no_Marshal no_Unmarshal jan01 "k"
                (mkRedisCache tt)) as [_ [_ HSet]].
    apply (HSet (AFloat64 1) Minute EmptyString "json: unsupported value"). reflexivity.
  - destruct (Hops RedisCache MockTransactionRepository redis _ ParseFloat_decimal w
                test_user jan01 jan31) as [_ [_ [HP _]]].
    rewrite (HP ANil (mkRedisCache tt)); reflexivity.
Defined.

(** ** Cache keys *)

Lemma FormatRFC3339_to_the_second (a b : Time) :
  ns a / Second = ns b / Second -> offset a = offset b ->
  FormatRFC3339 a = FormatRFC3339 b.
Proof. intros Hs Ho. unfold FormatRFC3339. rewrite Hs, Ho. reflexivity. Qed.

Lemma MockCache_Get_calls (key : string) (c : MockCache) :
  GetCalls (MockCache_Get key c).2 = GetCalls c ++ [key].
Proof.
  unfold MockCache_Get.
  destruct (GetShouldFail c); [reflexivity|].
  destruct (GetCustomResults c !! key); [reflexivity|].
  destruct (mock_items c !! key); reflexivity.
Qed.

Section Asked.
Context {R : Type} {repoImpl : TransactionRepositoryInterface R}.
Variable PF : string -> float * option error.

Implicit Types (w : @World MockCache R).

Lemma GGR_asked w from to :
  asked (TransactionService_CalculateGGR from to w)
  = GetCalls (cache w) ++ [GGRKey from to].
Proof.
  unfold asked.
  destruct (Cache_Get (now w) (GGRKey from to) (cache w)) as [[v found] c1] eqn:HGet.
  assert (Hc1 : GetCalls c1 = GetCalls (cache w) ++ [GGRKey from to]).
  { rewrite <- MockCache_Get_calls. cbn in HGet. rewrite HGet. reflexivity. }
  destruct (rows_hit_cases v found) as [[-> [y Hy]]|Hmiss].
  - rewrite (GGR_hit w from to v c1 y HGet Hy). exact Hc1.
  - rewrite (GGR_miss w from to v found c1 HGet Hmiss). cbn.
    destruct (repo_CalculateGGR from to (repo w)) as [[[results [e|]]|msg] r'];
      exact Hc1.
Qed.

Lemma DailyWager_asked w from to :
  asked (TransactionService_CalculateDailyWagerVolume from to w)
  = GetCalls (cache w) ++ [DailyWagerKey from to].
Proof.
  unfold asked.
  destruct (Cache_Get (now w) (DailyWagerKey from to) (cache w)) as [[v found] c1] eqn:HGet.
  assert (Hc1 : GetCalls c1 = GetCalls (cache w) ++ [DailyWagerKey from to]).
  { rewrite <- MockCache_Get_calls. cbn in HGet. rewrite HGet. reflexivity. }
  destruct (rows_hit_cases v found) as [[-> [y Hy]]|Hmiss].
  - rewrite (DailyWager_hit w from to v c1 y HGet Hy). exact Hc1.
  - rewrite (DailyWager_miss w from to v found c1 HGet Hmiss). cbn.
    destruct (repo_CalculateDailyWagerVolume from to (repo w))
      as [[[results [e|]]|msg] r']; exact Hc1.
Qed.

Lemma Percentile_asked w userID from to :
  asked (TransactionService_CalculateUserWagerPercentile PF userID from to w)
  = GetCalls (cache w) ++ [PercentileKey userID from to].
Proof.
  unfold asked.
  destruct (Cache_Get (now w) (PercentileKey userID from to) (cache w))
    as [[v found] c1] eqn:HGet.
  assert (Hc1 : GetCalls c1 = GetCalls (cache w) ++ [PercentileKey userID from to]).
  { rewrite <- MockCache_Get_calls. cbn in HGet. rewrite HGet. reflexivity. }
  destruct (percentile_hit_cases PF v found) as [[-> [y Hy]]|Hmiss].
  - rewrite (Percentile_hit PF w userID from to v c1 y HGet Hy). exact Hc1.
  - rewrite (Percentile_miss PF w userID from to v found c1 HGet Hmiss). cbn.
    destruct (repo_CalculateUserWagerPercentile userID from to (repo w))
      as [[[p [e|]]|msg] r']; exact Hc1.
Qed.
End Asked.

(** C4 (amended).  The key an operation asks the cache for is its prefix
    followed by the RFC3339 renderings of the two bounds, each in the zone
    offset it carries (after the subject id, for the percentile).  Two calls
    of the same operation whose bounds agree to the second and in their zone
    offsets, in particular bounds that denote the same instants under the
    same offsets, derive the same key. *)
Theorem cache_key_follows_rendering :
  forall (R : Type) (repoImpl : TransactionRepositoryInterface R)
         (PF : string -> float * option error) (w : @World MockCache R)
         (userID : string) (from to : Time),
    (asked (TransactionService_CalculateGGR from to w)
       = GetCalls (cache w)
           ++ ["ggr:" +:+ FormatRFC3339 from +:+ ":" +:+ FormatRFC3339 to]
     /\ asked (TransactionService_CalculateDailyWagerVolume from to w)
       = GetCalls (cache w)
           ++ ["daily_wager:" +:+ FormatRFC3339 from +:+ ":" +:+ FormatRFC3339 to]
     /\ asked (TransactionService_CalculateUserWagerPercentile PF userID from to w)
       = GetCalls (cache w)
           ++ ["percentile:" +:+ userID +:+ ":" +:+ FormatRFC3339 from
                 +:+ ":" +:+ FormatRFC3339 to])
    /\ forall (from' to' : Time),
         ns from / Second = ns from' / Second -> offset from = offset from' ->
         ns to / Second = ns to' / Second -> offset to = offset to' ->
         asked (TransactionService_CalculateGGR from to w)
         = asked (TransactionService_CalculateGGR from' to' w)
         /\ asked (TransactionService_CalculateDailyWagerVolume from to w)
            = asked (TransactionService_CalculateDailyWagerVolume from' to' w)
         /\ asked (TransactionService_CalculateUserWagerPercentile PF userID from to w)
            = asked (TransactionService_CalculateUserWagerPercentile PF userID from' to' w).
Proof.
  intros R repoImpl PF w userID from to. split.
  - split; [apply GGR_asked|split; [apply DailyWager_asked|apply Percentile_asked]].
  - intros from' to' Hfs Hfo Hts Hto.
    rewrite !GGR_asked, !DailyWager_asked, !Percentile_asked.
    unfold GGRKey, DailyWagerKey, PercentileKey.
    rewrite (FormatRFC3339_to_the_second from from' Hfs Hfo).
    rewrite (FormatRFC3339_to_the_second to to' Hts Hto).
    repeat split.
Qed.

Lemma cache_key_follows_rendering_witness :
  asked (TransactionService_CalculateGGR jan01 jan31 mock_world)
  = asked (TransactionService_CalculateGGR (Add jan01 999) (Add jan31 1) mock_world).
Proof.
  destruct (cache_key_follows_rendering MockTransactionRepository _ ParseFloat_decimal
              mock_world test_user jan01 jan31) as [_ Hsame].
  exact (proj1 (Hsame (Add jan01 999) (Add jan31 1) eq_refl eq_refl eq_refl eq_refl)).
Defined.

(** C4 fails as it stands: the same instant written with another zone
    offset gives another key. *)
Lemma same_instant_other_offset_other_key :
  Equal jan01 jan01_ist = true
  /\ asked (TransactionService_CalculateGGR jan01 jan31 mock_world)
     = ["ggr:2023-01-01T00:00:00Z:2023-01-31T00:00:00Z"]
  /\ asked (TransactionService_CalculateGGR jan01_ist jan31 mock_world)
     = ["ggr:2023-01-01T05:30:00+05:30:2023-01-31T00:00:00Z"]
  /\ asked (TransactionService_CalculateGGR jan01 jan31 mock_world)
     <> asked (TransactionService_CalculateGGR jan01_ist jan31 mock_world).
Proof.
  split; [reflexivity|]. split; [reflexivity|]. split; [reflexivity|].
  vm_compute. discriminate.
Qed.

(** ** The range of the percentile *)

(** C8 fails as it stands: the operation returns a cached number as it is,
    and a cached 250 comes back as 250. *)
Lemma cached_percentile_is_not_checked :
  ~ (forall (w : @World MemoryCache MockTransactionRepository)
            (userID : string) (from to : Time) (v : float) w',
        TransactionService_CalculateUserWagerPercentile ParseFloat_decimal userID from to w
        = (Ret (v, None), w') ->
        in_range v = true).
Proof.
  intros H.
  specialize (H (percentile_world (AFloat64 250)) test_user jan01 jan31 250%float
                (percentile_world (AFloat64 250)) eq_refl).
  vm_compute in H. discriminate.
Qed.

Example cached_percentile_250 :
  (TransactionService_CalculateUserWagerPercentile ParseFloat_decimal test_user jan01 jan31
     (percentile_world (AFloat64 250))).1 = Ret (250%float, None).
Proof. reflexivity. Qed.

(** ** Rounding an integer to binary64 *)

Lemma shr_1_half (mrs : shr_record) :
  0 <= shr_m mrs -> shr_m (shr_1 mrs) = shr_m mrs / 2.
Proof.
  destruct mrs as [m r s]. simpl. intros Hm.
  destruct m as [|p|p]; [reflexivity| |lia].
  destruct p as [p|p|]; simpl.
  - rewrite Pos2Z.inj_xI. apply Z.div_unique with (r := 1); lia.
  - rewrite Pos2Z.inj_xO. apply Z.div_unique with (r := 0); lia.
  - reflexivity.
Qed.

Lemma pow2_xO (k : positive) : 2 ^ Zpos k~0 = 2 ^ Zpos k * 2 ^ Zpos k.
Proof. rewrite <- Z.pow_add_r by lia. f_equal. lia. Qed.

Lemma pow2_xI (k : positive) : 2 ^ Zpos k~1 = 2 * (2 ^ Zpos k * 2 ^ Zpos k).
Proof.
  rewrite <- Z.pow_add_r by lia.
  rewrite <- (Z.pow_1_r 2) at 2. rewrite <- Z.pow_add_r by lia. f_equal. lia.
Qed.

Lemma iter_shr_1 (k : positive) : forall mrs : shr_record,
  0 <= shr_m mrs -> shr_m (SpecFloat.iter_pos shr_1 k mrs) = shr_m mrs / 2 ^ Zpos k.
Proof.
  induction k as [k IH|k IH|]; intros mrs Hm; simpl SpecFloat.iter_pos;
    try (assert (Hk : 0 < 2 ^ Zpos k) by (apply Z.pow_pos_nonneg; lia)).
  - assert (H1 : 0 <= shr_m (shr_1 mrs)).
    { rewrite shr_1_half by exact Hm. apply Z.div_pos; lia. }
    assert (H2 : 0 <= shr_m (SpecFloat.iter_pos shr_1 k (shr_1 mrs))).
    { rewrite IH by exact H1. apply Z.div_pos; lia. }
    rewrite IH by exact H2. rewrite IH by exact H1. rewrite shr_1_half by exact Hm.
    rewrite !Z.div_div by lia. rewrite pow2_xI. reflexivity.
  - assert (H1 : 0 <= shr_m (SpecFloat.iter_pos shr_1 k mrs)).
    { rewrite IH by exact Hm. apply Z.div_pos; lia. }
    rewrite IH by exact H1. rewrite IH by exact Hm.
    rewrite Z.div_div by lia. rewrite pow2_xO. reflexivity.
  - apply shr_1_half. exact Hm.
Qed.

Lemma digits2_size (p : positive) : digits2_pos p = Pos.size p.
Proof. induction p as [p IH|p IH|]; simpl; try rewrite IH; reflexivity. Qed.

Lemma digits2_lower (p : positive) : 2 ^ (Zpos (digits2_pos p) - 1) <= Zpos p.
Proof.
  rewrite digits2_size.
  pose proof (Pos.size_le p) as H.
  apply Pos2Z.pos_le_pos in H. rewrite Pos2Z.inj_pow in H.
  assert (Hs : 2 ^ Zpos (Pos.size p) = 2 * 2 ^ (Zpos (Pos.size p) - 1)).
  { rewrite <- Z.pow_succ_r by lia. f_equal. lia. }
  rewrite Hs in H. lia.
Qed.

Lemma shr_record_of_loc_m (m : Z) (l : location) : shr_m (shr_record_of_loc m l) = m.
Proof. destruct l as [|[]]; reflexivity. Qed.

(** Shifting a positive mantissa to its canonical exponent leaves it
    positive, as long as the exponent is not below the least one. *)
Lemma shr_fexp_positive (m : positive) (e : Z) (l : location) :
  SpecFloat.emin prec emax <= e ->
  0 < shr_m (shr_fexp prec emax (Zpos m) e l).1
  /\ SpecFloat.emin prec emax <= (shr_fexp prec emax (Zpos m) e l).2.
Proof.
  intros He. unfold shr_fexp, shr.
  set (d := Zpos (digits2_pos m)).
  assert (Hn : fexp prec emax (Zdigits2 (Zpos m) + e) - e <= d - 1).
  { unfold fexp, prec, emax, SpecFloat.emin in *. simpl Zdigits2. fold d.
    assert (0 < d) by (unfold d; lia). lia. }
  destruct (fexp prec emax (Zdigits2 (Zpos m) + e) - e) as [|n|n] eqn:En; simpl.
  - rewrite shr_record_of_loc_m. lia.
  - rewrite iter_shr_1 by (rewrite shr_record_of_loc_m; lia).
    rewrite shr_record_of_loc_m. split; [|lia].
    apply Z.div_str_pos. split; [apply Z.pow_pos_nonneg; lia|].
    apply Z.le_trans with (2 ^ (d - 1)); [|apply digits2_lower].
    apply Z.pow_le_mono_r; lia.
  - rewrite shr_record_of_loc_m. lia.
Qed.

Lemma binary_round_aux_shape (sx : bool) (m : positive) (e : Z) (l : location) :
  SpecFloat.emin prec emax <= e ->
  (exists m' e', binary_round_aux prec emax sx (Zpos m) e l = S754_finite sx m' e')
  \/ binary_round_aux prec emax sx (Zpos m) e l = S754_infinity sx.
Proof.
  intros He. unfold binary_round_aux.
  destruct (shr_fexp_positive m e l He) as [Hm1 He1].
  destruct (shr_fexp prec emax (Zpos m) e l) as [mrs1 e1]. simpl in Hm1, He1.
  assert (Hr : 0 < round_nearest_even (shr_m mrs1) (loc_of_shr_record mrs1)).
  { unfold round_nearest_even.
    destruct (loc_of_shr_record mrs1) as [|[]]; try lia.
    destruct (Z.even (shr_m mrs1)); lia. }
  destruct (round_nearest_even (shr_m mrs1) (loc_of_shr_record mrs1)) as [|m2|m2];
    try lia.
  destruct (shr_fexp_positive m2 e1 loc_Exact He1) as [Hm2 _].
  destruct (shr_fexp prec emax (Zpos m2) e1 loc_Exact) as [mrs2 e2]. simpl in Hm2.
  destruct (shr_m mrs2) as [|m3|m3]; try lia.
  destruct (e2 <=? emax - prec); [left; eauto|right; reflexivity].
Qed.

Lemma binary_normalize_positive (p : positive) :
  (exists m e, binary_normalize prec emax (Zpos p) 0 false = S754_finite false m e)
  \/ binary_normalize prec emax (Zpos p) 0 false = S754_infinity false.
Proof.
  unfold binary_normalize, binary_round.
  destruct (shl_align p 0 (fexp prec emax (Zpos (digits2_pos p) + 0))) as [mz ez] eqn:E.
  apply binary_round_aux_shape.
  unfold shl_align in E.
  destruct (fexp prec emax (Zpos (digits2_pos p) + 0) - 0) as [|d|d] eqn:Ed;
    inversion E; subst; unfold fexp, SpecFloat.emin, prec, emax in *; try lia.
Qed.

Lemma float64_of_int_uint63 (n : Z) :
  0 <= n < 2 ^ 63 -> float64_of_int n = of_uint63 (Uint63.of_Z n).
Proof.
  intros Hn. unfold float64_of_int.
  rewrite <- (SF2Prim_Prim2SF (of_uint63 (Uint63.of_Z n))).
  rewrite of_uint63_spec, Uint63.of_Z_spec.
  rewrite Z.mod_small; [reflexivity|]. exact Hn.
Qed.

Lemma zero_over_positive (y : float) :
  (exists m e, Prim2SF y = S754_finite false m e) \/ Prim2SF y = S754_infinity false ->
  (100 - (0 / y * 100))%float = 100%float.
Proof.
  intros Hy.
  assert (Hq : (0 / y)%float = 0%float).
  { apply Prim2SF_inj. rewrite FloatAxioms.div_spec.
    destruct Hy as [[m [e Hy]]|Hy]; rewrite Hy; reflexivity. }
  rewrite Hq. reflexivity.
Qed.

Lemma percentile_of_first (n : Z) :
  1 <= n < 2 ^ 63 -> percentile_of 1 n = 100%float.
Proof.
  intros Hn. unfold percentile_of. simpl (1 - 1).
  change (float64_of_int 0) with 0%float.
  apply zero_over_positive.
  rewrite float64_of_int_uint63 by lia.
  rewrite of_uint63_spec, Uint63.of_Z_spec.
  rewrite Z.mod_small by (change Uint63.wB with (2 ^ 63); lia).
  destruct n as [|p|p]; try lia.
  apply binary_normalize_positive.
Qed.

(** ** The rank of a user *)

Lemma ranked_head (userID : string) (row : bsonM) (rows : list bsonM) :
  ranked userID (row :: rows) 1 -> index row "_id" = AString userID.
Proof. intros [[row' [Hrow Hid]] _]. inversion Hrow; subst. exact Hid. Qed.

Lemma ranked_tail (userID : string) (row : bsonM) (rows : list bsonM) (r : nat) :
  ranked userID (row :: rows) (S (S r)) ->
  (exists id, index row "_id" = AString id /\ id <> userID)
  /\ ranked userID rows (S r).
Proof.
  intros [[row' [Hrow Hid]] [_ Hbefore]]. split.
  - apply (Hbefore 0%nat row); [simpl; apply Nat.lt_0_succ|reflexivity].
  - split; [|split].
    + exists row'. split; [|exact Hid].
      simpl in Hrow |- *. rewrite Nat.sub_0_r in *. exact Hrow.
    + apply le_n_S, Nat.le_0_l.
    + intros j row'' Hj Hrow''. apply (Hbefore (S j) row'').
      * simpl in Hj |- *. rewrite Nat.sub_0_r in Hj. apply -> Nat.succ_lt_mono. exact Hj.
      * exact Hrow''.
Qed.

Lemma find_rank_ranked (userID : string) (rows : list bsonM) :
  forall (r : nat) (i userRank : Z),
    ranked userID rows r ->
    find_rank userID i rows userRank = Ret (i + Z.of_nat r).
Proof.
  induction rows as [|row rows IH]; intros r i userRank Hr.
  - destruct Hr as [[row [Hrow _]] _]. discriminate.
  - destruct r as [|[|r]].
    + destruct Hr as [_ [Hr _]]. inversion Hr.
    + simpl. rewrite (ranked_head userID row rows Hr), String.eqb_refl. reflexivity.
    + destruct (ranked_tail userID row rows r Hr) as [[id [Hid Hne]] Htail].
      simpl find_rank. rewrite Hid.
      apply String.eqb_neq in Hne. rewrite Hne.
      rewrite (IH (S r) (i + 1) userRank Htail). f_equal.
      rewrite (Nat2Z.inj_succ (S r)). unfold Z.succ.
      rewrite (Z.add_comm (Z.of_nat (S r)) 1). apply eq_sym, Z.add_assoc.
Qed.

Lemma ranked_nonempty (userID : string) (rows : slice bsonM) (r : nat) :
  ranked userID (elems rows) r -> (len rows =? 0) = false.
Proof.
  intros [[row [Hrow _]] _]. unfold len.
  destruct (elems rows); [discriminate|]. reflexivity.
Qed.

Section Percentile.
Context {Collection Cursor : Type}.
Variable Aggregate : Collection -> Pipeline -> Cursor * option error.
Variable All : Cursor -> slice bsonM * option error.

Lemma Percentile_no_activity (r : TransactionRepository) (userID : string) (from to : Time)
    (userCursor : Cursor) (userResults : slice bsonM) :
  Aggregate (collection r) (userWagerPipeline userID from to) = (userCursor, None) ->
  All userCursor = (userResults, None) ->
  len userResults = 0 ->
  TransactionRepository_CalculateUserWagerPercentile Aggregate All userID from to r
  = Ret (0%float, None).
Proof.
  intros HA HAll Hlen. unfold TransactionRepository_CalculateUserWagerPercentile.
  rewrite HA, HAll, Hlen. reflexivity.
Qed.

Lemma Percentile_ranked (r : TransactionRepository) (userID : string) (from to : Time)
    (userCursor allUsersCursor : Cursor) (userResults allUsersResults : slice bsonM)
    (rank : nat) :
  Aggregate (collection r) (userWagerPipeline userID from to) = (userCursor, None) ->
  All userCursor = (userResults, None) ->
  len userResults <> 0 ->
  Aggregate (collection r) (allUsersPipeline from to) = (allUsersCursor, None) ->
  All allUsersCursor = (allUsersResults, None) ->
  ranked userID (elems allUsersResults) rank ->
  TransactionRepository_CalculateUserWagerPercentile Aggregate All userID from to r
  = Ret (percentile_of (Z.of_nat rank) (len allUsersResults), None).
Proof.
  intros HA HAll Hlen HA' HAll' Hrank.
  unfold TransactionRepository_CalculateUserWagerPercentile.
  rewrite HA, HAll. apply Z.eqb_neq in Hlen. rewrite Hlen.
  rewrite HA', HAll', (ranked_nonempty userID allUsersResults rank Hrank).
  rewrite (find_rank_ranked userID (elems allUsersResults) rank 0 0 Hrank).
  reflexivity.
Qed.
End Percentile.

(** C5.  With the user's wagers found and the ranking read, the percentile of
    the user at rank [r], counted from 1, among the [N] ranked users is
    [100 - (r-1)/N * 100], computed in binary64; rank 1 gives exactly 100;
    for five users with totals 100, 80, 50, 50 and 10 the first gets 100 and
    the fifth 20; a user without wagers in the range gets 0, without error
    and before any ranking is read. *)
Theorem percentile_follows_rank :
  (forall (Collection Cursor : Type)
          (Aggregate : Collection -> Pipeline -> Cursor * option error)
          (All : Cursor -> slice bsonM * option error)
          (r : TransactionRepository) (userID : string) (from to : Time)
          (userCursor : Cursor) (userResults : slice bsonM),
      Aggregate (collection r) (userWagerPipeline userID from to) = (userCursor, None) ->
      All userCursor = (userResults, None) ->
      (len userResults = 0 ->
       TransactionRepository_CalculateUserWagerPercentile Aggregate All userID from to r
       = Ret (0%float, None))
      /\ (forall (allUsersCursor : Cursor) (allUsersResults : slice bsonM) (rank : nat),
          len userResults <> 0 ->
          Aggregate (collection r) (allUsersPipeline from to) = (allUsersCursor, None) ->
          All allUsersCursor = (allUsersResults, None) ->
          ranked userID (elems allUsersResults) rank ->
          TransactionRepository_CalculateUserWagerPercentile Aggregate All userID from to r
          = Ret ((100 - (float64_of_int (Z.of_nat rank - 1)
                         / float64_of_int (len allUsersResults) * 100))%float, None)
          /\ (rank = 1%nat -> len allUsersResults < 2 ^ 63 ->
              TransactionRepository_CalculateUserWagerPercentile Aggregate All userID from to r
              = Ret (100%float, None))))
  /\ TransactionRepository_CalculateUserWagerPercentile ranking_Aggregate ranking_All
       "u1" jan01 jan31 five_users = Ret (100%float, None)
  /\ TransactionRepository_CalculateUserWagerPercentile ranking_Aggregate ranking_All
       "u5" jan01 jan31 five_users = Ret (20%float, None)
  /\ TransactionRepository_CalculateUserWagerPercentile ranking_Aggregate ranking_All
       "u6" jan01 jan31 five_users = Ret (0%float, None).
Proof.
  split; [|repeat split].
  intros Collection Cursor Aggregate All r userID from to userCursor userResults HA HAll.
  split.
  - apply Percentile_no_activity with (userCursor := userCursor); assumption.
  - intros allUsersCursor allUsersResults rank Hlen HA' HAll' Hrank.
    pose proof (Percentile_ranked Aggregate All r userID from to userCursor allUsersCursor
                  userResults allUsersResults rank HA HAll Hlen HA' HAll' Hrank) as Hp.
    split; [exact Hp|].
    intros -> Hbound. rewrite Hp. f_equal. f_equal.
    apply percentile_of_first. split; [|exact Hbound].
    pose proof (ranked_nonempty userID allUsersResults 1 Hrank) as Hne.
    apply Z.eqb_neq in Hne. unfold len in *. lia.
Qed.

Lemma third_is_ranked : ranked "u3" (collection five_users) 3.
Proof.
  split; [|split].
  - eexists. split; reflexivity.
  - apply le_S, le_S, le_n.
  - intros j row Hj Hrow.
    destruct j as [|[|j]].
    + inversion Hrow; subst. exists "u1". split; [reflexivity|discriminate].
    + inversion Hrow; subst. exists "u2". split; [reflexivity|discriminate].
    + simpl in Hj. apply Nat.succ_lt_mono, Nat.succ_lt_mono in Hj. inversion Hj.
Qed.

Lemma percentile_follows_rank_witness :
  TransactionRepository_CalculateUserWagerPercentile ranking_Aggregate ranking_All
    "u3" jan01 jan31 five_users
  = Ret ((100 - (float64_of_int (Z.of_nat 3 - 1)
                 / float64_of_int (len (Some (collection five_users))) * 100))%float, None)
  /\ TransactionRepository_CalculateUserWagerPercentile ranking_Aggregate ranking_All
       "u6" jan01 jan31 five_users = Ret (0%float, None).
Proof.
  destruct percentile_follows_rank as [Hgen _].
  split.
  - destruct (Hgen (list bsonM) (slice bsonM) ranking_Aggregate ranking_All five_users
                "u3" jan01 jan31 (Some [total_row "u3" "50"]) (Some [total_row "u3" "50"])
                eq_refl eq_refl) as [_ Hrank].
    assert (Hlen : len (Some [total_row "u3" "50"]) <> 0) by discriminate.
    exact (proj1 (Hrank (Some (collection five_users)) (Some (collection five_users)) 3%nat
                    Hlen eq_refl eq_refl third_is_ranked)).
  - destruct (Hgen (list bsonM) (slice bsonM) ranking_Aggregate ranking_All five_users
                "u6" jan01 jan31 (Some []) (Some []) eq_refl eq_refl) as [Hnone _].
    exact (Hnone eq_refl).
Defined.

(** ** Rounding to binary64, in integers *)

Lemma digits2_upper (p : positive) : Zpos p < 2 ^ Zpos (digits2_pos p).
Proof.
  rewrite digits2_size. pose proof (Pos.size_gt p) as H.
  apply Pos2Z.pos_lt_pos in H. rewrite Pos2Z.inj_pow in H. exact H.
Qed.

Lemma pow2_pos (n : Z) : 0 <= n -> 0 < 2 ^ n.
Proof. intros Hn. apply Z.pow_pos_nonneg; lia. Qed.

Lemma pow2_split (a b : Z) : 0 <= a -> 0 <= b -> 2 ^ (a + b) = 2 ^ a * 2 ^ b.
Proof. intros Ha Hb. apply Z.pow_add_r; assumption. Qed.

(** The number of digits grows with the number. *)
Lemma Zdigits2_le (M c j : Z) :
  0 <= M -> 0 < c -> 0 <= j -> M <= c * 2 ^ j -> Zdigits2 M <= Zdigits2 c + j.
Proof.
  intros HM Hc Hj Hle.
  destruct M as [|p|p]; [|clear HM|lia].
  - destruct c as [|q|q]; simpl; lia.
  - destruct c as [|q|q]; try lia. simpl Zdigits2.
    pose proof (digits2_lower p) as Hp. pose proof (digits2_upper q) as Hq.
    set (dp := Zpos (digits2_pos p)) in *. set (dq := Zpos (digits2_pos q)) in *.
    assert (Hlt : 2 ^ (dp - 1) < 2 ^ (dq + j)).
    { rewrite pow2_split by (unfold dq; lia).
      pose proof (pow2_pos j Hj). nia. }
    apply Z.pow_lt_mono_r_iff in Hlt; unfold dq in *; lia.
Qed.

Lemma fexp_le (z z' : Z) : z <= z' -> fexp prec emax z <= fexp prec emax z'.
Proof. unfold fexp. lia. Qed.

(** ** What a shift to the right leaves *)

Lemma iter_pos_nat {A : Type} (f : A -> A) (p : positive) (x : A) :
  SpecFloat.iter_pos f p x = Nat.iter (Pos.to_nat p) f x.
Proof.
  revert x. induction p as [p IH|p IH|]; intros x; simpl SpecFloat.iter_pos.
  - rewrite !IH. rewrite Pos2Nat.inj_xI.
    replace (S (2 * Pos.to_nat p)) with (Pos.to_nat p + S (Pos.to_nat p))%nat by lia.
    rewrite Nat.iter_add. rewrite Nat.iter_succ_r. reflexivity.
  - rewrite !IH. rewrite Pos2Nat.inj_xO.
    replace (2 * Pos.to_nat p)%nat with (Pos.to_nat p + Pos.to_nat p)%nat by lia.
    rewrite Nat.iter_add. reflexivity.
  - reflexivity.
Qed.

Lemma shr_1_spec (M : Z) (r s : bool) :
  0 <= M -> shr_1 (Build_shr_record M r s) = Build_shr_record (M / 2) (Z.odd M) (r || s).
Proof.
  intros HM. destruct M as [|p|p]; [reflexivity| |lia].
  destruct p as [p|p|]; simpl shr_1; f_equal.
  - rewrite Pos2Z.inj_xI. apply Z.div_unique with (r := 1); lia.
  - rewrite Pos2Z.inj_xO. apply Z.div_unique with (r := 0); lia.
Qed.

Lemma mod_pow2_succ (M n : Z) :
  0 <= n -> M mod 2 ^ (n + 1) = M mod 2 ^ n + (if Z.testbit M n then 2 ^ n else 0).
Proof.
  intros Hn. rewrite pow2_split by lia. change (2 ^ 1) with 2.
  pose proof (pow2_pos n Hn) as Hp.
  rewrite Z.rem_mul_r by lia. f_equal.
  rewrite <- (Z.add_0_l n) at 3. rewrite <- Z.div_pow2_bits by lia.
  rewrite Z.bit0_eqb.
  pose proof (Z.mod_pos_bound (M / 2 ^ n) 2 ltac:(lia)) as Hb.
  destruct (Z.eqb_spec ((M / 2 ^ n) mod 2) 1) as [->|Hne]; lia.
Qed.

Lemma iter_shr_1_bits (n : nat) (M : Z) (r0 s0 : bool) :
  0 <= M ->
  Nat.iter (S n) shr_1 (Build_shr_record M r0 s0)
  = Build_shr_record (M / 2 ^ Z.of_nat (S n)) (Z.testbit M (Z.of_nat n))
      (negb (M mod 2 ^ Z.of_nat n =? 0) || r0 || s0).
Proof.
  intros HM. induction n as [|n IH].
  - unfold Nat.iter. cbn [nat_rect]. rewrite shr_1_spec by exact HM.
    change (2 ^ Z.of_nat 1) with 2. change (Z.of_nat 0) with 0.
    rewrite Z.bit0_odd. rewrite Z.pow_0_r, Z.mod_1_r. reflexivity.
  - rewrite Nat.iter_succ, IH.
    assert (Hp : 0 < 2 ^ Z.of_nat (S n)) by (apply pow2_pos; lia).
    rewrite shr_1_spec by (apply Z.div_pos; lia).
    f_equal.
    + rewrite Z.div_div by lia.
      rewrite (Nat2Z.inj_succ (S n)), Z.pow_succ_r by lia. f_equal. lia.
    + rewrite <- Z.bit0_odd, Z.div_pow2_bits by lia. f_equal.
    + rewrite (Nat2Z.inj_succ n). unfold Z.succ.
      rewrite mod_pow2_succ by lia.
      pose proof (Z.mod_pos_bound M (2 ^ Z.of_nat n) ltac:(apply pow2_pos; lia)) as Hb.
      pose proof (pow2_pos (Z.of_nat n) ltac:(lia)) as Hq.
      destruct (Z.testbit M (Z.of_nat n)).
      * destruct (Z.eqb_spec (M mod 2 ^ Z.of_nat n + 2 ^ Z.of_nat n) 0); [lia|].
        reflexivity.
      * rewrite Z.add_0_r. simpl.
        destruct (M mod 2 ^ Z.of_nat n =? 0), r0, s0; reflexivity.
Qed.

(** After a shift by [k] digits: the quotient, the digit below it, and
    whether anything below that is set. *)
Lemma iter_shr_1_record (k : positive) (M : Z) (r0 s0 : bool) :
  0 <= M ->
  SpecFloat.iter_pos shr_1 k (Build_shr_record M r0 s0)
  = Build_shr_record (M / 2 ^ Zpos k) (Z.testbit M (Zpos k - 1))
      (negb (M mod 2 ^ (Zpos k - 1) =? 0) || r0 || s0).
Proof.
  intros HM. rewrite iter_pos_nat.
  destruct (Pos2Nat.is_succ k) as [n Hn]. rewrite Hn.
  rewrite iter_shr_1_bits by exact HM.
  assert (Hk : Zpos k = Z.of_nat (S n)) by (rewrite <- Hn; symmetry; apply positive_nat_Z).
  rewrite Hk. replace (Z.of_nat (S n) - 1) with (Z.of_nat n) by lia. reflexivity.
Qed.

Lemma loc_of_shr_record_of_loc (M : Z) (l : location) :
  loc_of_shr_record (shr_record_of_loc M l) = l.
Proof. destruct l as [|[]]; reflexivity. Qed.

Lemma shr_record_of_loc_bits (M : Z) (l : location) :
  exists r0 s0, shr_record_of_loc M l = Build_shr_record M r0 s0
                /\ (l = loc_Exact -> r0 = false /\ s0 = false).
Proof.
  destruct l as [|[]]; simpl; eexists; eexists; split; try reflexivity;
    intros H; try discriminate H; split; reflexivity.
Qed.

(** A number that is a multiple of [2 ^ k] leaves nothing behind when it is
    shifted by [k]. *)
Lemma multiple_bits (M X k : Z) :
  0 < k -> M = X * 2 ^ k ->
  Z.testbit M (k - 1) = false /\ M mod 2 ^ (k - 1) = 0.
Proof.
  intros Hk HM.
  assert (Hmod : M mod 2 ^ k = 0) by (rewrite HM; apply Z.mod_mul; pose proof (pow2_pos k); lia).
  replace k with (k - 1 + 1) in Hmod by lia.
  rewrite mod_pow2_succ in Hmod by lia.
  pose proof (Z.mod_pos_bound M (2 ^ (k - 1)) ltac:(apply pow2_pos; lia)) as Hb.
  pose proof (pow2_pos (k - 1) ltac:(lia)) as Hq.
  destruct (Z.testbit M (k - 1)); [lia|]. split; [reflexivity|lia].
Qed.

(** The shift to the canonical exponent keeps a number under a bound that
    the format holds. *)
Lemma shr_fexp_under (c t M E : Z) (l : location) :
  0 <= M -> 0 < c -> fexp prec emax (Zdigits2 c + t) <= t ->
  under c t M E l ->
  under c t (shr_m (shr_fexp prec emax M E l).1) (shr_fexp prec emax M E l).2
    (loc_of_shr_record (shr_fexp prec emax M E l).1)
  /\ 0 <= shr_m (shr_fexp prec emax M E l).1.
Proof.
  intros HM Hc Hct [HE [Hle Hlt]]. unfold shr_fexp, shr.
  destruct (fexp prec emax (Zdigits2 M + E) - E) as [|k|k] eqn:Ek; simpl;
    try (rewrite shr_record_of_loc_m, loc_of_shr_record_of_loc;
         split; [split; [exact HE|split; assumption]|exact HM]).
  destruct (shr_record_of_loc_bits M l) as [r0 [s0 [-> Hbits]]].
  rewrite iter_shr_1_record by exact HM. simpl.
  assert (He1 : E + Zpos k <= t).
  { pose proof (Zdigits2_le M c (t - E) HM Hc ltac:(lia) Hle) as Hd.
    pose proof (fexp_le (Zdigits2 M + E) (Zdigits2 c + t) ltac:(lia)). lia. }
  assert (Hpk : 0 < 2 ^ Zpos k) by (apply pow2_pos; lia).
  assert (Hsplit : 2 ^ (t - E) = 2 ^ (t - (E + Zpos k)) * 2 ^ Zpos k).
  { rewrite <- pow2_split by lia. f_equal. lia. }
  set (X := c * 2 ^ (t - (E + Zpos k))).
  assert (HX : c * 2 ^ (t - E) = X * 2 ^ Zpos k) by (unfold X; rewrite Hsplit; ring).
  assert (Hq : M / 2 ^ Zpos k <= X).
  { apply Z.div_le_upper_bound; [exact Hpk|]. rewrite Z.mul_comm, <- HX. exact Hle. }
  split; [|apply Z.div_pos; lia].
  split; [exact He1|]. split; [exact Hq|].
  intros Hloc.
  destruct (Z.eq_dec (M / 2 ^ Zpos k) X) as [Heq|Hne]; [|lia].
  exfalso. apply Hloc.
  pose proof (Z.mul_div_le M (2 ^ Zpos k) Hpk) as Hfloor.
  assert (HMX : M = X * 2 ^ Zpos k) by (rewrite Heq in Hfloor; lia).
  assert (Hl : l = loc_Exact).
  { destruct l as [|cmp]; [reflexivity|]. exfalso.
    assert (M < c * 2 ^ (t - E)) by (apply Hlt; discriminate). lia. }
  destruct (Hbits Hl) as [-> ->].
  destruct (multiple_bits M X (Zpos k) ltac:(lia) HMX) as [-> ->].
  reflexivity.
Qed.

Lemma round_nearest_even_under (c t m e : Z) (l : location) :
  0 <= m -> under c t m e l ->
  under c t (round_nearest_even m l) e loc_Exact /\ 0 <= round_nearest_even m l.
Proof.
  intros Hm [He [Hle Hlt]]. unfold round_nearest_even.
  destruct l as [|[]].
  - split; [split; [exact He|split; [exact Hle|intros H; exfalso; apply H; reflexivity]]|exact Hm].
  - assert (m < c * 2 ^ (t - e)) by (apply Hlt; discriminate).
    destruct (Z.even m);
      (split; [split; [exact He|split; [lia|intros H'; exfalso; apply H'; reflexivity]]|lia]).
  - split; [split; [exact He|split; [exact Hle|intros H; exfalso; apply H; reflexivity]]|exact Hm].
  - assert (m < c * 2 ^ (t - e)) by (apply Hlt; discriminate).
    split; [split; [exact He|split; [lia|intros H'; exfalso; apply H'; reflexivity]]|lia].
Qed.

(** Rounding keeps a number under a bound that the format holds: what is at
    most the bound before is at most the bound after. *)
Lemma binary_round_aux_under (c t M E : Z) (l : location) :
  0 <= M -> 0 < c -> fexp prec emax (Zdigits2 c + t) <= t -> t <= emax - prec ->
  under c t M E l ->
  binary_round_aux prec emax false M E l = S754_zero false
  \/ exists m e, binary_round_aux prec emax false M E l = S754_finite false m e
                 /\ e <= t /\ Zpos m <= c * 2 ^ (t - e).
Proof.
  intros HM Hc Hct Ht Hu. unfold binary_round_aux.
  destruct (shr_fexp_under c t M E l HM Hc Hct Hu) as [Hu1 Hm1].
  destruct (shr_fexp prec emax M E l) as [mrs1 e1]. simpl in Hu1, Hm1.
  destruct (round_nearest_even_under c t _ e1 _ Hm1 Hu1) as [Hu2 Hm2].
  destruct (shr_fexp_under c t _ e1 loc_Exact Hm2 Hc Hct Hu2) as [Hu3 Hm3].
  destruct (shr_fexp prec emax (round_nearest_even (shr_m mrs1) (loc_of_shr_record mrs1))
              e1 loc_Exact) as [mrs2 e2].
  simpl in Hu3, Hm3. destruct Hu3 as [He2 [Hle2 _]].
  destruct (shr_m mrs2) as [|m|m]; [left; reflexivity| |lia].
  right. exists m, e2.
  destruct (Z.leb_spec e2 (emax - prec)); [|lia].
  split; [reflexivity|split; assumption].
Qed.

(** ** The three operations of the formula *)

Lemma new_location_exact (n : Z) : new_location n 0 = loc_Exact.
Proof. unfold new_location. destruct (Z.even n); reflexivity. Qed.

Lemma iter_xO (m d : positive) : Zpos (Pos.iter xO m d) = Zpos m * 2 ^ Zpos d.
Proof.
  induction d as [|d IH] using Pos.peano_ind.
  - simpl. lia.
  - rewrite Pos.iter_succ, Pos2Z.inj_xO, IH, Pos2Z.inj_succ, Z.pow_succ_r by lia. ring.
Qed.

Lemma shl_align_spec (mx : positive) (ex ex' : Z) :
  (shl_align mx ex ex').2 = Z.min ex ex'
  /\ Zpos (shl_align mx ex ex').1 = Zpos mx * 2 ^ (ex - Z.min ex ex').
Proof.
  unfold shl_align. destruct (ex' - ex) as [|d|d] eqn:Ed; simpl.
  - replace (Z.min ex ex') with ex by lia. rewrite Z.sub_diag. split; lia.
  - replace (Z.min ex ex') with ex by lia. rewrite Z.sub_diag. split; lia.
  - replace (Z.min ex ex') with ex' by lia. split; [reflexivity|].
    rewrite iter_xO. f_equal. f_equal. lia.
Qed.

(** A quotient that is at most [c * 2 ^ t] is rounded to at most that. *)
Lemma SFdiv_under (c t : Z) (mx my : positive) (ex ey : Z) :
  0 < c -> fexp prec emax (Zdigits2 c + t) <= t -> t <= emax - prec ->
  Zpos mx * 2 ^ (ex - ey - Z.min (ex - ey) t)
    <= c * Zpos my * 2 ^ (t - Z.min (ex - ey) t) ->
  SFdiv prec emax (S754_finite false mx ex) (S754_finite false my ey) = S754_zero false
  \/ exists m e,
       SFdiv prec emax (S754_finite false mx ex) (S754_finite false my ey)
       = S754_finite false m e
       /\ e <= t /\ Zpos m <= c * 2 ^ (t - e).
Proof.
  intros Hc Hct Ht H. set (u := Z.min (ex - ey) t) in *.
  unfold SFdiv, SFdiv_core_binary. simpl xorb. simpl Zdigits2.
  set (d1 := Zpos (digits2_pos mx)). set (d2 := Zpos (digits2_pos my)).
  set (e' := Z.min (fexp prec emax (d1 + ex - (d2 + ey))) (ex - ey)).
  assert (Hmag : d1 + ex - (d2 + ey) <= Zdigits2 c + t).
  { pose proof (digits2_lower mx) as H1. pose proof (digits2_upper my) as H2.
    fold d1 in H1. fold d2 in H2.
    destruct c as [|cp|cp]; try lia. simpl Zdigits2.
    pose proof (digits2_upper cp) as H3. set (dc := Zpos (digits2_pos cp)) in *.
    assert (Hd1 : 0 < d1) by (unfold d1; lia).
    assert (Hd2 : 0 < d2) by (unfold d2; lia).
    assert (Hdc : 0 < dc) by (unfold dc; lia).
    assert (Hlt : 2 ^ (d1 - 1 + (ex - ey - u)) < 2 ^ (dc + d2 + (t - u))).
    { rewrite !pow2_split by lia.
      pose proof (pow2_pos (ex - ey - u) ltac:(lia)).
      pose proof (pow2_pos (t - u) ltac:(lia)).
      pose proof (pow2_pos (d1 - 1) ltac:(lia)).
      apply Z.le_lt_trans with (Zpos mx * 2 ^ (ex - ey - u)); [nia|].
      apply Z.le_lt_trans with (Zpos cp * Zpos my * 2 ^ (t - u)); [exact H|].
      apply Z.mul_lt_mono_pos_r; [lia|]. nia. }
    apply Z.pow_lt_mono_r_iff in Hlt; lia. }
  assert (He' : e' <= t).
  { pose proof (fexp_le _ _ Hmag). unfold e'. lia. }
  assert (Hs : 0 <= ex - ey - e') by (unfold e'; lia).
  set (m' := match ex - ey - e' with
             | 0 => Zpos mx
             | Zpos _ => Z.shiftl (Zpos mx) (ex - ey - e')
             | Zneg _ => 0
             end).
  assert (Hm' : m' = Zpos mx * 2 ^ (ex - ey - e')).
  { unfold m'. destruct (ex - ey - e') as [|s|s] eqn:Es; [simpl; lia| |lia].
    apply Z.shiftl_mul_pow2. lia. }
  pose proof (Z_div_mod m' (Zpos my) ltac:(lia)) as Hdiv.
  destruct (Z.div_eucl m' (Zpos my)) as [q r]. destruct Hdiv as [Hqr Hr].
  assert (Hbound : m' <= Zpos my * (c * 2 ^ (t - e'))).
  { rewrite Hm'.
    replace (ex - ey - e') with ((ex - ey - u) + (u - e')) by lia.
    replace (t - e') with ((t - u) + (u - e')) by lia.
    rewrite !pow2_split by (unfold u; lia).
    pose proof (pow2_pos (u - e') ltac:(unfold u; lia)). nia. }
  assert (Hq0 : 0 <= q) by nia.
  apply binary_round_aux_under; try assumption.
  split; [exact He'|]. split.
  - nia.
  - intros Hloc. destruct (Z.eq_dec r 0) as [->|Hr0].
    + exfalso. apply Hloc. apply new_location_exact.
    + nia.
Qed.

Lemma SFmul_under (c t : Z) (mx my : positive) (ex ey : Z) :
  0 < c -> fexp prec emax (Zdigits2 c + t) <= t -> t <= emax - prec ->
  ex + ey <= t -> Zpos mx * Zpos my <= c * 2 ^ (t - (ex + ey)) ->
  SFmul prec emax (S754_finite false mx ex) (S754_finite false my ey) = S754_zero false
  \/ exists m e,
       SFmul prec emax (S754_finite false mx ex) (S754_finite false my ey)
       = S754_finite false m e
       /\ e <= t /\ Zpos m <= c * 2 ^ (t - e).
Proof.
  intros Hc Hct Ht He H. unfold SFmul. simpl xorb.
  apply binary_round_aux_under; try assumption; [lia|].
  split; [exact He|]. split; [rewrite Pos2Z.inj_mul; exact H|].
  intros Hl. exfalso. apply Hl. reflexivity.
Qed.

Lemma binary_normalize_under (c t D E : Z) :
  0 <= D -> 0 < c -> fexp prec emax (Zdigits2 c + t) <= t -> t <= emax - prec ->
  E <= t -> D <= c * 2 ^ (t - E) ->
  binary_normalize prec emax D E false = S754_zero false
  \/ exists m e, binary_normalize prec emax D E false = S754_finite false m e
                 /\ e <= t /\ Zpos m <= c * 2 ^ (t - e).
Proof.
  intros HD Hc Hct Ht HE H. destruct D as [|d|d]; [left; reflexivity| |lia].
  unfold binary_normalize, binary_round.
  destruct (shl_align_spec d E (fexp prec emax (Zpos (digits2_pos d) + E))) as [H2 H1].
  destruct (shl_align d E (fexp prec emax (Zpos (digits2_pos d) + E))) as [mz ez].
  simpl in H1, H2.
  apply binary_round_aux_under; try assumption; try lia.
  split; [lia|]. split.
  - rewrite H1, H2.
    set (z := Z.min E (fexp prec emax (Zpos (digits2_pos d) + E))).
    replace (t - z) with ((t - E) + (E - z)) by lia.
    rewrite pow2_split by (unfold z; lia).
    pose proof (pow2_pos (E - z) ltac:(unfold z; lia)). nia.
  - intros Hl. exfalso. apply Hl. reflexivity.
Qed.

(** Taking a smaller number from one that is at most [c * 2 ^ t] leaves
    at most that, and nothing negative. *)
Lemma SFsub_under (c t : Z) (mx my : positive) (ex ey : Z) :
  0 < c -> fexp prec emax (Zdigits2 c + t) <= t -> t <= emax - prec ->
  ex <= t -> Zpos mx <= c * 2 ^ (t - ex) ->
  Zpos my * 2 ^ (ey - Z.min ex ey) <= Zpos mx * 2 ^ (ex - Z.min ex ey) ->
  SFsub prec emax (S754_finite false mx ex) (S754_finite false my ey) = S754_zero false
  \/ exists m e,
       SFsub prec emax (S754_finite false mx ex) (S754_finite false my ey)
       = S754_finite false m e
       /\ e <= t /\ Zpos m <= c * 2 ^ (t - e).
Proof.
  intros Hc Hct Ht Hex Hx Hyx. unfold SFsub. simpl cond_Zopp.
  set (ez := Z.min ex ey) in *.
  destruct (shl_align_spec mx ex ez) as [_ H1]. destruct (shl_align_spec my ey ez) as [_ H2].
  replace (Z.min ex ez) with ez in H1 by (unfold ez; lia).
  replace (Z.min ey ez) with ez in H2 by (unfold ez; lia).
  rewrite H1, H2.
  apply binary_normalize_under; try assumption; [lia|unfold ez; lia|].
  replace (t - ez) with ((t - ex) + (ex - ez)) by lia.
  rewrite pow2_split by (unfold ez; lia).
  pose proof (pow2_pos (ex - ez) ltac:(unfold ez; lia)).
  pose proof (pow2_pos (ey - ez) ltac:(unfold ez; lia)). nia.
Qed.

(** In the order of the format a number under a bound is at most it. *)
Lemma under_SFleb (m cm : positive) (e ce : Z) :
  e <= ce -> Zpos m <= Zpos cm * 2 ^ (ce - e) ->
  SFleb (S754_finite false m e) (S754_finite false cm ce) = true.
Proof.
  intros He Hm. unfold SFleb, SFcompare.
  destruct (Z.compare_spec e ce) as [->|Hlt|Hgt]; [|reflexivity|lia].
  rewrite Z.sub_diag in Hm. change (2 ^ 0) with 1 in Hm.
  change (Pos.compare_cont Eq m cm) with (Pos.compare m cm).
  destruct (Pos.compare_spec m cm) as [->|Hlt|Hgt]; try reflexivity. lia.
Qed.

(** ** The range of [100 - x / y * 100] *)

Lemma Prim2SF_100 : Prim2SF 100 = S754_finite false 7036874417766400 (-46).
Proof. vm_compute. reflexivity. Qed.

Lemma Prim2SF_0 : Prim2SF 0 = S754_zero false.
Proof. vm_compute. reflexivity. Qed.

Lemma in_range_shape (r : float) :
  Prim2SF r = S754_zero false
  \/ (exists m e, Prim2SF r = S754_finite false m e
                  /\ e <= -46 /\ Zpos m <= 7036874417766400 * 2 ^ (-46 - e)) ->
  in_range r = true.
Proof.
  intros H. unfold in_range. rewrite !leb_spec, Prim2SF_0, Prim2SF_100.
  destruct H as [->|[m [e [-> [He Hm]]]]]; [reflexivity|].
  rewrite (under_SFleb m 7036874417766400 e (-46) He Hm). reflexivity.
Qed.

(** For two positive numbers of the format, the first at most the second,
    the formula gives a number between 0 and 100: the quotient is rounded to
    at most 1, the product to at most 100, and the difference is exact or
    rounded to the same side. *)
Lemma formula_in_range (x y : float) (mx my : positive) (ex ey : Z) :
  Prim2SF x = S754_finite false mx ex ->
  Prim2SF y = S754_finite false my ey ->
  Zpos mx * 2 ^ (ex - Z.min ex ey) <= Zpos my * 2 ^ (ey - Z.min ex ey) ->
  in_range (100 - x / y * 100) = true.
Proof.
  intros Hx Hy Hle.
  assert (Hq : Prim2SF (x / y) = S754_zero false
               \/ exists m e, Prim2SF (x / y) = S754_finite false m e
                              /\ e <= 0 /\ Zpos m <= 1 * 2 ^ (0 - e)).
  { rewrite div_spec, Hx, Hy.
    apply SFdiv_under; try (unfold fexp, SpecFloat.emin, prec, emax; simpl; lia).
    destruct (Z.le_ge_cases ex ey) as [Hc|Hc].
    - replace (Z.min ex ey) with ex in Hle by lia.
      replace (Z.min (ex - ey) 0) with (ex - ey) by lia.
      rewrite Z.sub_diag in *. replace (0 - (ex - ey)) with (ey - ex) by lia. lia.
    - replace (Z.min ex ey) with ey in Hle by lia.
      replace (Z.min (ex - ey) 0) with 0 by lia.
      rewrite Z.sub_diag in *. rewrite Z.sub_0_r. change (2 ^ (0 - 0)) with 1. lia. }
  assert (Hp : Prim2SF (x / y * 100) = S754_zero false
               \/ exists m e, Prim2SF (x / y * 100) = S754_finite false m e
                              /\ e <= -46 /\ Zpos m <= 7036874417766400 * 2 ^ (-46 - e)).
  { rewrite mul_spec, Prim2SF_100.
    destruct Hq as [->|[m [e [-> [He Hm]]]]]; [left; reflexivity|].
    apply SFmul_under; try (unfold fexp, SpecFloat.emin, prec, emax; simpl; lia).
    replace (-46 - (e + -46)) with (0 - e) by lia. nia. }
  apply in_range_shape.
  rewrite sub_spec, Prim2SF_100.
  destruct Hp as [->|[m [e [-> [He Hm]]]]].
  - right. exists 7036874417766400%positive, (-46).
    split; [reflexivity|]. split; [lia|]. simpl. lia.
  - apply SFsub_under; try (unfold fexp, SpecFloat.emin, prec, emax; simpl; lia).
    replace (Z.min (-46) e) with e by lia. rewrite Z.sub_diag. lia.
Qed.

(** ** Converting an integer *)

Lemma Zdigits2_bounds (p : positive) :
  2 ^ (Zdigits2 (Zpos p) - 1) <= Zpos p < 2 ^ Zdigits2 (Zpos p) /\ 0 < Zdigits2 (Zpos p).
Proof.
  simpl Zdigits2. split; [split; [apply digits2_lower|apply digits2_upper]|lia].
Qed.

Lemma Zdigits2_unique (p : positive) (d : Z) :
  2 ^ (d - 1) <= Zpos p < 2 ^ d -> Zdigits2 (Zpos p) = d.
Proof.
  intros [Hlo Hhi]. destruct (Zdigits2_bounds p) as [[Hl Hh] Hd].
  set (dp := Zdigits2 (Zpos p)) in *.
  assert (0 < d).
  { destruct (Z.lt_ge_cases 0 d) as [|Hd0]; [assumption|]. exfalso.
    destruct (Z.eq_dec d 0) as [->|Hne]; [simpl in Hhi; lia|].
    rewrite Z.pow_neg_r in Hhi by lia. lia. }
  assert (H1 : 2 ^ (dp - 1) < 2 ^ d) by lia.
  assert (H2 : 2 ^ (d - 1) < 2 ^ dp) by lia.
  apply Z.pow_lt_mono_r_iff in H1; [|lia|lia].
  apply Z.pow_lt_mono_r_iff in H2; [|lia|lia]. lia.
Qed.

Lemma shr_fexp_id (m e : Z) (l : location) :
  fexp prec emax (Zdigits2 m + e) <= e ->
  shr_fexp prec emax m e l = (shr_record_of_loc m l, e).
Proof.
  intros H. unfold shr_fexp, shr.
  destruct (fexp prec emax (Zdigits2 m + e) - e) as [|k|k] eqn:Ek; try reflexivity. lia.
Qed.

(** A mantissa of 53 digits at an exponent of the format is kept as it is. *)
Lemma binary_round_aux_canonical (m : positive) (e : Z) :
  2 ^ 52 <= Zpos m < 2 ^ 53 -> -1074 <= e <= 971 ->
  binary_round_aux prec emax false (Zpos m) e loc_Exact = S754_finite false m e.
Proof.
  intros Hm He. unfold binary_round_aux.
  assert (Hd : Zdigits2 (Zpos m) = 53) by (apply Zdigits2_unique; exact Hm).
  assert (Hk : fexp prec emax (Zdigits2 (Zpos m) + e) <= e).
  { rewrite Hd. unfold fexp, SpecFloat.emin, prec, emax. lia. }
  rewrite (shr_fexp_id _ _ _ Hk). simpl round_nearest_even.
  rewrite (shr_fexp_id _ _ _ Hk). simpl shr_m.
  destruct (Z.leb_spec e (emax - prec)) as [_|H]; [reflexivity|].
  unfold prec, emax in H. lia.
Qed.

(** The carry of a rounding: [2 ^ 53] at [e] is [2 ^ 52] at [e + 1]. *)
Lemma binary_round_tail_carry (e : Z) :
  -1074 <= e <= 970 ->
  shr_fexp prec emax (2 ^ 53) e loc_Exact = (Build_shr_record (2 ^ 52) false false, e + 1).
Proof.
  intros He. unfold shr_fexp, shr.
  change (Zdigits2 (2 ^ 53)) with 54.
  replace (fexp prec emax (54 + e) - e) with 1
    by (unfold fexp, SpecFloat.emin, prec, emax; lia).
  reflexivity.
Qed.

Lemma nearest64_exact (n : Z) : Zdigits2 n <= 53 -> nearest64 n = n.
Proof.
  intros H. unfold nearest64.
  destruct (Z.leb_spec (Zdigits2 n - 53) 0); [reflexivity|lia].
Qed.

(** The conversion of a positive [int] gives the nearest number of the
    format, with a mantissa of 53 digits. *)
Lemma binary_normalize_nearest (p : positive) :
  Zpos p < 2 ^ 63 ->
  exists m e,
    binary_normalize prec emax (Zpos p) 0 false = S754_finite false m e
    /\ 2 ^ 52 <= Zpos m < 2 ^ 53 /\ -52 <= e <= 11
    /\ Zpos m * 2 ^ (e + 52) = nearest64 (Zpos p) * 2 ^ 52.
Proof.
  intros Hp. destruct (Zdigits2_bounds p) as [[Hlo Hhi] Hd].
  set (d := Zdigits2 (Zpos p)) in *.
  assert (Hd63 : d <= 63).
  { assert (H : 2 ^ (d - 1) < 2 ^ 63) by lia.
    apply Z.pow_lt_mono_r_iff in H; lia. }
  unfold binary_normalize, binary_round.
  change (Zpos (digits2_pos p)) with d.
  replace (fexp prec emax (d + 0)) with (d - 53)
    by (unfold fexp, SpecFloat.emin, prec, emax; lia).
  destruct (shl_align_spec p 0 (d - 53)) as [H2 H1].
  destruct (shl_align p 0 (d - 53)) as [mz ez]. simpl in H1, H2. subst ez.
  destruct (Z.le_gt_cases (d - 53) 0) as [Hk|Hk].
  - (* no digit is lost *)
    replace (Z.min 0 (d - 53)) with (d - 53) in * by lia.
    replace (0 - (d - 53)) with (53 - d) in H1 by lia.
    assert (Hmz : 2 ^ 52 <= Zpos mz < 2 ^ 53).
    { assert (E52 : 2 ^ 52 = 2 ^ (d - 1) * 2 ^ (53 - d))
        by (rewrite <- pow2_split by lia; f_equal; lia).
      assert (E53 : 2 ^ 53 = 2 ^ d * 2 ^ (53 - d))
        by (rewrite <- pow2_split by lia; f_equal; lia).
      rewrite H1, E52, E53.
      pose proof (pow2_pos (53 - d) ltac:(lia)). nia. }
    exists mz, (d - 53).
    rewrite binary_round_aux_canonical by (try exact Hmz; lia).
    split; [reflexivity|]. split; [exact Hmz|]. split; [lia|].
    rewrite nearest64_exact by (fold d; lia).
    rewrite H1. rewrite <- Z.mul_assoc, <- pow2_split by lia. f_equal. f_equal. lia.
  - (* the last [d - 53] digits are rounded off *)
    replace (Z.min 0 (d - 53)) with 0 in * by lia.
    rewrite Z.sub_0_r in H1. change (2 ^ 0) with 1 in H1. rewrite Z.mul_1_r in H1.
    injection H1 as ->.
    set (k := d - 53) in *.
    assert (Hpk : 0 < 2 ^ k) by (apply pow2_pos; lia).
    assert (Hsplit : 2 ^ d = 2 ^ 53 * 2 ^ k).
    { rewrite <- pow2_split by lia. f_equal. lia. }
    assert (Hsplit' : 2 ^ (d - 1) = 2 ^ 52 * 2 ^ k).
    { rewrite <- pow2_split by lia. f_equal. lia. }
    assert (Hm1 : 2 ^ 52 <= Zpos p / 2 ^ k < 2 ^ 53).
    { split.
      - apply Z.div_le_lower_bound; lia.
      - apply Z.div_lt_upper_bound; lia. }
    unfold binary_round_aux, shr_fexp at 1, shr.
    fold d. replace (fexp prec emax (d + 0) - 0) with k
      by (unfold fexp, SpecFloat.emin, prec, emax, k; lia).
    destruct k as [|kp|kp] eqn:Ek; try lia.
    simpl shr_record_of_loc. rewrite iter_shr_1_record by lia.
    rewrite <- Ek in *. simpl Z.add.
    unfold nearest64. fold d. fold k.
    destruct (Z.leb_spec k 0) as [Hle|_]; [lia|].
    pose proof (mod_pow2_succ (Zpos p) (k - 1) ltac:(lia)) as Hmod.
    replace (k - 1 + 1) with k in Hmod by lia.
    pose proof (Z.mod_pos_bound (Zpos p) (2 ^ (k - 1)) ltac:(apply pow2_pos; lia)) as Hb.
    pose proof (pow2_pos (k - 1) ltac:(lia)) as Hh.
    set (m1 := Zpos p / 2 ^ k) in *.
    set (rest := Zpos p mod 2 ^ k) in *.
    set (low := Zpos p mod 2 ^ (k - 1)) in *.
    set (half := 2 ^ (k - 1)) in *.
    assert (Hup : round_nearest_even m1
                    (loc_of_shr_record
                       (Build_shr_record m1 (Z.testbit (Zpos p) (k - 1))
                          (negb (low =? 0) || false || false)))
                  = if (half <? rest) || ((rest =? half) && Z.odd m1) then m1 + 1 else m1).
    { destruct (Z.testbit (Zpos p) (k - 1)).
      - destruct (Z.eqb_spec low 0) as [H0|H0]; simpl.
        + destruct (Z.ltb_spec half rest); [lia|].
          destruct (Z.eqb_spec rest half); [|lia]. simpl.
          rewrite <- Z.negb_even. destruct (Z.even m1); reflexivity.
        + destruct (Z.ltb_spec half rest); [reflexivity|lia].
      - destruct (Z.ltb_spec half rest); [lia|].
        destruct (Z.eqb_spec rest half); [lia|]. simpl.
        destruct (negb (low =? 0)); reflexivity. }
    cbn [shr_m]. rewrite Z.add_0_l. rewrite Hup. clear Hup.
    destruct ((half <? rest) || ((rest =? half) && Z.odd m1)).
    + (* rounded up *)
      destruct (Z.eq_dec (m1 + 1) (2 ^ 53)) as [Hc|Hc].
      * rewrite Hc, binary_round_tail_carry by lia. simpl shr_m.
        exists (4503599627370496)%positive, (k + 1).
        destruct (Z.leb_spec (k + 1) (emax - prec)) as [_|H];
          [|unfold prec, emax in H; lia].
        split; [reflexivity|]. split; [lia|]. split; [lia|].
        change (Zpos 4503599627370496) with (2 ^ 52).
        replace (k + 1 + 52) with (53 + k) by lia. rewrite pow2_split by lia. ring.
      * destruct (m1 + 1) as [|mr|mr] eqn:Emr; try lia.
        rewrite shr_fexp_id
          by (rewrite (Zdigits2_unique mr 53) by lia;
              unfold fexp, SpecFloat.emin, prec, emax; lia).
        simpl shr_m. exists mr, k.
        destruct (Z.leb_spec k (emax - prec)) as [_|H]; [|unfold prec, emax in H; lia].
        split; [reflexivity|]. split; [lia|]. split; [lia|].
        rewrite pow2_split by lia. ring.
    + (* rounded down *)
      destruct m1 as [|mr|mr] eqn:Emr; try lia.
      rewrite shr_fexp_id
        by (rewrite (Zdigits2_unique mr 53) by lia;
            unfold fexp, SpecFloat.emin, prec, emax; lia).
      simpl shr_m. exists mr, k.
      destruct (Z.leb_spec k (emax - prec)) as [_|H]; [|unfold prec, emax in H; lia].
      split; [reflexivity|]. split; [lia|]. split; [lia|].
      rewrite pow2_split by lia. ring.
Qed.

(** What [nearest64] does to a number of more than 53 digits. *)
Lemma nearest64_parts (p : positive) :
  let k := Zdigits2 (Zpos p) - 53 in
  0 < k ->
  exists m rest,
    Zpos p = m * 2 ^ k + rest /\ 0 <= rest < 2 ^ k /\ 2 ^ 52 <= m < 2 ^ 53
    /\ 2 ^ Zdigits2 (Zpos p) = 2 ^ 53 * 2 ^ k
    /\ nearest64 (Zpos p)
       = (m + if (2 ^ (k - 1) <? rest) || ((rest =? 2 ^ (k - 1)) && Z.odd m)
              then 1 else 0) * 2 ^ k.
Proof.
  intros k Hk. destruct (Zdigits2_bounds p) as [[Hlo Hhi] Hd].
  fold k in Hlo, Hhi.
  set (d := Zdigits2 (Zpos p)) in *.
  assert (Hpk : 0 < 2 ^ k) by (apply pow2_pos; lia).
  assert (Hsplit : 2 ^ d = 2 ^ 53 * 2 ^ k).
  { rewrite <- pow2_split by lia. f_equal. unfold k. lia. }
  assert (Hsplit' : 2 ^ (d - 1) = 2 ^ 52 * 2 ^ k).
  { rewrite <- pow2_split by lia. f_equal. unfold k. lia. }
  exists (Zpos p / 2 ^ k), (Zpos p mod 2 ^ k).
  split; [rewrite Z.mul_comm; apply Z.div_mod; lia|].
  split; [apply Z.mod_pos_bound; exact Hpk|].
  split; [split; [apply Z.div_le_lower_bound; lia|apply Z.div_lt_upper_bound; lia]|].
  split; [exact Hsplit|].
  unfold nearest64. fold d. fold k.
  destruct (Z.leb_spec k 0); [lia|].
  destruct ((2 ^ (k - 1) <? Zpos p mod 2 ^ k)
            || ((Zpos p mod 2 ^ k =? 2 ^ (k - 1)) && Z.odd (Zpos p / 2 ^ k)));
    [reflexivity|rewrite Z.add_0_r; reflexivity].
Qed.

Lemma carry_01 (c : bool) : 0 <= (if c then 1 else 0) <= 1.
Proof. destruct c; lia. Qed.

(** Rounding to the nearest keeps the order. *)
Lemma nearest64_le (a b : positive) :
  Zpos a <= Zpos b -> nearest64 (Zpos a) <= nearest64 (Zpos b).
Proof.
  intros Hab.
  destruct (Zdigits2_bounds a) as [[Hloa Hhia] Hda].
  destruct (Zdigits2_bounds b) as [[Hlob Hhib] Hdb].
  assert (Hd : Zdigits2 (Zpos a) <= Zdigits2 (Zpos b)).
  { assert (H : 2 ^ (Zdigits2 (Zpos a) - 1) < 2 ^ Zdigits2 (Zpos b)) by lia.
    apply Z.pow_lt_mono_r_iff in H; lia. }
  destruct (Z.le_gt_cases (Zdigits2 (Zpos b)) 53) as [Hb53|Hb53].
  { rewrite !nearest64_exact by lia. exact Hab. }
  destruct (nearest64_parts b ltac:(lia)) as [mb [rb [Eb [Hrb [Hmb [Hsb ->]]]]]].
  set (kb := Zdigits2 (Zpos b) - 53) in *.
  assert (Hpkb : 0 < 2 ^ kb) by (apply pow2_pos; lia).
  assert (Hdown : mb * 2 ^ kb
                  <= (mb + if (2 ^ (kb - 1) <? rb) || ((rb =? 2 ^ (kb - 1)) && Z.odd mb)
                           then 1 else 0) * 2 ^ kb).
  { pose proof (carry_01 ((2 ^ (kb - 1) <? rb) || ((rb =? 2 ^ (kb - 1)) && Z.odd mb))).
    nia. }
  destruct (Z.le_gt_cases (Zdigits2 (Zpos a)) 53) as [Ha53|Ha53].
  { rewrite nearest64_exact by lia.
    assert (Zpos a < 2 ^ 53).
    { apply Z.lt_le_trans with (2 ^ Zdigits2 (Zpos a)); [lia|].
      apply Z.pow_le_mono_r; lia. }
    nia. }
  destruct (nearest64_parts a ltac:(lia)) as [ma [ra [Ea [Hra [Hma [Hsa ->]]]]]].
  set (ka := Zdigits2 (Zpos a) - 53) in *.
  assert (Hpka : 0 < 2 ^ ka) by (apply pow2_pos; lia).
  destruct (Z.eq_dec ka kb) as [Hk|Hk].
  - (* the same number of digits *)
    rewrite Hk in *. clear Hk.
    assert (Hm : ma <= mb) by nia.
    destruct (Z.eq_dec ma mb) as [->|Hne].
    + assert (Hr : ra <= rb) by lia.
      apply Z.mul_le_mono_nonneg_r; [lia|]. apply Z.add_le_mono_l.
      destruct (Z.ltb_spec (2 ^ (kb - 1)) ra) as [H1|H1];
        destruct (Z.ltb_spec (2 ^ (kb - 1)) rb) as [H3|H3];
        destruct (Z.eqb_spec ra (2 ^ (kb - 1))) as [H2|H2];
        destruct (Z.eqb_spec rb (2 ^ (kb - 1))) as [H4|H4];
        destruct (Z.odd mb); simpl; lia.
    + apply Z.le_trans with ((ma + 1) * 2 ^ kb).
      * apply Z.mul_le_mono_nonneg_r; [lia|].
        pose proof (carry_01 ((2 ^ (kb - 1) <? ra) || ((ra =? 2 ^ (kb - 1)) && Z.odd ma))).
        lia.
      * apply Z.le_trans with (mb * 2 ^ kb); [nia|exact Hdown].
  - (* fewer digits *)
    assert (Hkk : ka + 1 <= kb) by (unfold ka, kb in *; lia).
    apply Z.le_trans with (2 ^ 53 * 2 ^ ka).
    + apply Z.mul_le_mono_nonneg_r; [lia|].
      pose proof (carry_01 ((2 ^ (ka - 1) <? ra) || ((ra =? 2 ^ (ka - 1)) && Z.odd ma))).
      lia.
    + apply Z.le_trans with (mb * 2 ^ kb); [|exact Hdown].
      apply Z.le_trans with (2 ^ 52 * 2 ^ kb); [|nia].
      replace kb with ((kb - ka - 1) + (ka + 1)) by lia.
      rewrite (pow2_split (kb - ka - 1)), (pow2_split ka 1) by lia.
      change (2 ^ 1) with 2. change (2 ^ 53) with (2 ^ 52 * 2).
      pose proof (pow2_pos (kb - ka - 1) ltac:(lia)). nia.
Qed.

(** The conversions of two positive [int]s are in the order of the
    integers. *)
Lemma float64_of_int_le (a b : Z) :
  0 < a <= b -> b < 2 ^ 63 ->
  exists mx ex my ey,
    Prim2SF (float64_of_int a) = S754_finite false mx ex
    /\ Prim2SF (float64_of_int b) = S754_finite false my ey
    /\ Zpos mx * 2 ^ (ex - Z.min ex ey) <= Zpos my * 2 ^ (ey - Z.min ex ey).
Proof.
  intros [Ha Hab] Hb.
  assert (Hconv : forall n, 0 < n < 2 ^ 63 ->
            Prim2SF (float64_of_int n) = binary_normalize prec emax n 0 false).
  { intros n Hn. rewrite float64_of_int_uint63 by lia.
    rewrite of_uint63_spec, Uint63.of_Z_spec.
    rewrite Z.mod_small by (change Uint63.wB with (2 ^ 63); lia). reflexivity. }
  rewrite !Hconv by lia.
  destruct a as [|pa|pa]; try lia. destruct b as [|pb|pb]; try lia.
  destruct (binary_normalize_nearest pa ltac:(lia)) as [mx [ex [-> [Hmx [Hex Hvx]]]]].
  destruct (binary_normalize_nearest pb ltac:(lia)) as [my [ey [-> [Hmy [Hey Hvy]]]]].
  exists mx, ex, my, ey. split; [reflexivity|]. split; [reflexivity|].
  pose proof (nearest64_le pa pb Hab) as Hle.
  set (z := Z.min ex ey).
  assert (Hx : 2 ^ (ex + 52) = 2 ^ (ex - z) * 2 ^ (z + 52)).
  { rewrite <- pow2_split by (unfold z; lia). f_equal. lia. }
  assert (Hy : 2 ^ (ey + 52) = 2 ^ (ey - z) * 2 ^ (z + 52)).
  { rewrite <- pow2_split by (unfold z; lia). f_equal. lia. }
  rewrite Hx in Hvx. rewrite Hy in Hvy.
  pose proof (pow2_pos (z + 52) ltac:(unfold z; lia)).
  assert (0 < 2 ^ 52) by (apply pow2_pos; lia).
  nia.
Qed.

(** For a user at rank [r] of [N] ranked users the formula gives a number
    between 0 and 100. *)
Lemma percentile_of_in_range (r N : Z) :
  1 <= r <= N -> N < 2 ^ 63 -> in_range (percentile_of r N) = true.
Proof.
  intros Hr HN. unfold percentile_of.
  destruct (Z.eq_dec r 1) as [->|Hne].
  - simpl (1 - 1). change (float64_of_int 0) with 0%float.
    destruct (float64_of_int_le N N ltac:(lia) HN) as [mx [ex [_ [_ [Hy [_ _]]]]]].
    rewrite zero_over_positive by (left; eauto). vm_compute. reflexivity.
  - destruct (float64_of_int_le (r - 1) N ltac:(lia) HN)
      as [mx [ex [my [ey [Hx [Hy Hle]]]]]].
    apply (formula_in_range _ _ mx my ex ey Hx Hy Hle).
Qed.

(** ** When the formula gives 0 *)

Lemma round_tail_under (c t mr e1 : Z) :
  0 <= mr -> 0 < c -> fexp prec emax (Zdigits2 c + t) <= t -> t <= emax - prec ->
  under c t mr e1 loc_Exact ->
  let tail :=
    let '(mrs, e) := shr_fexp prec emax mr e1 loc_Exact in
    match shr_m mrs with
    | 0 => S754_zero false
    | Zpos m => if e <=? emax - prec then S754_finite false m e else S754_infinity false
    | Zneg _ => S754_nan
    end in
  tail = S754_zero false
  \/ exists m e, tail = S754_finite false m e /\ e <= t /\ Zpos m <= c * 2 ^ (t - e).
Proof.
  intros Hm Hc Hct Ht Hu tail. subst tail.
  destruct (shr_fexp_under c t mr e1 loc_Exact Hm Hc Hct Hu) as [Hu3 Hm3].
  destruct (shr_fexp prec emax mr e1 loc_Exact) as [mrs2 e2].
  simpl in Hu3, Hm3. destruct Hu3 as [He2 [Hle2 _]].
  destruct (shr_m mrs2) as [|m|m]; [left; reflexivity| |lia].
  right. exists m, e2.
  destruct (Z.leb_spec e2 (emax - prec)); [|lia].
  split; [reflexivity|split; assumption].
Qed.

(** A number whose lost digits are less than half a unit is rounded down:
    it is enough that what is kept is under the bound. *)
Lemma binary_round_aux_down (c t M E : Z) :
  0 <= M -> 0 < c -> fexp prec emax (Zdigits2 c + t) <= t -> t <= emax - prec ->
  let k := fexp prec emax (Zdigits2 M + E) - E in
  0 < k -> E + k <= t -> M / 2 ^ k <= c * 2 ^ (t - (E + k)) ->
  M mod 2 ^ k < 2 ^ (k - 1) ->
  binary_round_aux prec emax false M E loc_Exact = S754_zero false
  \/ exists m e, binary_round_aux prec emax false M E loc_Exact = S754_finite false m e
                 /\ e <= t /\ Zpos m <= c * 2 ^ (t - e).
Proof.
  intros HM Hc Hct Ht k Hk He Hq Hrest.
  assert (Heq : binary_round_aux prec emax false M E loc_Exact
                = let '(mrs, e) := shr_fexp prec emax (M / 2 ^ k) (E + k) loc_Exact in
                  match shr_m mrs with
                  | 0 => S754_zero false
                  | Zpos m =>
                      if e <=? emax - prec then S754_finite false m e
                      else S754_infinity false
                  | Zneg _ => S754_nan
                  end).
  { unfold binary_round_aux, shr_fexp at 1, shr. fold k.
    destruct k as [|kp|kp] eqn:Ek; try lia. rewrite <- Ek in *.
    simpl shr_record_of_loc. rewrite iter_shr_1_record by exact HM. rewrite <- Ek.
    cbn [shr_m].
    pose proof (mod_pow2_succ M (k - 1) ltac:(lia)) as Hmod.
    replace (k - 1 + 1) with k in Hmod by lia.
    pose proof (Z.mod_pos_bound M (2 ^ (k - 1)) ltac:(apply pow2_pos; lia)) as Hb.
    destruct (Z.testbit M (k - 1)); [lia|].
    assert (Hr : round_nearest_even (M / 2 ^ k)
                   (loc_of_shr_record
                      (Build_shr_record (M / 2 ^ k) false
                         (negb (M mod 2 ^ (k - 1) =? 0) || false || false)))
                 = M / 2 ^ k).
    { destruct (negb (M mod 2 ^ (k - 1) =? 0)); reflexivity. }
    rewrite Hr. reflexivity. }
  rewrite Heq.
  apply round_tail_under; try assumption.
  - apply Z.div_pos; [exact HM|apply pow2_pos; lia].
  - split; [exact He|]. split; [exact Hq|]. intros H. exfalso. apply H. reflexivity.
Qed.

Lemma binary_normalize_shape (d : positive) (E : Z) :
  SpecFloat.emin prec emax <= E ->
  (exists m e, binary_normalize prec emax (Zpos d) E false = S754_finite false m e)
  \/ binary_normalize prec emax (Zpos d) E false = S754_infinity false.
Proof.
  intros HE. unfold binary_normalize, binary_round.
  destruct (shl_align_spec d E (fexp prec emax (Zpos (digits2_pos d) + E))) as [H2 _].
  destruct (shl_align d E (fexp prec emax (Zpos (digits2_pos d) + E))) as [mz ez].
  simpl in H2. apply binary_round_aux_shape.
  rewrite H2. unfold fexp, SpecFloat.emin, prec, emax in *. lia.
Qed.

(** The exponent and the mantissa of a number of the format. *)
Lemma Prim2SF_canonical (x : float) (s : bool) (m : positive) (e : Z) :
  Prim2SF x = S754_finite s m e -> -1074 <= e /\ Zpos m < 2 ^ 53.
Proof.
  intros Hx. pose proof (Prim2SF_valid x) as Hv. rewrite Hx in Hv.
  unfold valid_binary, bounded, canonical_mantissa in Hv.
  apply andb_prop in Hv. destruct Hv as [Hc _]. apply Z.eqb_eq in Hc.
  pose proof (digits2_upper m) as Hu.
  set (d := Zpos (digits2_pos m)) in *.
  assert (Hd : d <= 53 /\ -1074 <= e).
  { unfold fexp, SpecFloat.emin, prec, emax in Hc. lia. }
  split; [lia|].
  apply Z.lt_le_trans with (2 ^ d); [exact Hu|].
  apply Z.pow_le_mono_r; lia.
Qed.

(** For two positive numbers of the format whose quotient is at most
    [1 - 2 ^ -53], the formula gives a number above 0: the product is
    rounded to at most the number before 100. *)
Lemma formula_positive (x y : float) (mx my : positive) (ex ey : Z) :
  Prim2SF x = S754_finite false mx ex ->
  Prim2SF y = S754_finite false my ey ->
  Zpos mx * 2 ^ (ex - ey - Z.min (ex - ey) (-53))
    <= (2 ^ 53 - 1) * Zpos my * 2 ^ (-53 - Z.min (ex - ey) (-53)) ->
  (0 <? 100 - x / y * 100)%float = true.
Proof.
  intros Hx Hy Hle.
  assert (Hq : Prim2SF (x / y) = S754_zero false
               \/ exists m e, Prim2SF (x / y) = S754_finite false m e
                              /\ e <= -53 /\ Zpos m <= (2 ^ 53 - 1) * 2 ^ (-53 - e)).
  { rewrite div_spec, Hx, Hy.
    apply SFdiv_under; try exact Hle;
      try (unfold fexp, SpecFloat.emin, prec, emax; simpl; lia). }
  assert (Hp : Prim2SF (x / y * 100) = S754_zero false
               \/ exists m e, Prim2SF (x / y * 100) = S754_finite false m e
                              /\ e <= -46 /\ Zpos m <= 7036874417766399 * 2 ^ (-46 - e)).
  { destruct Hq as [Hz|[m [e [Hq [He Hm]]]]].
    - left. rewrite mul_spec, Hz, Prim2SF_100. reflexivity.
    - destruct (Prim2SF_canonical _ _ _ _ Hq) as [Hemin Hm53].
      rewrite mul_spec, Hq, Prim2SF_100.
      change (SF64mul (S754_finite false m e) (S754_finite false 7036874417766400 (-46)))
        with (binary_round_aux prec emax false (Zpos (m * 7036874417766400)) (e + -46)
                loc_Exact).
      rewrite Pos2Z.inj_mul.
      change (Zpos 7036874417766400) with 7036874417766400.
      assert (He0 : 0 < 2 ^ (- e)) by (apply pow2_pos; lia).
      destruct (Z.le_gt_cases (Zpos m * 7036874417766400)
                  (7036874417766399 * 2 ^ (- e))) as [Hlow|Hhigh].
      + apply binary_round_aux_under;
          try (unfold fexp, SpecFloat.emin, prec, emax; simpl; lia).
        split; [lia|]. split.
        * replace (-46 - (e + -46)) with (- e) by lia. exact Hlow.
        * intros H. exfalso. apply H. reflexivity.
      + assert (He53 : e = -53).
        { destruct (Z.eq_dec e (-53)) as [|Hne]; [assumption|]. exfalso.
          assert (Hpow : 2 ^ (- e) = 2 ^ 54 * 2 ^ (- e - 54))
            by (rewrite <- pow2_split by lia; f_equal; lia).
          pose proof (pow2_pos (- e - 54) ltac:(lia)).
          rewrite Hpow in Hhigh. change (2 ^ 53) with 9007199254740992 in Hm53.
          change (2 ^ 54) with 18014398509481984 in Hhigh. nia. }
        subst e. change (-53 - -53) with 0 in Hm. change (2 ^ 0) with 1 in Hm.
        change (- -53) with 53 in Hhigh.
        change (2 ^ 53) with 9007199254740992 in *.
        set (M := Zpos m * 7036874417766400) in *.
        assert (HM : 2 ^ 105 <= M < 2 ^ 106).
        { change (2 ^ 105) with 40564819207303340847894502572032.
          change (2 ^ 106) with 81129638414606681695789005144064. unfold M. lia. }
        assert (Hd : Zdigits2 M = 106).
        { destruct M as [|Mp|Mp] eqn:EM; try lia. apply Zdigits2_unique. exact HM. }
        apply binary_round_aux_down;
          try (unfold fexp, SpecFloat.emin, prec, emax; simpl; lia);
          rewrite Hd;
          replace (fexp prec emax (106 + (-53 + -46)) - (-53 + -46)) with 53
            by (unfold fexp, SpecFloat.emin, prec, emax; lia);
          try lia.
        * change (-46 - (-53 + -46 + 53)) with 0. change (2 ^ 0) with 1.
          assert (M / 2 ^ 53 < 7036874417766400); [|lia].
          apply Z.div_lt_upper_bound; [lia|].
          change (2 ^ 53) with 9007199254740992. unfold M. lia.
        * change (2 ^ (53 - 1)) with 4503599627370496.
          change (2 ^ 53) with 9007199254740992.
          assert (Hm1 : M / 9007199254740992 = 7036874417766399).
          { symmetry. apply Z.div_unique with (r := M - 9007199254740992 * 7036874417766399);
              unfold M; lia. }
          rewrite Z.mod_eq by lia. rewrite Hm1. unfold M. lia. }
  assert (Hr : exists m e, Prim2SF (100 - x / y * 100) = S754_finite false m e).
  { rewrite sub_spec, Prim2SF_100.
    destruct Hp as [->|[m [e [Hp [He Hm]]]]]; [eexists; eexists; reflexivity|].
    destruct (Prim2SF_canonical _ _ _ _ Hp) as [Hemin _].
    rewrite Hp.
    assert (Hle100 :
      SFsub prec emax (S754_finite false 7036874417766400 (-46)) (S754_finite false m e)
      = S754_zero false
      \/ exists m' e',
           SFsub prec emax (S754_finite false 7036874417766400 (-46)) (S754_finite false m e)
           = S754_finite false m' e'
           /\ e' <= -46 /\ Zpos m' <= 7036874417766400 * 2 ^ (-46 - e')).
    { apply SFsub_under; try (unfold fexp, SpecFloat.emin, prec, emax; simpl; lia).
      replace (Z.min (-46) e) with e by lia. rewrite Z.sub_diag.
      pose proof (pow2_pos (-46 - e) ltac:(lia)). lia. }
    assert (Hpos :
      (exists m' e',
          SFsub prec emax (S754_finite false 7036874417766400 (-46)) (S754_finite false m e)
          = S754_finite false m' e')
      \/ SFsub prec emax (S754_finite false 7036874417766400 (-46)) (S754_finite false m e)
         = S754_infinity false).
    { unfold SFsub. simpl cond_Zopp.
      destruct (shl_align_spec 7036874417766400 (-46) (Z.min (-46) e)) as [_ H1].
      destruct (shl_align_spec m e (Z.min (-46) e)) as [_ H2].
      replace (Z.min (-46) (Z.min (-46) e)) with e in H1 by lia.
      replace (Z.min e (Z.min (-46) e)) with e in H2 by lia.
      replace (Z.min (-46) e) with e in * by lia.
      rewrite H1, H2. rewrite Z.sub_diag. change (2 ^ 0) with 1.
      pose proof (pow2_pos (-46 - e) ltac:(lia)) as Hpw.
      destruct (7036874417766400 * 2 ^ (-46 - e) - Zpos m * 1) as [|d|d] eqn:Ed; try lia.
      apply binary_normalize_shape. unfold SpecFloat.emin, prec, emax. lia. }
    destruct Hle100 as [Hz|[m' [e' [Hf _]]]]; [|eauto].
    destruct Hpos as [[m' [e' Hf]]|Hinf]; [eauto|]. rewrite Hz in Hinf. discriminate. }
  destruct Hr as [m [e Hr]]. rewrite ltb_spec, Prim2SF_0, Hr. reflexivity.
Qed.

Lemma nearest64_small (n : Z) : 0 < n <= 2 ^ 53 -> nearest64 n = n.
Proof.
  intros Hn. destruct (Z.eq_dec n (2 ^ 53)) as [->|Hne]; [vm_compute; reflexivity|].
  destruct n as [|p|p]; try lia.
  apply nearest64_exact.
  destruct (Zdigits2_bounds p) as [[Hlo _] Hd].
  assert (H : 2 ^ (Zdigits2 (Zpos p) - 1) < 2 ^ 53) by lia.
  apply Z.pow_lt_mono_r_iff in H; lia.
Qed.

(** Up to [2 ^ 53] ranked users, every ranked user gets a number above 0. *)
Lemma percentile_of_positive (r N : Z) :
  1 <= r <= N -> N <= 2 ^ 53 -> (0 <? percentile_of r N)%float = true.
Proof.
  intros Hr HN. unfold percentile_of.
  assert (Hconv : forall n, 0 < n <= 2 ^ 53 ->
            exists m e, Prim2SF (float64_of_int n) = S754_finite false m e
                        /\ -52 <= e <= 11 /\ Zpos m * 2 ^ (e + 52) = n * 2 ^ 52).
  { intros n Hn. rewrite float64_of_int_uint63 by lia.
    rewrite of_uint63_spec, Uint63.of_Z_spec.
    rewrite Z.mod_small by (change Uint63.wB with (2 ^ 63); lia).
    destruct n as [|p|p]; try lia.
    destruct (binary_normalize_nearest p ltac:(lia)) as [m [e [-> [_ [He Hv]]]]].
    rewrite nearest64_small in Hv by lia. eauto. }
  destruct (Z.eq_dec r 1) as [->|Hne].
  - simpl (1 - 1). change (float64_of_int 0) with 0%float.
    destruct (Hconv N ltac:(lia)) as [m [e [Hy _]]].
    rewrite zero_over_positive by (left; eauto). vm_compute. reflexivity.
  - destruct (Hconv (r - 1) ltac:(lia)) as [mx [ex [Hx [Hex Hvx]]]].
    destruct (Hconv N ltac:(lia)) as [my [ey [Hy [Hey Hvy]]]].
    apply (formula_positive _ _ mx my ex ey Hx Hy).
    set (u := Z.min (ex - ey) (-53)).
    set (s := ey + u + 105).
    assert (Hs : 0 <= s) by (unfold s, u; lia).
    assert (HA : 2 ^ (ex + 52) * 2 ^ 53 = 2 ^ (ex - ey - u) * 2 ^ s).
    { rewrite <- !pow2_split by (unfold s, u; lia). f_equal. unfold s. lia. }
    assert (HB : 2 ^ (ey + 52) = 2 ^ (-53 - u) * 2 ^ s).
    { rewrite <- pow2_split by (unfold s, u; lia). f_equal. unfold s. lia. }
    pose proof (pow2_pos s Hs) as Hps.
    apply (Z.mul_le_mono_pos_r _ _ (2 ^ s) Hps).
    replace (Zpos mx * 2 ^ (ex - ey - u) * 2 ^ s) with ((r - 1) * 2 ^ 52 * 2 ^ 53)
      by (rewrite <- Hvx, <- !Z.mul_assoc, HA; reflexivity).
    replace ((2 ^ 53 - 1) * Zpos my * 2 ^ (-53 - u) * 2 ^ s)
      with ((2 ^ 53 - 1) * (N * 2 ^ 52))
      by (rewrite <- Hvy, HB; ring).
    change (2 ^ 53) with 9007199254740992 in *.
    change (2 ^ 52) with 4503599627370496. lia.
Qed.

(** ** Rendering of the bounds *)

Example FormatRFC3339_utc : FormatRFC3339 jan01 = "2023-01-01T00:00:00Z".
Proof. vm_compute. reflexivity. Qed.

Example FormatRFC3339_east : FormatRFC3339 jan01_ist = "2023-01-01T05:30:00+05:30".
Proof. vm_compute. reflexivity. Qed.

Example FormatRFC3339_west :
  FormatRFC3339 (mkTime (1675123200 * Second + 999) (-28800)) = "2023-01-30T16:00:00-08:00".
Proof. vm_compute. reflexivity. Qed.

Example FormatRFC3339_leap_day :
  FormatRFC3339 (mkTime (1709251199 * Second) 0) = "2024-02-29T23:59:59Z".
Proof. vm_compute. reflexivity. Qed.

(** ** A user the ranking does not hold *)

Lemma find_rank_absent (userID : string) (rows : list bsonM) :
  forall (i userRank : Z),
    Forall (other_user userID) rows ->
    find_rank userID i rows userRank = Ret userRank.
Proof.
  induction rows as [|row rows IH]; intros i userRank Hrows; [reflexivity|].
  inversion Hrows as [|? ? [id [Hid Hne]] Hrest]; subst.
  simpl. rewrite Hid. apply String.eqb_neq in Hne. rewrite Hne.
  apply IH. exact Hrest.
Qed.

(** X1.  When the first query finds wagers of the user and the ranking the
    second query reads does not hold the user, the position stays 0 and the
    method returns [100 - (-1)/N * 100], without error: 200 for a ranking of
    one. *)
Theorem unranked_user_exceeds_hundred :
  forall (Collection Cursor : Type)
         (Aggregate : Collection -> Pipeline -> Cursor * option error)
         (All : Cursor -> slice bsonM * option error)
         (r : TransactionRepository) (userID : string) (from to : Time)
         (userCursor allUsersCursor : Cursor) (userResults allUsersResults : slice bsonM),
    Aggregate (collection r) (userWagerPipeline userID from to) = (userCursor, None) ->
    All userCursor = (userResults, None) ->
    len userResults <> 0 ->
    Aggregate (collection r) (allUsersPipeline from to) = (allUsersCursor, None) ->
    All allUsersCursor = (allUsersResults, None) ->
    len allUsersResults <> 0 ->
    Forall (other_user userID) (elems allUsersResults) ->
    TransactionRepository_CalculateUserWagerPercentile Aggregate All userID from to r
    = Ret ((100 - (float64_of_int (0 - 1) / float64_of_int (len allUsersResults) * 100))%float,
           None)
    /\ (len allUsersResults = 1 ->
        TransactionRepository_CalculateUserWagerPercentile Aggregate All userID from to r
        = Ret (200%float, None)).
Proof.
  intros Collection Cursor Aggregate All r userID from to userCursor allUsersCursor
    userResults allUsersResults HA HAll Hlen HA' HAll' Hlen' Hrows.
  assert (Hp : TransactionRepository_CalculateUserWagerPercentile Aggregate All
                 userID from to r
               = Ret (percentile_of 0 (len allUsersResults), None)).
  { unfold TransactionRepository_CalculateUserWagerPercentile.
    rewrite HA, HAll. apply Z.eqb_neq in Hlen, Hlen'. rewrite Hlen.
    rewrite HA', HAll', Hlen'.
    rewrite (find_rank_absent userID (elems allUsersResults) 0 0 Hrows). reflexivity. }
  split; [exact Hp|].
  intros Hone. rewrite Hp, Hone. vm_compute. reflexivity.
Qed.

Lemma unranked_user_exceeds_hundred_witness :
  TransactionRepository_CalculateUserWagerPercentile two_reads_Aggregate ranking_All
    "u9" jan01 jan31 u9_gone = Ret (200%float, None).
Proof.
  assert (Hrows : Forall (other_user "u9") [total_row "u1" "100"]).
  { constructor; [|constructor]. exists "u1". split; [reflexivity|discriminate]. }
  assert (Hlen : len (Some [total_row "u9" "5"]) <> 0) by discriminate.
  assert (Hlen' : len (Some [total_row "u1" "100"]) <> 0) by discriminate.
  exact (proj2 (unranked_user_exceeds_hundred (list bsonM * list bsonM) (slice bsonM)
                  two_reads_Aggregate ranking_All u9_gone "u9" jan01 jan31
                  (Some [total_row "u9" "5"]) (Some [total_row "u1" "100"])
                  (Some [total_row "u9" "5"]) (Some [total_row "u1" "100"])
                  eq_refl eq_refl Hlen eq_refl eq_refl Hlen' Hrows) eq_refl).
Defined.

(** X2.  The type assertion on [_id] is unchecked: when the first row of the
    ranking has an [_id] that is not a string, the method panics. *)
Theorem non_string_id_panics :
  forall (Collection Cursor : Type)
         (Aggregate : Collection -> Pipeline -> Cursor * option error)
         (All : Cursor -> slice bsonM * option error)
         (r : TransactionRepository) (userID : string) (from to : Time)
         (userCursor allUsersCursor : Cursor) (userResults : slice bsonM)
         (row : bsonM) (rows : list bsonM),
    Aggregate (collection r) (userWagerPipeline userID from to) = (userCursor, None) ->
    All userCursor = (userResults, None) ->
    len userResults <> 0 ->
    Aggregate (collection r) (allUsersPipeline from to) = (allUsersCursor, None) ->
    All allUsersCursor = (Some (row :: rows), None) ->
    not_string (index row "_id") ->
    exists msg,
      TransactionRepository_CalculateUserWagerPercentile Aggregate All userID from to r
      = Panic msg.
Proof.
  intros Collection Cursor Aggregate All r userID from to userCursor allUsersCursor
    userResults row rows HA HAll Hlen HA' HAll' Hid.
  exists "interface conversion: interface {} is not string".
  unfold TransactionRepository_CalculateUserWagerPercentile.
  rewrite HA, HAll. apply Z.eqb_neq in Hlen. rewrite Hlen. rewrite HA', HAll'.
  change (len (Some (row :: rows)) =? 0) with false.
  change (elems (Some (row :: rows))) with (row :: rows).
  revert Hid. simpl find_rank.
  destruct (index row "_id"); intros Hid; try reflexivity. destruct Hid.
Qed.

Lemma non_string_id_panics_witness :
  exists msg,
    TransactionRepository_CalculateUserWagerPercentile two_reads_Aggregate ranking_All
      "u1" jan01 jan31 numeric_id = Panic msg.
Proof.
  assert (Hlen : len (Some [total_row "u1" "100"]) <> 0) by discriminate.
  exact (non_string_id_panics (list bsonM * list bsonM) (slice bsonM)
           two_reads_Aggregate ranking_All numeric_id "u1" jan01 jan31
           (Some [total_row "u1" "100"])
           (Some [Some (<["_id" := AInt 7]> ∅); total_row "u1" "100"])
           (Some [total_row "u1" "100"])
           (Some (<["_id" := AInt 7]> ∅)) [total_row "u1" "100"]
           eq_refl eq_refl Hlen eq_refl eq_refl I).
Defined.

(** ** The sweep of the in-memory cache *)

Lemma cleanup_Get_later (now t : Time) (key : string) (c : MemoryCache) :
  ns now <= ns t ->
  MemoryCache_Get t key (MemoryCache_cleanup now c) = MemoryCache_Get t key c.
Proof.
  intros Hle. unfold MemoryCache_Get. rewrite cleanup_lookup.
  destruct (items c !! key) as [item|]; [|reflexivity].
  destruct (After now (expiration item)) eqn:Hnow; [|reflexivity].
  assert (Ht : After t (expiration item) = true).
  { unfold After in *. apply Z.ltb_lt in Hnow. apply Z.ltb_lt. lia. }
  rewrite Ht. reflexivity.
Qed.

Lemma cleanup_idempotent (now : Time) (c : MemoryCache) :
  MemoryCache_cleanup now (MemoryCache_cleanup now c) = MemoryCache_cleanup now c.
Proof.
  assert (H : items (MemoryCache_cleanup now (MemoryCache_cleanup now c))
              = items (MemoryCache_cleanup now c)).
  { apply map_eq. intros key. rewrite !cleanup_lookup.
    destruct (items c !! key) as [item|]; [|reflexivity].
    destruct (After now (expiration item)) eqn:Hnow; [reflexivity|].
    rewrite Hnow. reflexivity. }
  destruct (MemoryCache_cleanup now (MemoryCache_cleanup now c)) as [m1].
  destruct (MemoryCache_cleanup now c) as [m2]. simpl in H. rewrite H. reflexivity.
Qed.

(** X3.  A sweep at [now] keeps exactly the entries that have not expired at
    [now], doing it twice changes nothing more, and no reader at [now] or
    later can tell that it ran: [Get] returns what it returned before. *)
Theorem MemoryCache_cleanup_exact :
  forall (now : Time) (c : MemoryCache) (key : string),
    (forall item,
        items (MemoryCache_cleanup now c) !! key = Some item
        <-> items c !! key = Some item /\ After now (expiration item) = false)
    /\ MemoryCache_cleanup now (MemoryCache_cleanup now c) = MemoryCache_cleanup now c
    /\ forall t, ns now <= ns t ->
         MemoryCache_Get t key (MemoryCache_cleanup now c) = MemoryCache_Get t key c.
Proof.
  intros now c key. split; [|split].
  - intros item. rewrite cleanup_lookup.
    destruct (items c !! key) as [it|]; [|split; [discriminate|intros [H _]; discriminate]].
    destruct (After now (expiration it)) eqn:Hnow; split.
    + discriminate.
    + intros [H Hlive]. inversion H; subst. rewrite Hnow in Hlive. discriminate.
    + intros H. inversion H; subst. split; [reflexivity|exact Hnow].
    + intros [H _]. exact H.
  - apply cleanup_idempotent.
  - intros t. apply cleanup_Get_later.
Qed.

Lemma MemoryCache_cleanup_exact_witness :
  let c := MemoryCache_Set jan01 "old" (AInt 1) Second
             (MemoryCache_Set jan01 "new" (AInt 2) Minute NewMemoryCache) in
  let now := Add jan01 (2 * Second) in
  MemoryCache_Get (Add jan01 (3 * Second)) "new" (MemoryCache_cleanup now c)
  = MemoryCache_Get (Add jan01 (3 * Second)) "new" c.
Proof.
  intros c now.
  destruct (MemoryCache_cleanup_exact now c "new") as [_ [_ Hlater]].
  apply Hlater. vm_compute. discriminate.
Defined.

Example cleanup_drops_expired :
  let c := MemoryCache_Set jan01 "old" (AInt 1) Second
             (MemoryCache_Set jan01 "new" (AInt 2) Minute NewMemoryCache) in
  let swept := MemoryCache_cleanup (Add jan01 (2 * Second)) c in
  items swept !! "old" = None
  /\ items swept !! "new" = Some (mkItem (AInt 2) (Add jan01 Minute)).
Proof. vm_compute. split; reflexivity. Qed.

(** ** Keys do not interfere *)

Lemma spares_step (key : string) (t : Time) (o : cache_op) (c : MemoryCache) :
  spares key t o = true ->
  MemoryCache_Get t key (run_op o c) = MemoryCache_Get t key c.
Proof.
  unfold spares. intros H. apply negb_true_iff in H.
  apply orb_false_elim in H as [H Hw]. apply orb_false_elim in H as [Hs Hd].
  destruct o as [t' k v d | k | t' k | t'];
    cbn [run_op sets deletes sweeps_after] in *.
  - apply bool_decide_eq_false in Hs.
    unfold MemoryCache_Get, MemoryCache_Set. cbn [items].
    rewrite lookup_insert_ne by exact Hs. reflexivity.
  - apply bool_decide_eq_false in Hd.
    unfold MemoryCache_Get, MemoryCache_Delete. cbn [items].
    rewrite lookup_delete_ne by exact Hd. reflexivity.
  - reflexivity.
  - apply cleanup_Get_later. unfold After in Hw. apply Z.ltb_ge in Hw. exact Hw.
Qed.

(** X4.  What [Get] returns for a key at time [t] is not changed by any run
    of writes and deletes of other keys, reads, and sweeps that ran at [t]
    or before. *)
Theorem MemoryCache_keys_independent :
  forall (os : list cache_op) (key : string) (t : Time) (c : MemoryCache),
    forallb (spares key t) os = true ->
    MemoryCache_Get t key (run_ops os c) = MemoryCache_Get t key c.
Proof.
  induction os as [|o os IH]; intros key t c Hos; [reflexivity|].
  simpl in Hos. apply andb_prop in Hos as [Ho Hos].
  unfold run_ops. simpl. fold (run_ops os (run_op o c)).
  rewrite (IH key t (run_op o c) Hos). apply spares_step. exact Ho.
Qed.

Lemma MemoryCache_keys_independent_witness :
  let c := MemoryCache_Set jan01 "k" (AInt 1) Minute NewMemoryCache in
  let os := [OpSet jan01 "j" (AInt 2) Second; OpCleanup (Add jan01 (2 * Second));
             OpDelete "j"; OpGet jan01 "k"] in
  MemoryCache_Get (Add jan01 (3 * Second)) "k" (run_ops os c)
  = MemoryCache_Get (Add jan01 (3 * Second)) "k" c.
Proof.
  intros c os.
  apply (MemoryCache_keys_independent os "k" (Add jan01 (3 * Second)) c).
  vm_compute. reflexivity.
Defined.

(** ** The mock cache *)

(** X5.  The mock cache answers in a fixed order of precedence.  Told to
    fail, it finds nothing, even what was just stored.  Otherwise a scripted
    result for the key is the answer, whatever was stored or deleted;
    otherwise the last stored value, until it is deleted.  Every lookup is
    recorded, and [SetCalls] keeps the last value stored per key, deletes
    or not. *)
Theorem MockCache_precedence :
  forall (c : MockCache) (key : string) (v v' : Any),
    (GetShouldFail c = true ->
       (MockCache_Get key (MockCache_Set key v c)).1 = (ANil, false))
    /\ (forall r, GetShouldFail c = false -> GetCustomResults c !! key = Some r ->
       (MockCache_Get key (MockCache_Set key v c)).1 = (r, true)
       /\ (MockCache_Get key (MockCache_Delete key c)).1 = (r, true))
    /\ (GetShouldFail c = false -> GetCustomResults c !! key = None ->
       (MockCache_Get key (MockCache_Set key v c)).1 = (v, true)
       /\ (MockCache_Get key (MockCache_Set key v' (MockCache_Set key v c))).1 = (v', true)
       /\ (MockCache_Get key (MockCache_Delete key (MockCache_Set key v c))).1
          = (ANil, false))
    /\ GetCalls (MockCache_Get key c).2 = GetCalls c ++ [key]
    /\ SetCalls (MockCache_Delete key (MockCache_Set key v' (MockCache_Set key v c))) !! key
       = Some v'.
Proof.
  intros c key v v'. split; [|split; [|split; [|split]]].
  - intros Hfail. unfold MockCache_Get, MockCache_Set. cbn. rewrite Hfail. reflexivity.
  - intros r Hfail Hcustom. split;
      unfold MockCache_Get, MockCache_Set, MockCache_Delete; cbn;
      rewrite Hfail, Hcustom; reflexivity.
  - intros Hfail Hcustom. split; [|split];
      unfold MockCache_Get, MockCache_Set, MockCache_Delete; cbn;
      rewrite Hfail, Hcustom.
    + rewrite lookup_insert_eq. reflexivity.
    + rewrite lookup_insert_eq. reflexivity.
    + rewrite lookup_delete_eq. reflexivity.
  - apply MockCache_Get_calls.
  - unfold MockCache_Set, MockCache_Delete. cbn. apply lookup_insert_eq.
Qed.

Lemma MockCache_precedence_witness :
  (MockCache_Get "k" (MockCache_Set "k" (AInt 1) failing_cache)).1 = (ANil, false)
  /\ (MockCache_Get "k" (MockCache_Set "k" (AInt 1) scripted_cache)).1
     = (AString "scripted", true)
  /\ (MockCache_Get "k" (MockCache_Delete "k" (MockCache_Set "k" (AInt 1) NewMockCache))).1
     = (ANil, false).
Proof.
  split; [|split].
  - exact (proj1 (MockCache_precedence failing_cache "k" (AInt 1) ANil) eq_refl).
  - destruct (MockCache_precedence scripted_cache "k" (AInt 1) ANil) as [_ [H _]].
    exact (proj1 (H (AString "scripted") eq_refl eq_refl)).
  - destruct (MockCache_precedence NewMockCache "k" (AInt 1) ANil) as [_ [_ [H _]]].
    exact (proj2 (proj2 (H eq_refl eq_refl))).
Defined.

(** ** What a miss leaves behind *)

Lemma rows_served_cases (found : bool) (v : Any) :
  (rows_served found v = true /\ found = true /\ exists x, rows_hit v = Some x)
  \/ (rows_served found v = false /\ (found = false \/ rows_hit v = None)).
Proof.
  unfold rows_served. destruct found; [|right; split; [reflexivity|left; reflexivity]].
  destruct (rows_hit v) as [x|] eqn:E.
  - left. split; [|split; [reflexivity|exists x; reflexivity]].
    apply bool_decide_eq_true. eexists. reflexivity.
  - right. split; [|right; reflexivity].
    apply bool_decide_eq_false. intros [x Hx]. discriminate.
Qed.

Lemma percentile_served_cases (PF : string -> float * option error) (found : bool) (v : Any) :
  (percentile_served PF found v = true /\ found = true
   /\ exists x, percentile_hit PF v = Some x)
  \/ (percentile_served PF found v = false
      /\ (found = false \/ percentile_hit PF v = None)).
Proof.
  unfold percentile_served. destruct found; [|right; split; [reflexivity|left; reflexivity]].
  destruct (percentile_hit PF v) as [x|] eqn:E.
  - left. split; [|split; [reflexivity|exists x; reflexivity]].
    apply bool_decide_eq_true. eexists. reflexivity.
  - right. split; [|right; reflexivity].
    apply bool_decide_eq_false. intros [x Hx]. discriminate.
Qed.

(** X6.  With the in-memory cache, when the lookup does not end a list
    operation and the repository succeeds, the operation returns the
    repository's rows as a slice that is never nil, and stores exactly that
    slice under its key, to expire five minutes from now, replacing whatever
    was there; a found value of an unexpected shape has been reported in the
    log first, a plain miss has not.  The percentile operation does the same
    with the repository's number. *)
Theorem result_is_stored_for_five_minutes :
  forall (R : Type) (repoImpl : TransactionRepositoryInterface R)
         (PF : string -> float * option error) (w : @World MemoryCache R)
         (userID : string) (from to : Time) (v : Any) (found : bool) (r' : R),
    (forall results,
        MemoryCache_Get (now w) (GGRKey from to) (cache w) = (v, found) ->
        found = false \/ rows_hit v = None ->
        repo_CalculateGGR from to (repo w) = (Ret (results, None), r') ->
        TransactionService_CalculateGGR from to w
        = (Ret (Some (elems results), None),
           mkWorld (now w)
             (mkMemoryCache
                (<[GGRKey from to :=
                     mkItem (ASliceMap (Some (elems results))) (Add (now w) (5 * Minute))]>
                   (items (cache w))))
             r' (log_after found (GGRKey from to) (logged w))))
    /\ (forall results,
        MemoryCache_Get (now w) (DailyWagerKey from to) (cache w) = (v, found) ->
        found = false \/ rows_hit v = None ->
        repo_CalculateDailyWagerVolume from to (repo w) = (Ret (results, None), r') ->
        TransactionService_CalculateDailyWagerVolume from to w
        = (Ret (Some (elems results), None),
           mkWorld (now w)
             (mkMemoryCache
                (<[DailyWagerKey from to :=
                     mkItem (ASliceMap (Some (elems results))) (Add (now w) (5 * Minute))]>
                   (items (cache w))))
             r' (log_after found (DailyWagerKey from to) (logged w))))
    /\ (forall percentile,
        MemoryCache_Get (now w) (PercentileKey userID from to) (cache w) = (v, found) ->
        found = false \/ percentile_hit PF v = None ->
        repo_CalculateUserWagerPercentile userID from to (repo w)
        = (Ret (percentile, None), r') ->
        TransactionService_CalculateUserWagerPercentile PF userID from to w
        = (Ret (percentile, None),
           mkWorld (now w)
             (mkMemoryCache
                (<[PercentileKey userID from to :=
                     mkItem (AFloat64 percentile) (Add (now w) (5 * Minute))]>
                   (items (cache w))))
             r' (log_after (found && negb (percentile_shape v))
                   (PercentileKey userID from to) (logged w)))).
Proof.
  intros R repoImpl PF w userID from to v found r'. split; [|split].
  - intros results HGet Hmiss Hrepo.
    rewrite (GGR_miss w from to v found (cache w)); [|cbn; rewrite HGet; reflexivity|exact Hmiss].
    cbn. rewrite Hrepo. reflexivity.
  - intros results HGet Hmiss Hrepo.
    rewrite (DailyWager_miss w from to v found (cache w));
      [|cbn; rewrite HGet; reflexivity|exact Hmiss].
    cbn. rewrite Hrepo. reflexivity.
  - intros percentile HGet Hmiss Hrepo.
    rewrite (Percentile_miss PF w userID from to v found (cache w));
      [|cbn; rewrite HGet; reflexivity|exact Hmiss].
    cbn. rewrite Hrepo. reflexivity.
Qed.

Lemma result_is_stored_for_five_minutes_witness :
  let w := one_row_world in
  TransactionService_CalculateGGR jan01 jan31 w
  = (Ret (Some (elems (Some [btc_row])), None),
     mkWorld (now w)
       (mkMemoryCache
          (<[GGRKey jan01 jan31 :=
               mkItem (ASliceMap (Some (elems (Some [btc_row])))) (Add (now w) (5 * Minute))]>
             (items (cache w))))
       (MockTransactionRepository_CalculateGGR jan01 jan31 one_row_repo).2
       (log_after false (GGRKey jan01 jan31) (logged w))).
Proof.
  intros w.
  destruct (result_is_stored_for_five_minutes MockTransactionRepository _ ParseFloat_decimal
              w test_user jan01 jan31 ANil false
              (MockTransactionRepository_CalculateGGR jan01 jan31 one_row_repo).2)
    as [HG _].
  apply (HG (Some [btc_row])).
  - vm_compute. reflexivity.
  - left. reflexivity.
  - reflexivity.
Defined.

(** ** A cached result and a changing ledger *)

Section Stale.
Context {C R : Type} {cacheImpl : Cache C} {repoImpl : TransactionRepositoryInterface R}.
Variable PF : string -> float * option error.
Hypothesis cache_live : live C.

Implicit Types (w : @World C R).

Lemma GGR_stale w from to v found c1 results r' (t : Time) (r2 : R) :
  Cache_Get (now w) (GGRKey from to) (cache w) = (v, found, c1) ->
  found = false \/ rows_hit v = None ->
  repo_CalculateGGR from to (repo w) = (Ret (results, None), r') ->
  After t (Add (now w) (5 * Minute)) = false ->
  let w1 := (TransactionService_CalculateGGR from to w).2 in
  exists c2,
    TransactionService_CalculateGGR from to (mkWorld t (cache w1) r2 (logged w1))
    = (Ret (Some (elems results), None), mkWorld t c2 r2 (logged w1)).
Proof.
  intros HGet Hmiss Hrepo Ht. cbn zeta.
  rewrite (GGR_miss w from to v found c1 HGet Hmiss). cbn. rewrite Hrepo. cbn.
  destruct (cache_live (now w) t (GGRKey from to) (ASliceMap (Some (elems results)))
              (5 * Minute) c1 Ht) as [c2 Hc2].
  exists c2. erewrite GGR_hit; [reflexivity|cbn; exact Hc2|reflexivity].
Qed.

Lemma DailyWager_stale w from to v found c1 results r' (t : Time) (r2 : R) :
  Cache_Get (now w) (DailyWagerKey from to) (cache w) = (v, found, c1) ->
  found = false \/ rows_hit v = None ->
  repo_CalculateDailyWagerVolume from to (repo w) = (Ret (results, None), r') ->
  After t (Add (now w) (5 * Minute)) = false ->
  let w1 := (TransactionService_CalculateDailyWagerVolume from to w).2 in
  exists c2,
    TransactionService_CalculateDailyWagerVolume from to
      (mkWorld t (cache w1) r2 (logged w1))
    = (Ret (Some (elems results), None), mkWorld t c2 r2 (logged w1)).
Proof.
  intros HGet Hmiss Hrepo Ht. cbn zeta.
  rewrite (DailyWager_miss w from to v found c1 HGet Hmiss). cbn. rewrite Hrepo. cbn.
  destruct (cache_live (now w) t (DailyWagerKey from to) (ASliceMap (Some (elems results)))
              (5 * Minute) c1 Ht) as [c2 Hc2].
  exists c2. erewrite DailyWager_hit; [reflexivity|cbn; exact Hc2|reflexivity].
Qed.

Lemma Percentile_stale w userID from to v found c1 percentile r' (t : Time) (r2 : R) :
  Cache_Get (now w) (PercentileKey userID from to) (cache w) = (v, found, c1) ->
  found = false \/ percentile_hit PF v = None ->
  repo_CalculateUserWagerPercentile userID from to (repo w) = (Ret (percentile, None), r') ->
  After t (Add (now w) (5 * Minute)) = false ->
  let w1 := (TransactionService_CalculateUserWagerPercentile PF userID from to w).2 in
  exists c2,
    TransactionService_CalculateUserWagerPercentile PF userID from to
      (mkWorld t (cache w1) r2 (logged w1))
    = (Ret (percentile, None), mkWorld t c2 r2 (logged w1)).
Proof.
  intros HGet Hmiss Hrepo Ht. cbn zeta.
  rewrite (Percentile_miss PF w userID from to v found c1 HGet Hmiss). cbn.
  rewrite Hrepo. cbn.
  destruct (cache_live (now w) t (PercentileKey userID from to) (AFloat64 percentile)
              (5 * Minute) c1 Ht) as [c2 Hc2].
  exists c2. erewrite Percentile_hit; [reflexivity|cbn; exact Hc2|reflexivity].
Qed.
End Stale.

(** X7.  Against a live cache, once a call has fetched a result from the
    repository, every call with the same parameters during the next five
    minutes returns that same result, whatever the repository holds by then:
    the repository is not asked, and no line is logged. *)
Theorem cached_result_outlives_the_ledger :
  forall (C R : Type) (cacheImpl : Cache C) (repoImpl : TransactionRepositoryInterface R)
         (PF : string -> float * option error) (w : @World C R)
         (userID : string) (from to t : Time) (v : Any) (found : bool) (c1 : C) (r' r2 : R),
    live C ->
    After t (Add (now w) (5 * Minute)) = false ->
    (forall results,
        Cache_Get (now w) (GGRKey from to) (cache w) = (v, found, c1) ->
        found = false \/ rows_hit v = None ->
        repo_CalculateGGR from to (repo w) = (Ret (results, None), r') ->
        let w1 := (TransactionService_CalculateGGR from to w).2 in
        exists c2,
          TransactionService_CalculateGGR from to (mkWorld t (cache w1) r2 (logged w1))
          = (Ret (Some (elems results), None), mkWorld t c2 r2 (logged w1)))
    /\ (forall results,
        Cache_Get (now w) (DailyWagerKey from to) (cache w) = (v, found, c1) ->
        found = false \/ rows_hit v = None ->
        repo_CalculateDailyWagerVolume from to (repo w) = (Ret (results, None), r') ->
        let w1 := (TransactionService_CalculateDailyWagerVolume from to w).2 in
        exists c2,
          TransactionService_CalculateDailyWagerVolume from to
            (mkWorld t (cache w1) r2 (logged w1))
          = (Ret (Some (elems results), None), mkWorld t c2 r2 (logged w1)))
    /\ (forall percentile,
        Cache_Get (now w) (PercentileKey userID from to) (cache w) = (v, found, c1) ->
        found = false \/ percentile_hit PF v = None ->
        repo_CalculateUserWagerPercentile userID from to (repo w)
        = (Ret (percentile, None), r') ->
        let w1 := (TransactionService_CalculateUserWagerPercentile PF userID from to w).2 in
        exists c2,
          TransactionService_CalculateUserWagerPercentile PF userID from to
            (mkWorld t (cache w1) r2 (logged w1))
          = (Ret (percentile, None), mkWorld t c2 r2 (logged w1))).
Proof.
  intros C R cacheImpl repoImpl PF w userID from to t v found c1 r' r2 Hlive Ht.
  split; [|split].
  - intros results HGet Hmiss Hrepo.
    apply (GGR_stale Hlive w from to v found c1 results r' t r2); assumption.
  - intros results HGet Hmiss Hrepo.
    apply (DailyWager_stale Hlive w from to v found c1 results r' t r2); assumption.
  - intros percentile HGet Hmiss Hrepo.
    apply (Percentile_stale PF Hlive w userID from to v found c1 percentile r' t r2);
      assumption.
Qed.

Lemma cached_result_outlives_the_ledger_witness :
  let w := one_row_world in
  let w1 := (TransactionService_CalculateGGR jan01 jan31 w).2 in
  exists c2,
    TransactionService_CalculateGGR jan01 jan31
      (mkWorld (Add jan01 Minute) (cache w1) failing_repo (logged w1))
    = (Ret (Some (elems (Some [btc_row])), None),
       mkWorld (Add jan01 Minute) c2 failing_repo (logged w1)).
Proof.
  intros w.
  destruct (cached_result_outlives_the_ledger MemoryCache MockTransactionRepository _ _
              ParseFloat_decimal w test_user jan01 jan31 (Add jan01 Minute) ANil false
              (cache w) (MockTransactionRepository_CalculateGGR jan01 jan31 one_row_repo).2
              failing_repo MemoryCache_live eq_refl) as [HG _].
  apply (HG (Some [btc_row])).
  - vm_compute. reflexivity.
  - left. reflexivity.
  - reflexivity.
Defined.

(** ** Keys of different operations and users *)

Lemma append_length (s t : string) :
  String.length (s +:+ t) = (String.length s + String.length t)%nat.
Proof. induction s as [|a s IH]; simpl; [reflexivity|rewrite IH; reflexivity]. Qed.

Lemma append_inv_tail (s s' t : string) : s +:+ t = s' +:+ t -> s = s'.
Proof.
  revert s'. induction s as [|a s IH]; intros s' H.
  - destruct s' as [|b s']; [reflexivity|].
    apply (f_equal String.length) in H. rewrite !append_length in H. simpl in H. lia.
  - destruct s' as [|b s'].
    + apply (f_equal String.length) in H. rewrite !append_length in H. simpl in H. lia.
    + simpl in H. injection H as -> H. f_equal. apply IH. exact H.
Qed.

Lemma append_inv_head (p s s' : string) : p +:+ s = p +:+ s' -> s = s'.
Proof.
  induction p as [|a p IH]; intros H; [exact H|].
  apply IH. injection H as H. exact H.
Qed.

Lemma single_inj {A : Type} (a b : A) : [a] = [b] -> a = b.
Proof. intros H. injection H as H. exact H. Qed.

Lemma PercentileKey_user (userID userID' : string) (from to : Time) :
  PercentileKey userID from to = PercentileKey userID' from to -> userID = userID'.
Proof.
  unfold PercentileKey. intros H.
  apply append_inv_head in H. apply append_inv_tail in H. exact H.
Qed.

(** X8.  Each operation asks the cache for one key, made of its own prefix
    ([ggr:], [daily_wager:], [percentile:]) and its parameters.  The three
    operations never ask for the same key, whatever their parameters: an
    entry of one is never read as a result of another.  For the same bounds
    the percentile keys of different users differ. *)
Theorem keys_of_operations_are_apart :
  forall (R : Type) (repoImpl : TransactionRepositoryInterface R)
         (PF : string -> float * option error) (w : @World MockCache R)
         (userID userID' : string) (from to from' to' : Time),
    asked (TransactionService_CalculateGGR from to w)
    = GetCalls (cache w) ++ ["ggr:" +:+ FormatRFC3339 from +:+ ":" +:+ FormatRFC3339 to]
    /\ asked (TransactionService_CalculateDailyWagerVolume from to w)
    = GetCalls (cache w)
        ++ ["daily_wager:" +:+ FormatRFC3339 from +:+ ":" +:+ FormatRFC3339 to]
    /\ asked (TransactionService_CalculateUserWagerPercentile PF userID from to w)
    = GetCalls (cache w)
        ++ ["percentile:" +:+ userID +:+ ":" +:+ FormatRFC3339 from
              +:+ ":" +:+ FormatRFC3339 to]
    /\ asked (TransactionService_CalculateGGR from to w)
      <> asked (TransactionService_CalculateDailyWagerVolume from' to' w)
    /\ asked (TransactionService_CalculateGGR from to w)
      <> asked (TransactionService_CalculateUserWagerPercentile PF userID from' to' w)
    /\ asked (TransactionService_CalculateDailyWagerVolume from to w)
      <> asked (TransactionService_CalculateUserWagerPercentile PF userID from' to' w)
    /\ (asked (TransactionService_CalculateUserWagerPercentile PF userID from to w)
        = asked (TransactionService_CalculateUserWagerPercentile PF userID' from to w) ->
        userID = userID').
Proof.
  intros R repoImpl PF w userID userID' from to from' to'.
  rewrite !GGR_asked, !DailyWager_asked, !Percentile_asked.
  split; [reflexivity|]. split; [reflexivity|]. split; [reflexivity|].
  repeat split.
  - intros H. apply app_inv_head, single_inj in H. discriminate.
  - intros H. apply app_inv_head, single_inj in H. discriminate.
  - intros H. apply app_inv_head, single_inj in H. discriminate.
  - intros H. apply app_inv_head, single_inj in H.
    apply (PercentileKey_user userID userID' from to H).
Qed.

Lemma keys_of_operations_are_apart_witness :
  asked (TransactionService_CalculateGGR jan01 jan31 mock_world)
    <> asked (TransactionService_CalculateDailyWagerVolume jan01 jan31 mock_world)
  /\ test_user = test_user.
Proof.
  destruct (keys_of_operations_are_apart MockTransactionRepository _ ParseFloat_decimal
              mock_world test_user test_user jan01 jan31 jan01 jan31)
    as [_ [_ [_ [H1 [_ [_ H]]]]]].
  split; [exact H1 | exact (H eq_refl)].
Defined.

(** ** What the repository is asked *)

Section Asking.
Context {C : Type} {cacheImpl : Cache C}.
Variable PF : string -> float * option error.

Implicit Types (w : @World C MockTransactionRepository).

Lemma GGR_asks_its_own w from to v found c1 :
  Cache_Get (now w) (GGRKey from to) (cache w) = (v, found, c1) ->
  let r' := repo (TransactionService_CalculateGGR from to w).2 in
  CalculateGGRCalls r'
  = CalculateGGRCalls (repo w) ++ (if rows_served found v then [] else [(from, to)])
  /\ CalculateDailyWagerVolumeCalls r' = CalculateDailyWagerVolumeCalls (repo w)
  /\ CalculateUserWagerPercentileCalls r' = CalculateUserWagerPercentileCalls (repo w).
Proof.
  intros HGet. cbn zeta.
  destruct (rows_served_cases found v) as [[-> [-> [x Hx]]]|[-> Hmiss]].
  - rewrite (GGR_hit w from to v c1 x HGet Hx). cbn. rewrite app_nil_r. repeat split.
  - rewrite (GGR_miss w from to v found c1 HGet Hmiss). cbn.
    destruct (CalculateGGRFn (repo w) from to) as [[results [e|]]|msg]; cbn; repeat split.
Qed.

Lemma DailyWager_asks_its_own w from to v found c1 :
  Cache_Get (now w) (DailyWagerKey from to) (cache w) = (v, found, c1) ->
  let r' := repo (TransactionService_CalculateDailyWagerVolume from to w).2 in
  CalculateDailyWagerVolumeCalls r'
  = CalculateDailyWagerVolumeCalls (repo w)
      ++ (if rows_served found v then [] else [(from, to)])
  /\ CalculateGGRCalls r' = CalculateGGRCalls (repo w)
  /\ CalculateUserWagerPercentileCalls r' = CalculateUserWagerPercentileCalls (repo w).
Proof.
  intros HGet. cbn zeta.
  destruct (rows_served_cases found v) as [[-> [-> [x Hx]]]|[-> Hmiss]].
  - rewrite (DailyWager_hit w from to v c1 x HGet Hx). cbn. rewrite app_nil_r. repeat split.
  - rewrite (DailyWager_miss w from to v found c1 HGet Hmiss). cbn.
    destruct (CalculateDailyWagerVolumeFn (repo w) from to) as [[results [e|]]|msg];
      cbn; repeat split.
Qed.

Lemma Percentile_asks_its_own w userID from to v found c1 :
  Cache_Get (now w) (PercentileKey userID from to) (cache w) = (v, found, c1) ->
  let r' := repo (TransactionService_CalculateUserWagerPercentile PF userID from to w).2 in
  CalculateUserWagerPercentileCalls r'
  = CalculateUserWagerPercentileCalls (repo w)
      ++ (if percentile_served PF found v then [] else [(userID, from, to)])
  /\ CalculateGGRCalls r' = CalculateGGRCalls (repo w)
  /\ CalculateDailyWagerVolumeCalls r' = CalculateDailyWagerVolumeCalls (repo w).
Proof.
  intros HGet. cbn zeta.
  destruct (percentile_served_cases PF found v) as [[-> [-> [x Hx]]]|[-> Hmiss]].
  - rewrite (Percentile_hit PF w userID from to v c1 x HGet Hx). cbn.
    rewrite app_nil_r. repeat split.
  - rewrite (Percentile_miss PF w userID from to v found c1 HGet Hmiss). cbn.
    destruct (CalculateUserWagerPercentileFn (repo w) userID from to)
      as [[percentile [e|]]|msg]; cbn; repeat split.
Qed.
End Asking.

(** X9.  An operation passes its own parameters on, and asks for nothing
    else: on a mock repository the call list of its method grows by exactly
    the parameters of the operation when the lookup did not serve the
    result, and not at all when it did; the call lists of the other two
    methods stay as they were, whether the repository then succeeds, fails
    or panics. *)
Theorem repository_is_asked_the_same_question :
  forall (C : Type) (cacheImpl : Cache C) (PF : string -> float * option error)
         (w : @World C MockTransactionRepository) (userID : string) (from to : Time)
         (v : Any) (found : bool) (c1 : C),
    (Cache_Get (now w) (GGRKey from to) (cache w) = (v, found, c1) ->
     let r' := repo (TransactionService_CalculateGGR from to w).2 in
     CalculateGGRCalls r'
     = CalculateGGRCalls (repo w) ++ (if rows_served found v then [] else [(from, to)])
     /\ CalculateDailyWagerVolumeCalls r' = CalculateDailyWagerVolumeCalls (repo w)
     /\ CalculateUserWagerPercentileCalls r' = CalculateUserWagerPercentileCalls (repo w))
    /\ (Cache_Get (now w) (DailyWagerKey from to) (cache w) = (v, found, c1) ->
     let r' := repo (TransactionService_CalculateDailyWagerVolume from to w).2 in
     CalculateDailyWagerVolumeCalls r'
     = CalculateDailyWagerVolumeCalls (repo w)
         ++ (if rows_served found v then [] else [(from, to)])
     /\ CalculateGGRCalls r' = CalculateGGRCalls (repo w)
     /\ CalculateUserWagerPercentileCalls r' = CalculateUserWagerPercentileCalls (repo w))
    /\ (Cache_Get (now w) (PercentileKey userID from to) (cache w) = (v, found, c1) ->
     let r' := repo (TransactionService_CalculateUserWagerPercentile PF userID from to w).2 in
     CalculateUserWagerPercentileCalls r'
     = CalculateUserWagerPercentileCalls (repo w)
         ++ (if percentile_served PF found v then [] else [(userID, from, to)])
     /\ CalculateGGRCalls r' = CalculateGGRCalls (repo w)
     /\ CalculateDailyWagerVolumeCalls r' = CalculateDailyWagerVolumeCalls (repo w)).
Proof.
  intros C cacheImpl PF w userID from to v found c1. split; [|split].
  - apply GGR_asks_its_own.
  - apply DailyWager_asks_its_own.
  - apply (Percentile_asks_its_own PF).
Qed.

Lemma repository_is_asked_the_same_question_witness :
  let w := fresh_world in
  let r' := repo (TransactionService_CalculateUserWagerPercentile ParseFloat_decimal
                    test_user jan01 jan31 w).2 in
  CalculateUserWagerPercentileCalls r'
  = CalculateUserWagerPercentileCalls (repo w)
      ++ (if percentile_served ParseFloat_decimal false ANil then []
          else [(test_user, jan01, jan31)])
  /\ CalculateGGRCalls r' = CalculateGGRCalls (repo w)
  /\ CalculateDailyWagerVolumeCalls r' = CalculateDailyWagerVolumeCalls (repo w).
Proof.
  intros w.
  destruct (repository_is_asked_the_same_question MemoryCache _ ParseFloat_decimal w
              test_user jan01 jan31 ANil false (cache w)) as [_ [_ HP]].
  apply HP. vm_compute. reflexivity.
Defined.

(** ** Configuration *)

Lemma getEnv_nonempty (env : gmap string string) (key d : string) :
  d <> EmptyString -> getEnv env key d <> EmptyString.
Proof.
  intros Hd. unfold getEnv.
  destruct (String.eqb (Getenv env key) EmptyString) eqn:E; [exact Hd|].
  apply String.eqb_neq. exact E.
Qed.

(** X10.  [getEnv] gives the default for a variable that is unset or set to
    the empty string, and the variable's value otherwise; so no setting of
    the environment makes a field of [DefaultConfig] empty, the API key
    among them, and the two durations do not depend on the environment. *)
Theorem DefaultConfig_never_empty :
  forall (env : gmap string string) (key d : string),
    (env !! key = None \/ env !! key = Some EmptyString -> getEnv env key d = d)
    /\ (forall v, env !! key = Some v -> v <> EmptyString -> getEnv env key d = v)
    /\ APIKey (Auth (DefaultConfig env)) <> EmptyString
    /\ Port (HTTP (DefaultConfig env)) <> EmptyString
    /\ URI (MongoDB (DefaultConfig env)) <> EmptyString
    /\ Database (MongoDB (DefaultConfig env)) <> EmptyString
    /\ Collection_ (MongoDB (DefaultConfig env)) <> EmptyString
    /\ URL (Redis (DefaultConfig env)) <> EmptyString
    /\ CacheTimeout (DefaultConfig env) = 5 * Minute
    /\ Timeout (HTTP (DefaultConfig env)) = 30 * Second.
Proof.
  intros env key d.
  split; [|split; [|repeat split; try (apply getEnv_nonempty; discriminate)]].
  - intros [H|H]; unfold getEnv, Getenv; rewrite H; reflexivity.
  - intros v H Hv. unfold getEnv, Getenv. rewrite H. cbn.
    apply String.eqb_neq in Hv. rewrite Hv. reflexivity.
Qed.

Lemma DefaultConfig_never_empty_witness :
  getEnv {["API_KEY" := EmptyString]} "API_KEY" "test-api-key" = "test-api-key"
  /\ getEnv {["API_KEY" := "s3cret"]} "API_KEY" "test-api-key" = "s3cret".
Proof.
  split.
  - apply (proj1 (DefaultConfig_never_empty {["API_KEY" := EmptyString]} "API_KEY"
                    "test-api-key")).
    right. reflexivity.
  - destruct (DefaultConfig_never_empty {["API_KEY" := "s3cret"]} "API_KEY" "test-api-key")
      as [_ [H _]].
    apply H; [reflexivity|discriminate].
Defined.

(** ** The API key check *)

Lemma GetHeader_absent (c : Context) (key : string) :
  Header (request c) !! key = None -> GetHeader c key = EmptyString.
Proof. intros H. unfold GetHeader. rewrite H. reflexivity. Qed.

(** X11.  The middleware lets a request through to the handlers that follow
    exactly when the first [Authorization] value equals the configured key;
    any other request is answered 401 with the chain aborted, and the
    handlers that follow have no part in the result.  Under [DefaultConfig]
    a request without the header is turned away whatever the environment;
    with a configuration whose key is empty it is let through. *)
Theorem AuthMiddleware_gate :
  forall (W : Type) (cfg : Config) (next next' : Context -> W -> outcome Context * W)
         (c : Context) (w : W),
    (GetHeader c "Authorization" = APIKey (Auth cfg) ->
       AuthMiddleware cfg next c w = next c w)
    /\ (GetHeader c "Authorization" <> APIKey (Auth cfg) ->
       AuthMiddleware cfg next c w = (Ret (turned_away c), w)
       /\ AuthMiddleware cfg next c w = AuthMiddleware cfg next' c w)
    /\ (forall env, Header (request c) !! "Authorization" = None ->
       AuthMiddleware (DefaultConfig env) next c w = (Ret (turned_away c), w))
    /\ (APIKey (Auth cfg) = EmptyString ->
       Header (request c) !! "Authorization" = None ->
       AuthMiddleware cfg next c w = next c w).
Proof.
  intros W cfg next next' c w.
  assert (Hno : GetHeader c "Authorization" <> APIKey (Auth cfg) ->
                forall n : Context -> W -> outcome Context * W,
                  AuthMiddleware cfg n c w = (Ret (turned_away c), w)).
  { intros H n. unfold AuthMiddleware. apply String.eqb_neq in H. rewrite H. reflexivity. }
  split; [|split; [|split]].
  - intros H. unfold AuthMiddleware. rewrite H, String.eqb_refl. reflexivity.
  - intros H. split; [apply Hno; exact H|]. rewrite !Hno by exact H. reflexivity.
  - intros env H. unfold AuthMiddleware. rewrite (GetHeader_absent c _ H).
    destruct (String.eqb EmptyString (APIKey (Auth (DefaultConfig env)))) eqn:E;
      [|reflexivity].
    apply String.eqb_eq in E. symmetry in E.
    exfalso. revert E. apply getEnv_nonempty. discriminate.
  - intros Hkey H. unfold AuthMiddleware.
    rewrite (GetHeader_absent c _ H), Hkey. reflexivity.
Qed.

Lemma AuthMiddleware_gate_witness :
  let next := fun (c : Context) (w : unit) => (Ret (JSON StatusOK (GString "success") c), w) in
  AuthMiddleware test_config next (request_with ["test-api-key"] ∅ EmptyString) tt
  = next (request_with ["test-api-key"] ∅ EmptyString) tt
  /\ AuthMiddleware test_config next (request_with ["invalid-key"] ∅ EmptyString) tt
     = (Ret (turned_away (request_with ["invalid-key"] ∅ EmptyString)), tt)
  /\ AuthMiddleware (DefaultConfig {["API_KEY" := EmptyString]}) next bare_request tt
     = (Ret (turned_away bare_request), tt)
  /\ AuthMiddleware (mkConfig (MongoDB test_config) (HTTP test_config) (mkAuthConfig EmptyString)
                       (Redis test_config) (CacheTimeout test_config)) next bare_request tt
     = next bare_request tt.
Proof.
  intros next. split; [|split; [|split]].
  - apply (proj1 (AuthMiddleware_gate unit test_config next next
                    (request_with ["test-api-key"] ∅ EmptyString) tt)).
    reflexivity.
  - destruct (AuthMiddleware_gate unit test_config next next
                (request_with ["invalid-key"] ∅ EmptyString) tt) as [_ [H _]].
    apply H. discriminate.
  - destruct (AuthMiddleware_gate unit test_config next next bare_request tt)
      as [_ [_ [H _]]].
    apply H. reflexivity.
  - destruct (AuthMiddleware_gate unit
                (mkConfig (MongoDB test_config) (HTTP test_config) (mkAuthConfig EmptyString)
                   (Redis test_config) (CacheTimeout test_config))
                next next bare_request tt) as [_ [_ [_ H]]].
    apply H; reflexivity.
Defined.

(** ** The handlers *)

Section Handlers.
Context {S : Type} {serviceImpl : TransactionServiceInterface S}.
Variable ShouldBindQuery : Request -> TimeframeParams * option error.
Variable validate_Struct : TimeframeParams -> option error.

(** Every return of a handler is one of four answers. *)
Lemma GetGrossGamingRevenue_cases (c c' : Context) (s s' : S) :
  GetGrossGamingRevenue ShouldBindQuery validate_Struct c s = (Ret c', s') ->
  (answered c c' StatusBadRequest (error_body invalid_date) /\ s' = s)
  \/ (exists p e, ShouldBindQuery (request c) = (p, None) /\ validate_Struct p = Some e
        /\ answered c c' StatusBadRequest (error_body ("Validation error: " +:+ e))
        /\ s' = s)
  \/ (exists p x e, ShouldBindQuery (request c) = (p, None) /\ validate_Struct p = None
        /\ service_CalculateGGR (From p) (To p) s = (Ret (x, Some e), s')
        /\ answered c c' StatusInternalServerError
             (error_body ("Failed to calculate GGR: " +:+ e)))
  \/ (exists p x, ShouldBindQuery (request c) = (p, None) /\ validate_Struct p = None
        /\ service_CalculateGGR (From p) (To p) s = (Ret (x, None), s')
        /\ answered c c' StatusOK (rows_body p x)).
Proof.
  unfold GetGrossGamingRevenue, answered.
  destruct (ShouldBindQuery (request c)) as [p [e|]] eqn:Hb.
  - intros H. inversion H; subst. left. split; reflexivity.
  - destruct (validate_Struct p) as [e|] eqn:Hv.
    + intros H. inversion H; subst. right; left. exists p, e. repeat split; auto.
    + destruct (service_CalculateGGR (From p) (To p) s) as [[[x [e|]]|msg] s1] eqn:Hs;
        intros H; inversion H; subst.
      * right; right; left. exists p, x, e. repeat split; auto.
      * right; right; right. exists p, x. repeat split; auto.
Qed.

Lemma GetDailyWagerVolume_cases (c c' : Context) (s s' : S) :
  GetDailyWagerVolume ShouldBindQuery validate_Struct c s = (Ret c', s') ->
  (answered c c' StatusBadRequest (error_body invalid_date) /\ s' = s)
  \/ (exists p e, ShouldBindQuery (request c) = (p, None) /\ validate_Struct p = Some e
        /\ answered c c' StatusBadRequest (error_body ("Validation error: " +:+ e))
        /\ s' = s)
  \/ (exists p x e, ShouldBindQuery (request c) = (p, None) /\ validate_Struct p = None
        /\ service_CalculateDailyWagerVolume (From p) (To p) s = (Ret (x, Some e), s')
        /\ answered c c' StatusInternalServerError
             (error_body ("Failed to calculate daily wager volume: " +:+ e)))
  \/ (exists p x, ShouldBindQuery (request c) = (p, None) /\ validate_Struct p = None
        /\ service_CalculateDailyWagerVolume (From p) (To p) s = (Ret (x, None), s')
        /\ answered c c' StatusOK (rows_body p x)).
Proof.
  unfold GetDailyWagerVolume, answered.
  destruct (ShouldBindQuery (request c)) as [p [e|]] eqn:Hb.
  - intros H. inversion H; subst. left. split; reflexivity.
  - destruct (validate_Struct p) as [e|] eqn:Hv.
    + intros H. inversion H; subst. right; left. exists p, e. repeat split; auto.
    + destruct (service_CalculateDailyWagerVolume (From p) (To p) s)
        as [[[x [e|]]|msg] s1] eqn:Hs; intros H; inversion H; subst.
      * right; right; left. exists p, x, e. repeat split; auto.
      * right; right; right. exists p, x. repeat split; auto.
Qed.

Lemma GetUserWagerPercentile_cases (c c' : Context) (s s' : S) :
  GetUserWagerPercentile ShouldBindQuery validate_Struct c s = (Ret c', s') ->
  (Param c "user_id" = EmptyString
   /\ answered c c' StatusBadRequest (error_body "User ID is required") /\ s' = s)
  \/ (answered c c' StatusBadRequest (error_body invalid_date) /\ s' = s)
  \/ (exists p e, ShouldBindQuery (request c) = (p, None) /\ validate_Struct p = Some e
        /\ answered c c' StatusBadRequest (error_body ("Validation error: " +:+ e))
        /\ s' = s)
  \/ (exists p x e, ShouldBindQuery (request c) = (p, None) /\ validate_Struct p = None
        /\ service_CalculateUserWagerPercentile (Param c "user_id") (From p) (To p) s
           = (Ret (x, Some e), s')
        /\ answered c c' StatusInternalServerError
             (error_body ("Failed to calculate user wager percentile: " +:+ e)))
  \/ (exists p x, ShouldBindQuery (request c) = (p, None) /\ validate_Struct p = None
        /\ Param c "user_id" <> EmptyString
        /\ service_CalculateUserWagerPercentile (Param c "user_id") (From p) (To p) s
           = (Ret (x, None), s')
        /\ answered c c' StatusOK (percentile_body (Param c "user_id") p x)).
Proof.
  unfold GetUserWagerPercentile, answered.
  destruct (String.eqb (Param c "user_id") EmptyString) eqn:Hu.
  - apply String.eqb_eq in Hu. intros H. inversion H; subst. left. repeat split. exact Hu.
  - apply String.eqb_neq in Hu.
    destruct (ShouldBindQuery (request c)) as [p [e|]] eqn:Hb.
    + intros H. inversion H; subst. right; left. split; reflexivity.
    + destruct (validate_Struct p) as [e|] eqn:Hv.
      * intros H. inversion H; subst. right; right; left. exists p, e. repeat split; auto.
      * destruct (service_CalculateUserWagerPercentile (Param c "user_id") (From p) (To p) s)
          as [[[x [e|]]|msg] s1] eqn:Hs; intros H; inversion H; subst.
        -- right; right; right; left. exists p, x, e. repeat split; auto.
        -- right; right; right; right. exists p, x. repeat split; auto.
Qed.
End Handlers.

(** ** A request from the key check to the repository *)

Lemma answered_written (c c' : Context) (code : Z) (body : ginValue) :
  answered c c' code body ->
  written c' = written c ++ [(code, body)] /\ request c' = request c.
Proof. intros ->. split; reflexivity. Qed.

Ltac status := unfold StatusOK, StatusBadRequest, StatusUnauthorized,
  StatusInternalServerError in *.

Ltac wrong_code :=
  let H := fresh in
  status; intros H; first [discriminate H | destruct H as [H|H]; discriminate H].

Section Routes.
Context {C R : Type} {cacheImpl : Cache C} {repoImpl : TransactionRepositoryInterface R}.
Variable PF : string -> float * option error.
Variable ShouldBindQuery : Request -> TimeframeParams * option error.
Variable validate_Struct : TimeframeParams -> option error.
Variable cfg : Config.

Implicit Types (w : @World C R) (c : Context).

Lemma GGR_route c c' w w' :
  AuthMiddleware cfg
    (GetGrossGamingRevenue (serviceImpl := TransactionService_Interface PF)
       ShouldBindQuery validate_Struct) c w = (Ret c', w') ->
  exists code body,
    (written c' = written c ++ [(code, body)] /\ request c' = request c)
    /\ (code = 200 \/ code = 400 \/ code = 401 \/ code = 500)
    /\ (code = 401 <-> GetHeader c "Authorization" <> APIKey (Auth cfg))
    /\ (code = 400 \/ code = 401 -> w' = w)
    /\ (code = 500 ->
        exists p e, ShouldBindQuery (request c) = (p, None)
          /\ error_of (repo_CalculateGGR (From p) (To p) (repo w)).1 = Some e
          /\ body = error_body ("Failed to calculate GGR: " +:+ e))
    /\ (code = 200 ->
        exists p x, ShouldBindQuery (request c) = (p, None) /\ validate_Struct p = None
          /\ (TransactionService_CalculateGGR (From p) (To p) w).1 = Ret (x, None)
          /\ body = rows_body p x).
Proof.
  unfold AuthMiddleware.
  destruct (String.eqb (GetHeader c "Authorization") (APIKey (Auth cfg))) eqn:Hk; cbn [negb].
  - apply String.eqb_eq in Hk. intros H.
    apply GetGrossGamingRevenue_cases in H.
    destruct H as [[Ha ->]|[(p & e & Hb & Hv & Ha & ->)|[(p & x & e & Hb & Hv & Hs & Ha)
                  |(p & x & Hb & Hv & Hs & Ha)]]].
    + exists 400, (error_body invalid_date).
      split; [apply answered_written; exact Ha|]. split; [auto|].
      split; [split; [wrong_code|intros Hne; destruct (Hne Hk)]|].
      split; [reflexivity|]. split; wrong_code.
    + exists 400, (error_body ("Validation error: " +:+ e)).
      split; [apply answered_written; exact Ha|]. split; [auto|].
      split; [split; [wrong_code|intros Hne; destruct (Hne Hk)]|].
      split; [reflexivity|]. split; wrong_code.
    + exists 500, (error_body ("Failed to calculate GGR: " +:+ e)).
      split; [apply answered_written; exact Ha|]. split; [auto|].
      split; [split; [wrong_code|intros Hne; destruct (Hne Hk)]|].
      split; [wrong_code|]. split; [|wrong_code].
      intros _. exists p, e. split; [exact Hb|]. split; [|reflexivity].
      apply GGR_error_source. cbn in Hs. rewrite Hs. reflexivity.
    + exists 200, (rows_body p x).
      split; [apply answered_written; exact Ha|]. split; [auto|].
      split; [split; [wrong_code|intros Hne; destruct (Hne Hk)]|].
      split; [wrong_code|]. split; [wrong_code|].
      intros _. exists p, x. repeat split; auto. cbn in Hs. rewrite Hs. reflexivity.
  - apply String.eqb_neq in Hk. intros H. inversion H; subst.
    exists 401, (error_body "Invalid or missing API key").
    split; [split; reflexivity|]. split; [auto|].
    split; [split; [intros _; exact Hk|reflexivity]|].
    split; [reflexivity|]. split; wrong_code.
Qed.

Lemma DailyWager_route c c' w w' :
  AuthMiddleware cfg
    (GetDailyWagerVolume (serviceImpl := TransactionService_Interface PF)
       ShouldBindQuery validate_Struct) c w = (Ret c', w') ->
  exists code body,
    (written c' = written c ++ [(code, body)] /\ request c' = request c)
    /\ (code = 200 \/ code = 400 \/ code = 401 \/ code = 500)
    /\ (code = 401 <-> GetHeader c "Authorization" <> APIKey (Auth cfg))
    /\ (code = 400 \/ code = 401 -> w' = w)
    /\ (code = 500 ->
        exists p e, ShouldBindQuery (request c) = (p, None)
          /\ error_of (repo_CalculateDailyWagerVolume (From p) (To p) (repo w)).1 = Some e
          /\ body = error_body ("Failed to calculate daily wager volume: " +:+ e))
    /\ (code = 200 ->
        exists p x, ShouldBindQuery (request c) = (p, None) /\ validate_Struct p = None
          /\ (TransactionService_CalculateDailyWagerVolume (From p) (To p) w).1 = Ret (x, None)
          /\ body = rows_body p x).
Proof.
  unfold AuthMiddleware.
  destruct (String.eqb (GetHeader c "Authorization") (APIKey (Auth cfg))) eqn:Hk; cbn [negb].
  - apply String.eqb_eq in Hk. intros H.
    apply GetDailyWagerVolume_cases in H.
    destruct H as [[Ha ->]|[(p & e & Hb & Hv & Ha & ->)|[(p & x & e & Hb & Hv & Hs & Ha)
                  |(p & x & Hb & Hv & Hs & Ha)]]].
    + exists 400, (error_body invalid_date).
      split; [apply answered_written; exact Ha|]. split; [auto|].
      split; [split; [wrong_code|intros Hne; destruct (Hne Hk)]|].
      split; [reflexivity|]. split; wrong_code.
    + exists 400, (error_body ("Validation error: " +:+ e)).
      split; [apply answered_written; exact Ha|]. split; [auto|].
      split; [split; [wrong_code|intros Hne; destruct (Hne Hk)]|].
      split; [reflexivity|]. split; wrong_code.
    + exists 500, (error_body ("Failed to calculate daily wager volume: " +:+ e)).
      split; [apply answered_written; exact Ha|]. split; [auto|].
      split; [split; [wrong_code|intros Hne; destruct (Hne Hk)]|].
      split; [wrong_code|]. split; [|wrong_code].
      intros _. exists p, e. split; [exact Hb|]. split; [|reflexivity].
      apply DailyWager_error_source. cbn in Hs. rewrite Hs. reflexivity.
    + exists 200, (rows_body p x).
      split; [apply answered_written; exact Ha|]. split; [auto|].
      split; [split; [wrong_code|intros Hne; destruct (Hne Hk)]|].
      split; [wrong_code|]. split; [wrong_code|].
      intros _. exists p, x. repeat split; auto. cbn in Hs. rewrite Hs. reflexivity.
  - apply String.eqb_neq in Hk. intros H. inversion H; subst.
    exists 401, (error_body "Invalid or missing API key").
    split; [split; reflexivity|]. split; [auto|].
    split; [split; [intros _; exact Hk|reflexivity]|].
    split; [reflexivity|]. split; wrong_code.
Qed.

Lemma Percentile_route c c' w w' :
  AuthMiddleware cfg
    (GetUserWagerPercentile (serviceImpl := TransactionService_Interface PF)
       ShouldBindQuery validate_Struct) c w = (Ret c', w') ->
  exists code body,
    (written c' = written c ++ [(code, body)] /\ request c' = request c)
    /\ (code = 200 \/ code = 400 \/ code = 401 \/ code = 500)
    /\ (code = 401 <-> GetHeader c "Authorization" <> APIKey (Auth cfg))
    /\ (code = 400 \/ code = 401 -> w' = w)
    /\ (code = 500 ->
        exists p e, ShouldBindQuery (request c) = (p, None)
          /\ error_of (repo_CalculateUserWagerPercentile (Param c "user_id")
                         (From p) (To p) (repo w)).1 = Some e
          /\ body = error_body ("Failed to calculate user wager percentile: " +:+ e))
    /\ (code = 200 ->
        exists p x, ShouldBindQuery (request c) = (p, None) /\ validate_Struct p = None
          /\ Param c "user_id" <> EmptyString
          /\ (TransactionService_CalculateUserWagerPercentile PF (Param c "user_id")
                (From p) (To p) w).1 = Ret (x, None)
          /\ body = percentile_body (Param c "user_id") p x).
Proof.
  unfold AuthMiddleware.
  destruct (String.eqb (GetHeader c "Authorization") (APIKey (Auth cfg))) eqn:Hk; cbn [negb].
  - apply String.eqb_eq in Hk. intros H.
    apply GetUserWagerPercentile_cases in H.
    destruct H as [(Hu & Ha & ->)|[[Ha ->]|[(p & e & Hb & Hv & Ha & ->)
                  |[(p & x & e & Hb & Hv & Hs & Ha)|(p & x & Hb & Hv & Hu & Hs & Ha)]]]].
    + exists 400, (error_body "User ID is required").
      split; [apply answered_written; exact Ha|]. split; [auto|].
      split; [split; [wrong_code|intros Hne; destruct (Hne Hk)]|].
      split; [reflexivity|]. split; wrong_code.
    + exists 400, (error_body invalid_date).
      split; [apply answered_written; exact Ha|]. split; [auto|].
      split; [split; [wrong_code|intros Hne; destruct (Hne Hk)]|].
      split; [reflexivity|]. split; wrong_code.
    + exists 400, (error_body ("Validation error: " +:+ e)).
      split; [apply answered_written; exact Ha|]. split; [auto|].
      split; [split; [wrong_code|intros Hne; destruct (Hne Hk)]|].
      split; [reflexivity|]. split; wrong_code.
    + exists 500, (error_body ("Failed to calculate user wager percentile: " +:+ e)).
      split; [apply answered_written; exact Ha|]. split; [auto|].
      split; [split; [wrong_code|intros Hne; destruct (Hne Hk)]|].
      split; [wrong_code|]. split; [|wrong_code].
      intros _. exists p, e. split; [exact Hb|]. split; [|reflexivity].
      apply (Percentile_error_source PF). cbn in Hs. rewrite Hs. reflexivity.
    + exists 200, (percentile_body (Param c "user_id") p x).
      split; [apply answered_written; exact Ha|]. split; [auto|].
      split; [split; [wrong_code|intros Hne; destruct (Hne Hk)]|].
      split; [wrong_code|]. split; [wrong_code|].
      intros _. exists p, x. repeat split; auto. cbn in Hs. rewrite Hs. reflexivity.
  - apply String.eqb_neq in Hk. intros H. inversion H; subst.
    exists 401, (error_body "Invalid or missing API key").
    split; [split; reflexivity|]. split; [auto|].
    split; [split; [intros _; exact Hk|reflexivity]|].
    split; [reflexivity|]. split; wrong_code.
Qed.
End Routes.

(** X12.  Behind the key check, each of the three routes answers a request
    that it finishes with exactly one response, whose status is 200, 400, 401
    or 500.  It is 401 exactly when the key does not match.  With 400 or 401
    the cache, the repository and the log are as they were.  A 500 carries
    the error of the repository call behind the route's own prefix: no
    failure of the cache produces one.  A 200 carries what the service
    returned for the bound parameters. *)
Theorem every_request_gets_one_answer :
  forall (C R : Type) (cacheImpl : Cache C) (repoImpl : TransactionRepositoryInterface R)
         (PF : string -> float * option error)
         (ShouldBindQuery : Request -> TimeframeParams * option error)
         (validate_Struct : TimeframeParams -> option error)
         (cfg : Config) (c c' : Context) (w w' : @World C R),
    (AuthMiddleware cfg
       (GetGrossGamingRevenue (serviceImpl := TransactionService_Interface PF)
          ShouldBindQuery validate_Struct) c w = (Ret c', w') ->
     exists code body,
       (written c' = written c ++ [(code, body)] /\ request c' = request c)
       /\ (code = 200 \/ code = 400 \/ code = 401 \/ code = 500)
       /\ (code = 401 <-> GetHeader c "Authorization" <> APIKey (Auth cfg))
       /\ (code = 400 \/ code = 401 -> w' = w)
       /\ (code = 500 ->
           exists p e, ShouldBindQuery (request c) = (p, None)
             /\ error_of (repo_CalculateGGR (From p) (To p) (repo w)).1 = Some e
             /\ body = error_body ("Failed to calculate GGR: " +:+ e))
       /\ (code = 200 ->
           exists p x, ShouldBindQuery (request c) = (p, None) /\ validate_Struct p = None
             /\ (TransactionService_CalculateGGR (From p) (To p) w).1 = Ret (x, None)
             /\ body = rows_body p x))
    /\ (AuthMiddleware cfg
       (GetDailyWagerVolume (serviceImpl := TransactionService_Interface PF)
          ShouldBindQuery validate_Struct) c w = (Ret c', w') ->
     exists code body,
       (written c' = written c ++ [(code, body)] /\ request c' = request c)
       /\ (code = 200 \/ code = 400 \/ code = 401 \/ code = 500)
       /\ (code = 401 <-> GetHeader c "Authorization" <> APIKey (Auth cfg))
       /\ (code = 400 \/ code = 401 -> w' = w)
       /\ (code = 500 ->
           exists p e, ShouldBindQuery (request c) = (p, None)
             /\ error_of (repo_CalculateDailyWagerVolume (From p) (To p) (repo w)).1 = Some e
             /\ body = error_body ("Failed to calculate daily wager volume: " +:+ e))
       /\ (code = 200 ->
           exists p x, ShouldBindQuery (request c) = (p, None) /\ validate_Struct p = None
             /\ (TransactionService_CalculateDailyWagerVolume (From p) (To p) w).1
                = Ret (x, None)
             /\ body = rows_body p x))
    /\ (AuthMiddleware cfg
       (GetUserWagerPercentile (serviceImpl := TransactionService_Interface PF)
          ShouldBindQuery validate_Struct) c w = (Ret c', w') ->
     exists code body,
       (written c' = written c ++ [(code, body)] /\ request c' = request c)
       /\ (code = 200 \/ code = 400 \/ code = 401 \/ code = 500)
       /\ (code = 401 <-> GetHeader c "Authorization" <> APIKey (Auth cfg))
       /\ (code = 400 \/ code = 401 -> w' = w)
       /\ (code = 500 ->
           exists p e, ShouldBindQuery (request c) = (p, None)
             /\ error_of (repo_CalculateUserWagerPercentile (Param c "user_id")
                            (From p) (To p) (repo w)).1 = Some e
             /\ body = error_body ("Failed to calculate user wager percentile: " +:+ e))
       /\ (code = 200 ->
           exists p x, ShouldBindQuery (request c) = (p, None) /\ validate_Struct p = None
             /\ Param c "user_id" <> EmptyString
             /\ (TransactionService_CalculateUserWagerPercentile PF (Param c "user_id")
                   (From p) (To p) w).1 = Ret (x, None)
             /\ body = percentile_body (Param c "user_id") p x)).
Proof.
  intros C R cacheImpl repoImpl PF ShouldBindQuery validate_Struct cfg c c' w w'.
  split; [|split].
  - apply GGR_route.
  - apply DailyWager_route.
  - apply Percentile_route.
Qed.

Lemma every_request_gets_one_answer_witness :
  let c := request_with ["test-api-key"] ∅ EmptyString in
  let c' := JSON StatusInternalServerError
              (error_body "Failed to calculate GGR: database error") c in
  exists code body, written c' = written c ++ [(code, body)] /\ request c' = request c.
Proof.
  intros c c'.
  destruct (every_request_gets_one_answer MemoryCache MockTransactionRepository _ _
              ParseFloat_decimal bind_january bounds_in_order test_config c c' failing_world
              (TransactionService_CalculateGGR jan01 jan31 failing_world).2) as [HG _].
  assert (Hrun : AuthMiddleware test_config
                   (GetGrossGamingRevenue
                      (serviceImpl := TransactionService_Interface ParseFloat_decimal)
                      bind_january bounds_in_order) c failing_world
                 = (Ret c', (TransactionService_CalculateGGR jan01 jan31 failing_world).2))
    by (vm_compute; reflexivity).
  destruct (HG Hrun) as (code & body & Hw & _).
  exists code, body. exact Hw.
Defined.

Example unauthorized_request :
  AuthMiddleware test_config
    (GetGrossGamingRevenue (serviceImpl := TransactionService_Interface ParseFloat_decimal)
       bind_january bounds_in_order) bare_request one_row_world
  = (Ret (turned_away bare_request), one_row_world).
Proof. vm_compute. reflexivity. Qed.

Example authorized_request :
  (AuthMiddleware test_config
     (GetGrossGamingRevenue (serviceImpl := TransactionService_Interface ParseFloat_decimal)
        bind_january bounds_in_order)
     (request_with ["test-api-key"] ∅ EmptyString) one_row_world).1
  = Ret (JSON StatusOK (rows_body (mkParams jan01 jan31) (Some [btc_row]))
           (request_with ["test-api-key"] ∅ EmptyString)).
Proof. vm_compute. reflexivity. Qed.

(** ** The ledger behind the service *)

Section Ledger.
Context {C Collection Cursor : Type} {cacheImpl : Cache C}.
Variable AggregateRows : Collection -> RowsPipeline -> Cursor * option error.
Variable Aggregate : Collection -> Pipeline -> Cursor * option error.
Variable All : Cursor -> slice bsonM * option error.
Variable PF : string -> float * option error.

Let ledger := TransactionRepository_Interface AggregateRows Aggregate All.

Implicit Types (w : @World C (@TransactionRepository Collection)).

Lemma GGR_over_ledger w from to v c1 :
  Cache_Get (now w) (GGRKey from to) (cache w) = (v, false, c1) ->
  TransactionService_CalculateGGR (repoImpl := ledger) from to w
  = match AggregateRows (collection (repo w)) (ggrPipeline from to) with
    | (_, Some e) => (Ret (None, Some e), mkWorld (now w) c1 (repo w) (logged w))
    | (cursor, None) =>
        match All cursor with
        | (_, Some e) => (Ret (None, Some e), mkWorld (now w) c1 (repo w) (logged w))
        | (results, None) =>
            (Ret (Some (elems results), None),
             mkWorld (now w)
               (Cache_Set (now w) (GGRKey from to) (ASliceMap (Some (elems results)))
                  (5 * Minute) c1) (repo w) (logged w))
        end
    end.
Proof.
  intros HGet.
  rewrite (GGR_miss (repoImpl := ledger) w from to v false c1 HGet (or_introl eq_refl)).
  cbn. unfold TransactionRepository_CalculateGGR.
  destruct (AggregateRows (collection (repo w)) (ggrPipeline from to)) as [cursor [e|]];
    [reflexivity|].
  destruct (All cursor) as [results [e|]]; reflexivity.
Qed.

Lemma DailyWager_over_ledger w from to v c1 :
  Cache_Get (now w) (DailyWagerKey from to) (cache w) = (v, false, c1) ->
  TransactionService_CalculateDailyWagerVolume (repoImpl := ledger) from to w
  = match AggregateRows (collection (repo w)) (dailyWagerPipeline from to) with
    | (_, Some e) => (Ret (None, Some e), mkWorld (now w) c1 (repo w) (logged w))
    | (cursor, None) =>
        match All cursor with
        | (_, Some e) => (Ret (None, Some e), mkWorld (now w) c1 (repo w) (logged w))
        | (results, None) =>
            (Ret (Some (elems results), None),
             mkWorld (now w)
               (Cache_Set (now w) (DailyWagerKey from to) (ASliceMap (Some (elems results)))
                  (5 * Minute) c1) (repo w) (logged w))
        end
    end.
Proof.
  intros HGet.
  rewrite (DailyWager_miss (repoImpl := ledger) w from to v false c1 HGet
             (or_introl eq_refl)).
  cbn. unfold TransactionRepository_CalculateDailyWagerVolume.
  destruct (AggregateRows (collection (repo w)) (dailyWagerPipeline from to))
    as [cursor [e|]]; [reflexivity|].
  destruct (All cursor) as [results [e|]]; reflexivity.
Qed.

Lemma Percentile_over_ledger w userID from to v c1 :
  Cache_Get (now w) (PercentileKey userID from to) (cache w) = (v, false, c1) ->
  TransactionService_CalculateUserWagerPercentile (repoImpl := ledger) PF userID from to w
  = match TransactionRepository_CalculateUserWagerPercentile Aggregate All userID from to
            (repo w) with
    | Panic msg => (Panic msg, mkWorld (now w) c1 (repo w) (logged w))
    | Ret (_, Some e) => (Ret (0%float, Some e), mkWorld (now w) c1 (repo w) (logged w))
    | Ret (percentile, None) =>
        (Ret (percentile, None),
         mkWorld (now w)
           (Cache_Set (now w) (PercentileKey userID from to) (AFloat64 percentile)
              (5 * Minute) c1) (repo w) (logged w))
    end.
Proof.
  intros HGet.
  rewrite (Percentile_miss (repoImpl := ledger) PF w userID from to v false c1 HGet
             (or_introl eq_refl)).
  cbn.
  destruct (TransactionRepository_CalculateUserWagerPercentile Aggregate All userID from to
              (repo w)) as [[percentile [e|]]|msg]; reflexivity.
Qed.
End Ledger.

(** X13.  With the ledger-backed repository behind the service and a lookup
    that finds nothing: an error of the driver, from either aggregation or
    from decoding either cursor, is the error the operation returns, with a
    nil or zero result, and nothing is stored; rows that decode and a
    percentile that is computed are returned and stored; a panic of the
    percentile method passes through the service with nothing stored.  The
    repository itself is never changed. *)
Theorem ledger_failure_reaches_the_caller :
  forall (C Collection Cursor : Type) (cacheImpl : Cache C)
         (AggregateRows : Collection -> RowsPipeline -> Cursor * option error)
         (Aggregate : Collection -> Pipeline -> Cursor * option error)
         (All : Cursor -> slice bsonM * option error)
         (PF : string -> float * option error)
         (w : @World C (@TransactionRepository Collection))
         (userID : string) (from to : Time) (v : Any) (c1 : C),
    let ledger := TransactionRepository_Interface AggregateRows Aggregate All in
    let unstored := mkWorld (now w) c1 (repo w) (logged w) in
    (Cache_Get (now w) (GGRKey from to) (cache w) = (v, false, c1) ->
     (forall cursor e,
         AggregateRows (collection (repo w)) (ggrPipeline from to) = (cursor, Some e) ->
         TransactionService_CalculateGGR (repoImpl := ledger) from to w
         = (Ret (None, Some e), unstored))
     /\ (forall cursor results e,
         AggregateRows (collection (repo w)) (ggrPipeline from to) = (cursor, None) ->
         All cursor = (results, Some e) ->
         TransactionService_CalculateGGR (repoImpl := ledger) from to w
         = (Ret (None, Some e), unstored))
     /\ (forall cursor results,
         AggregateRows (collection (repo w)) (ggrPipeline from to) = (cursor, None) ->
         All cursor = (results, None) ->
         TransactionService_CalculateGGR (repoImpl := ledger) from to w
         = (Ret (Some (elems results), None),
            mkWorld (now w)
              (Cache_Set (now w) (GGRKey from to) (ASliceMap (Some (elems results)))
                 (5 * Minute) c1) (repo w) (logged w))))
    /\ (Cache_Get (now w) (DailyWagerKey from to) (cache w) = (v, false, c1) ->
     (forall cursor e,
         AggregateRows (collection (repo w)) (dailyWagerPipeline from to) = (cursor, Some e) ->
         TransactionService_CalculateDailyWagerVolume (repoImpl := ledger) from to w
         = (Ret (None, Some e), unstored))
     /\ (forall cursor results e,
         AggregateRows (collection (repo w)) (dailyWagerPipeline from to) = (cursor, None) ->
         All cursor = (results, Some e) ->
         TransactionService_CalculateDailyWagerVolume (repoImpl := ledger) from to w
         = (Ret (None, Some e), unstored))
     /\ (forall cursor results,
         AggregateRows (collection (repo w)) (dailyWagerPipeline from to) = (cursor, None) ->
         All cursor = (results, None) ->
         TransactionService_CalculateDailyWagerVolume (repoImpl := ledger) from to w
         = (Ret (Some (elems results), None),
            mkWorld (now w)
              (Cache_Set (now w) (DailyWagerKey from to) (ASliceMap (Some (elems results)))
                 (5 * Minute) c1) (repo w) (logged w))))
    /\ (Cache_Get (now w) (PercentileKey userID from to) (cache w) = (v, false, c1) ->
     (forall cursor e,
         Aggregate (collection (repo w)) (userWagerPipeline userID from to) = (cursor, Some e) ->
         TransactionService_CalculateUserWagerPercentile (repoImpl := ledger) PF userID from to w
         = (Ret (0%float, Some e), unstored))
     /\ (forall cursor userResults e,
         Aggregate (collection (repo w)) (userWagerPipeline userID from to) = (cursor, None) ->
         All cursor = (userResults, Some e) ->
         TransactionService_CalculateUserWagerPercentile (repoImpl := ledger) PF userID from to w
         = (Ret (0%float, Some e), unstored))
     /\ (forall cursor userResults allUsersCursor e,
         Aggregate (collection (repo w)) (userWagerPipeline userID from to) = (cursor, None) ->
         All cursor = (userResults, None) ->
         len userResults <> 0 ->
         Aggregate (collection (repo w)) (allUsersPipeline from to) = (allUsersCursor, Some e) ->
         TransactionService_CalculateUserWagerPercentile (repoImpl := ledger) PF userID from to w
         = (Ret (0%float, Some e), unstored))
     /\ (forall cursor userResults allUsersCursor allUsersResults e,
         Aggregate (collection (repo w)) (userWagerPipeline userID from to) = (cursor, None) ->
         All cursor = (userResults, None) ->
         len userResults <> 0 ->
         Aggregate (collection (repo w)) (allUsersPipeline from to) = (allUsersCursor, None) ->
         All allUsersCursor = (allUsersResults, Some e) ->
         TransactionService_CalculateUserWagerPercentile (repoImpl := ledger) PF userID from to w
         = (Ret (0%float, Some e), unstored))
     /\ (forall percentile,
         TransactionRepository_CalculateUserWagerPercentile Aggregate All userID from to (repo w)
         = Ret (percentile, None) ->
         TransactionService_CalculateUserWagerPercentile (repoImpl := ledger) PF userID from to w
         = (Ret (percentile, None),
            mkWorld (now w)
              (Cache_Set (now w) (PercentileKey userID from to) (AFloat64 percentile)
                 (5 * Minute) c1) (repo w) (logged w)))
     /\ (forall msg,
         TransactionRepository_CalculateUserWagerPercentile Aggregate All userID from to (repo w)
         = Panic msg ->
         TransactionService_CalculateUserWagerPercentile (repoImpl := ledger) PF userID from to w
         = (Panic msg, unstored))).
Proof.
  intros C Collection Cursor cacheImpl AggregateRows Aggregate All PF w userID from to v c1
    ledger unstored.
  subst ledger unstored.
  split; [|split]; intros HGet.
  - rewrite (GGR_over_ledger AggregateRows Aggregate All w from to v c1 HGet).
    split; [|split].
    + intros cursor e ->. reflexivity.
    + intros cursor results e -> ->. reflexivity.
    + intros cursor results -> ->. reflexivity.
  - rewrite (DailyWager_over_ledger AggregateRows Aggregate All w from to v c1 HGet).
    split; [|split].
    + intros cursor e ->. reflexivity.
    + intros cursor results e -> ->. reflexivity.
    + intros cursor results -> ->. reflexivity.
  - rewrite (Percentile_over_ledger AggregateRows Aggregate All PF w userID from to v c1 HGet).
    split; [|split; [|split; [|split; [|split]]]].
    + intros cursor e Ha.
      unfold TransactionRepository_CalculateUserWagerPercentile. rewrite Ha. reflexivity.
    + intros cursor userResults e Ha Hall.
      unfold TransactionRepository_CalculateUserWagerPercentile. rewrite Ha, Hall.
      reflexivity.
    + intros cursor userResults allUsersCursor e Ha Hall Hlen Ha'.
      unfold TransactionRepository_CalculateUserWagerPercentile. rewrite Ha, Hall.
      apply Z.eqb_neq in Hlen. rewrite Hlen, Ha'. reflexivity.
    + intros cursor userResults allUsersCursor allUsersResults e Ha Hall Hlen Ha' Hall'.
      unfold TransactionRepository_CalculateUserWagerPercentile. rewrite Ha, Hall.
      apply Z.eqb_neq in Hlen. rewrite Hlen, Ha', Hall'. reflexivity.
    + intros percentile ->. reflexivity.
    + intros msg ->. reflexivity.
Qed.

Lemma ledger_failure_reaches_the_caller_witness :
  let w : @World MemoryCache (@TransactionRepository unit) :=
    mkWorld jan01 NewMemoryCache (mkRepo tt) [] in
  TransactionService_CalculateGGR
    (repoImpl := TransactionRepository_Interface broken_AggregateRows broken_Aggregate no_rows)
    jan01 jan31 w
  = (Ret (None, Some "server selection timeout"),
     mkWorld (now w) NewMemoryCache (repo w) (logged w)).
Proof.
  intros w.
  destruct (ledger_failure_reaches_the_caller MemoryCache unit unit _
              broken_AggregateRows broken_Aggregate no_rows ParseFloat_decimal
              w test_user jan01 jan31 ANil NewMemoryCache) as [HG _].
  assert (HGet : Cache_Get (now w) (GGRKey jan01 jan31) (cache w) = (ANil, false, NewMemoryCache))
    by (vm_compute; reflexivity).
  destruct (HG HGet) as [Herr _].
  apply (Herr tt "server selection timeout"). reflexivity.
Defined.


(** ** Rows through the Redis cache *)

Lemma coerce_generic (rows : list GoMap) : map coerce (map AMap rows) = rows.
Proof. induction rows as [|row rows IH]; simpl; [reflexivity|rewrite IH; reflexivity]. Qed.

(** X14.  Through the Redis cache a list result survives the change of shape
    that the encoding brings.  When a call finds nothing, fetches rows from
    the repository and stores them, the client gives back what it was given,
    and the decoder returns the stored array as a generic sequence of generic
    maps, then the next call returns the decoded rows without asking the
    repository and without a line in the log. *)
Theorem rows_survive_the_encoding :
  forall (Client R : Type) (repoImpl : TransactionRepositoryInterface R)
         (client_Get : Time -> string -> Client -> string * option error * Client)
         (client_Set : Time -> string -> string -> Duration -> Client -> Client)
         (client_Del : Time -> string -> Client -> Client)
         (json_Marshal : Any -> string * option error)
         (json_Unmarshal : string -> Any * option error)
         (w : @World RedisCache R) (from to t : Time) (val data : string) (e : error)
         (cl cl2 : Client) (results : slice bsonM) (decoded : list GoMap) (r' r2 : R),
    let redis :=
      RedisCache_Cache client_Get client_Set client_Del json_Marshal json_Unmarshal in
    client_Get (now w) (GGRKey from to) (client (cache w)) = (val, Some e, cl) ->
    repo_CalculateGGR from to (repo w) = (Ret (results, None), r') ->
    json_Marshal (ASliceMap (Some (elems results))) = (data, None) ->
    client_Get t (GGRKey from to) (client_Set (now w) (GGRKey from to) data (5 * Minute) cl)
    = (data, None, cl2) ->
    json_Unmarshal data = (ASliceAny (Some (map AMap decoded)), None) ->
    let w1 := (TransactionService_CalculateGGR (cacheImpl := redis) from to w).2 in
    (TransactionService_CalculateGGR (cacheImpl := redis) from to w).1
    = Ret (Some (elems results), None)
    /\ TransactionService_CalculateGGR (cacheImpl := redis) from to
         (mkWorld t (cache w1) r2 (logged w1))
       = (Ret (Some decoded, None), mkWorld t (mkRedisCache cl2) r2 (logged w)).
Proof.
  intros Client R repoImpl client_Get client_Set client_Del json_Marshal json_Unmarshal
    w from to t val data e cl cl2 results decoded r' r2 redis HGet Hrepo HM HGet2 HU.
  subst redis.
  set (redis := RedisCache_Cache client_Get client_Set client_Del json_Marshal json_Unmarshal).
  assert (Hmiss : Cache_Get (now w) (GGRKey from to) (cache w)
                  = (ANil, false, mkRedisCache cl)).
  { cbn. unfold RedisCache_Get. rewrite HGet. reflexivity. }
  cbn zeta.
  rewrite (GGR_miss (cacheImpl := redis) w from to ANil false (mkRedisCache cl) Hmiss
             (or_introl eq_refl)).
  cbn. rewrite Hrepo. cbn. split; [reflexivity|].
  unfold RedisCache_Set. rewrite HM. cbn.
  rewrite (GGR_hit (cacheImpl := redis) _ from to
             (ASliceAny (Some (map AMap decoded))) (mkRedisCache cl2) (Some decoded)).
  - reflexivity.
  - cbn. unfold RedisCache_Get. cbn. rewrite HGet2, HU. reflexivity.
  - cbn. rewrite coerce_generic. reflexivity.
Qed.

Lemma rows_survive_the_encoding_witness :
  let redis := RedisCache_Cache kept_Get kept_Set kept_Del rows_Marshal rows_Unmarshal in
  let w : @World RedisCache MockTransactionRepository :=
    mkWorld jan01 (mkRedisCache ∅) one_row_repo [] in
  let w1 := (TransactionService_CalculateGGR (cacheImpl := redis) jan01 jan31 w).2 in
  (TransactionService_CalculateGGR (cacheImpl := redis) jan01 jan31 w).1
  = Ret (Some (elems (Some [btc_row])), None)
  /\ TransactionService_CalculateGGR (cacheImpl := redis) jan01 jan31
       (mkWorld (Add jan01 Minute) (cache w1) failing_repo (logged w1))
     = (Ret (Some [btc_row], None),
        mkWorld (Add jan01 Minute)
          (mkRedisCache (kept_Set jan01 (GGRKey jan01 jan31) "[{...}]" (5 * Minute) ∅))
          failing_repo (logged w)).
Proof.
  intros redis w.
  apply (rows_survive_the_encoding (gmap string string) MockTransactionRepository _
           kept_Get kept_Set kept_Del rows_Marshal rows_Unmarshal w jan01 jan31
           (Add jan01 Minute) EmptyString "[{...}]" "redis: nil" ∅
           (kept_Set jan01 (GGRKey jan01 jan31) "[{...}]" (5 * Minute) ∅)
           (Some [btc_row]) [btc_row]
           (MockTransactionRepository_CalculateGGR jan01 jan31 one_row_repo).2 failing_repo).
  - vm_compute. reflexivity.
  - reflexivity.
  - reflexivity.
  - vm_compute. reflexivity.
  - reflexivity.
Defined.

(** ** Seeding in batches *)

Section Seeding.
Context {T : Type}.
Variable InsertMany : list (list T) -> list T -> option error.

Lemma generated_cons (wager payout : T) (rounds : list (T * T)) :
  generated ((wager, payout) :: rounds) = wager :: payout :: generated rounds.
Proof. reflexivity. Qed.

Lemma seed_rounds_batches (rounds : list (T * T)) :
  forall (transactions : slice T) (collection : list (list T))
         (left : slice T) (collection' : list (list T)) (k : nat),
    length (elems transactions) = (2 * k)%nat ->
    (length (elems transactions) < 1000)%nat ->
    seed_rounds InsertMany rounds transactions collection = inr (left, collection') ->
    exists batches,
      collection' = collection ++ batches
      /\ concat batches ++ elems left = elems transactions ++ generated rounds
      /\ Forall (fun batch => length batch = 1000%nat) batches
      /\ (length (elems left) < 1000)%nat.
Proof.
  induction rounds as [|[wager payout] rounds IH];
    intros transactions collection left collection' k Hk Hlt Hrun.
  - simpl in Hrun. inversion Hrun; subst. exists [].
    rewrite !app_nil_r. simpl. repeat split; [constructor|exact Hlt].
  - simpl seed_rounds in Hrun. unfold len, batchSize in Hrun.
    change (elems (Some ((elems transactions ++ [wager]) ++ [payout])))
      with ((elems transactions ++ [wager]) ++ [payout]) in Hrun.
    assert (Hlen : length ((elems transactions ++ [wager]) ++ [payout]) = (2 * (k + 1))%nat).
    { rewrite !length_app. simpl. lia. }
    destruct (1000 <=? Z.of_nat (length ((elems transactions ++ [wager]) ++ [payout])))
      eqn:Hfull.
    + apply Z.leb_le in Hfull.
      assert (Hexact : length ((elems transactions ++ [wager]) ++ [payout]) = 1000%nat) by lia.
      unfold insertBatch in Hrun.
      destruct (InsertMany collection ((elems transactions ++ [wager]) ++ [payout]));
        [discriminate|].
      destruct (IH None (collection ++ [(elems transactions ++ [wager]) ++ [payout]])
                  left collection' 0%nat eq_refl) as (batches & Hc & Hcat & Hall & Hleft);
        [simpl; lia|exact Hrun|].
      exists (((elems transactions ++ [wager]) ++ [payout]) :: batches).
      split; [rewrite Hc, <- app_assoc; reflexivity|].
      split; [|split; [constructor; assumption|exact Hleft]].
      simpl concat. rewrite <- app_assoc, Hcat.
      rewrite generated_cons, <- !app_assoc. reflexivity.
    + apply Z.leb_gt in Hfull.
      destruct (IH (Some ((elems transactions ++ [wager]) ++ [payout])) collection
                  left collection' (k + 1)%nat Hlen) as (batches & Hc & Hcat & Hall & Hleft);
        [simpl; lia|exact Hrun|].
      exists batches. split; [exact Hc|]. split; [|split; assumption].
      rewrite Hcat. change (elems (Some ((elems transactions ++ [wager]) ++ [payout])))
        with ((elems transactions ++ [wager]) ++ [payout]).
      rewrite generated_cons, <- !app_assoc. reflexivity.
Qed.
End Seeding.

Lemma generated_length {T : Type} (rounds : list (T * T)) :
  length (generated rounds) = (2 * length rounds)%nat.
Proof.
  induction rounds as [|[wager payout] rounds IH]; [reflexivity|].
  rewrite generated_cons. simpl length. rewrite IH. lia.
Qed.

Lemma full_batches_length {T : Type} (batches : list (list T)) :
  Forall (fun batch => length batch = 1000%nat) batches ->
  length (concat batches) = (1000 * length batches)%nat.
Proof.
  induction 1 as [|batch batches Hb Hall IH]; [reflexivity|].
  simpl concat. rewrite length_app, IH, Hb. simpl length. lia.
Qed.

(** X15.  When seeding ends without a fatal error, the collection has been
    given, after what it held, the transactions of all rounds, each once and
    in the order they were generated, wager before payout; every batch holds
    exactly 1000 of them, except that the last may hold fewer, and no batch
    is empty.  The two million rounds of the program make 4000 full
    batches, with nothing left for a last one. *)
Theorem seed_inserts_every_transaction_once :
  forall (T : Type) (InsertMany : list (list T) -> list T -> option error)
         (rounds : list (T * T)) (collection collection' : list (list T)),
    seed InsertMany rounds collection = inr collection' ->
    exists (batches : list (list T)) (final : list (list T)),
      collection' = collection ++ batches ++ final
      /\ concat (batches ++ final) = generated rounds
      /\ Forall (fun batch => length batch = 1000%nat) batches
      /\ (final = []
          \/ exists batch, final = [batch] /\ (0 < length batch < 1000)%nat)
      /\ (Z.of_nat (length rounds) = numRounds ->
          final = [] /\ length batches = 4000%nat).
Proof.
  intros T InsertMany rounds collection collection' Hrun.
  assert (Hcount : forall batches final : list (list T),
            concat (batches ++ final) = generated rounds ->
            Forall (fun batch => length batch = 1000%nat) batches ->
            (final = [] \/ exists batch, final = [batch] /\ (0 < length batch < 1000)%nat) ->
            Z.of_nat (length rounds) = numRounds ->
            final = [] /\ length batches = 4000%nat).
  { intros batches final Hcat Hall Hfinal Hn. unfold numRounds in Hn.
    apply (f_equal (@length T)) in Hcat.
    rewrite concat_app, length_app, generated_length, (full_batches_length batches Hall)
      in Hcat.
    destruct Hfinal as [->|(batch & -> & Hb)].
    - split; [reflexivity|]. simpl in Hcat. lia.
    - simpl in Hcat. rewrite app_nil_r in Hcat. lia. }
  unfold seed in Hrun.
  destruct (seed_rounds InsertMany rounds None collection) as [msg|[left c1]] eqn:Hloop;
    [discriminate|].
  destruct (seed_rounds_batches InsertMany rounds None collection left c1 0%nat eq_refl)
    as (batches & Hc & Hcat & Hall & Hleft); [simpl; lia|exact Hloop|].
  simpl in Hcat. unfold len in Hrun.
  destruct (0 <? Z.of_nat (length (elems left))) eqn:Hrest.
  - apply Z.ltb_lt in Hrest. unfold insertBatch in Hrun.
    destruct (InsertMany c1 (elems left)); [discriminate|].
    inversion Hrun; subst.
    exists batches, [elems left]. split; [rewrite <- app_assoc; reflexivity|].
    assert (Hcat' : concat (batches ++ [elems left]) = generated rounds).
    { rewrite concat_app. simpl. rewrite app_nil_r. exact Hcat. }
    assert (Hfinal : [elems left] = []
                     \/ exists batch, [elems left] = [batch]
                          /\ (0 < length batch < 1000)%nat).
    { right. exists (elems left). split; [reflexivity|lia]. }
    split; [exact Hcat'|]. split; [exact Hall|]. split; [exact Hfinal|].
    apply Hcount; assumption.
  - apply Z.ltb_ge in Hrest. inversion Hrun; subst.
    assert (Hnil : elems left = []) by (destruct (elems left); [reflexivity|simpl in Hrest; lia]).
    exists batches, []. rewrite app_nil_r. split; [reflexivity|].
    rewrite Hnil, app_nil_r in Hcat.
    split; [exact Hcat|]. split; [exact Hall|]. split; [left; reflexivity|].
    intros Hn. apply Hcount; [rewrite app_nil_r; exact Hcat|exact Hall| |exact Hn].
    left. reflexivity.
Qed.

Lemma seed_inserts_every_transaction_once_witness :
  let rounds := [(1%nat, 2%nat); (3%nat, 4%nat)] in
  exists (batches final : list (list nat)),
    [[1%nat; 2%nat; 3%nat; 4%nat]] = [] ++ batches ++ final
    /\ concat (batches ++ final) = generated rounds
    /\ Forall (fun batch => length batch = 1000%nat) batches
    /\ (final = [] \/ exists batch, final = [batch] /\ (0 < length batch < 1000)%nat)
    /\ (Z.of_nat (length rounds) = numRounds -> final = [] /\ length batches = 4000%nat).
Proof.
  intros rounds.
  apply (seed_inserts_every_transaction_once nat always_inserts rounds []
           [[1%nat; 2%nat; 3%nat; 4%nat]]).
  reflexivity.
Defined.

(** ** The range of the percentile, path by path *)

Section PercentileRange.
Context {Collection Cursor : Type}.
Variable Aggregate : Collection -> Pipeline -> Cursor * option error.
Variable All : Cursor -> slice bsonM * option error.

Lemma ranked_bounds (userID : string) (rows : slice bsonM) (rank : nat) :
  ranked userID (elems rows) rank -> 1 <= Z.of_nat rank <= len rows.
Proof.
  intros [[row [Hrow _]] [Hone _]].
  apply lookup_lt_Some in Hrow. unfold len.
  assert (H : (rank - 1 < length (elems rows))%nat) by exact Hrow.
  clear Hrow. lia.
Qed.

Lemma Percentile_range (r : TransactionRepository) (userID : string) (from to : Time)
    (userCursor allUsersCursor : Cursor) (userResults allUsersResults : slice bsonM)
    (rank : nat) :
  Aggregate (collection r) (userWagerPipeline userID from to) = (userCursor, None) ->
  All userCursor = (userResults, None) ->
  Aggregate (collection r) (allUsersPipeline from to) = (allUsersCursor, None) ->
  All allUsersCursor = (allUsersResults, None) ->
  (len userResults <> 0 -> ranked userID (elems allUsersResults) rank) ->
  len allUsersResults < 2 ^ 63 ->
  exists p,
    TransactionRepository_CalculateUserWagerPercentile Aggregate All userID from to r
    = Ret (p, None)
    /\ in_range p = true
    /\ (len userResults = 0 -> p = 0%float)
    /\ (len allUsersResults <= 2 ^ 53 -> (p = 0%float <-> len userResults = 0)).
Proof.
  intros HA HAll HA' HAll' Hrank Hint.
  destruct (Z.eq_dec (len userResults) 0) as [Hz|Hnz].
  - exists 0%float.
    split; [apply Percentile_no_activity with (userCursor := userCursor)
                                              (userResults := userResults); assumption|].
    split; [reflexivity|]. split; [reflexivity|]. intros _. split; auto.
  - specialize (Hrank Hnz).
    pose proof (ranked_bounds userID allUsersResults rank Hrank) as Hr.
    exists (percentile_of (Z.of_nat rank) (len allUsersResults)).
    split; [apply Percentile_ranked with (userCursor := userCursor)
              (allUsersCursor := allUsersCursor) (userResults := userResults); assumption|].
    split; [apply percentile_of_in_range; assumption|].
    split; [intros H0; contradiction|].
    intros H53. split; [|intros H0; contradiction].
    intros Hp. exfalso.
    pose proof (percentile_of_positive (Z.of_nat rank) (len allUsersResults) Hr H53) as Hpos.
    rewrite Hp in Hpos. discriminate Hpos.
Qed.
End PercentileRange.

(** C8 (amended).  The percentile operation checks no range: an errorless
    return is the number reconstructed from the found cached value, or the
    number the repository returned, as it is.  What the ledger-backed
    repository returns when both of its queries succeed and the ranking
    holds every user that has wagers is between 0 and 100: 0 for a user
    without wagers in the range, and [100 - (r-1)/N * 100] for the user at
    rank [r] of [N], the count [N] being an [int].  With at most [2 ^ 53]
    ranked users, it is 0 exactly when the user has no wagers in the range.
    The same holds of the operation over that repository when the lookup
    does not serve the result. *)
Theorem percentile_range_by_path :
  (forall (C R : Type) (cacheImpl : Cache C) (repoImpl : TransactionRepositoryInterface R)
          (PF : string -> float * option error) (w : @World C R)
          (userID : string) (from to : Time) (v : float) (w' : @World C R),
      TransactionService_CalculateUserWagerPercentile PF userID from to w
      = (Ret (v, None), w') ->
      (exists cv c1,
          Cache_Get (now w) (PercentileKey userID from to) (cache w) = (cv, true, c1)
          /\ percentile_hit PF cv = Some v)
      \/ (exists r',
          repo_CalculateUserWagerPercentile userID from to (repo w)
          = (Ret (v, None), r')))
  /\ (forall (Collection Cursor : Type)
          (Aggregate : Collection -> Pipeline -> Cursor * option error)
          (All : Cursor -> slice bsonM * option error)
          (r : TransactionRepository) (userID : string) (from to : Time)
          (userCursor allUsersCursor : Cursor) (userResults allUsersResults : slice bsonM)
          (rank : nat),
      Aggregate (collection r) (userWagerPipeline userID from to) = (userCursor, None) ->
      All userCursor = (userResults, None) ->
      Aggregate (collection r) (allUsersPipeline from to) = (allUsersCursor, None) ->
      All allUsersCursor = (allUsersResults, None) ->
      (len userResults <> 0 -> ranked userID (elems allUsersResults) rank) ->
      len allUsersResults < 2 ^ 63 ->
      exists p,
        TransactionRepository_CalculateUserWagerPercentile Aggregate All userID from to r
        = Ret (p, None)
        /\ in_range p = true
        /\ (len userResults = 0 -> p = 0%float)
        /\ (len userResults <> 0 ->
            p = (100 - (float64_of_int (Z.of_nat rank - 1)
                        / float64_of_int (len allUsersResults) * 100))%float)
        /\ (len allUsersResults <= 2 ^ 53 -> (p = 0%float <-> len userResults = 0)))
  /\ (forall (C Collection Cursor : Type) (cacheImpl : Cache C)
          (AggregateRows : Collection -> RowsPipeline -> Cursor * option error)
          (Aggregate : Collection -> Pipeline -> Cursor * option error)
          (All : Cursor -> slice bsonM * option error)
          (PF : string -> float * option error)
          (w : @World C (@TransactionRepository Collection))
          (userID : string) (from to : Time) (v : Any) (found : bool) (c1 : C)
          (userCursor allUsersCursor : Cursor) (userResults allUsersResults : slice bsonM)
          (rank : nat),
      Cache_Get (now w) (PercentileKey userID from to) (cache w) = (v, found, c1) ->
      found = false \/ percentile_hit PF v = None ->
      Aggregate (collection (repo w)) (userWagerPipeline userID from to)
      = (userCursor, None) ->
      All userCursor = (userResults, None) ->
      Aggregate (collection (repo w)) (allUsersPipeline from to) = (allUsersCursor, None) ->
      All allUsersCursor = (allUsersResults, None) ->
      (len userResults <> 0 -> ranked userID (elems allUsersResults) rank) ->
      len allUsersResults < 2 ^ 63 ->
      exists p w',
        TransactionService_CalculateUserWagerPercentile
          (repoImpl := TransactionRepository_Interface AggregateRows Aggregate All)
          PF userID from to w
        = (Ret (p, None), w')
        /\ in_range p = true
        /\ (len allUsersResults <= 2 ^ 53 -> (p = 0%float <-> len userResults = 0))).
Proof.
  split; [|split].
  - intros C R cacheImpl repoImpl PF w userID from to v w' Hop.
    destruct (Cache_Get (now w) (PercentileKey userID from to) (cache w))
      as [[cv found] c1] eqn:HGet.
    destruct (percentile_hit_cases PF cv found) as [[-> [y Hy]]|Hmiss].
    + rewrite (Percentile_hit PF w userID from to cv c1 y HGet Hy) in Hop.
      inversion Hop; subst. left. exists cv, c1. split; [reflexivity|exact Hy].
    + rewrite (Percentile_miss PF w userID from to cv found c1 HGet Hmiss) in Hop.
      cbn in Hop.
      destruct (repo_CalculateUserWagerPercentile userID from to (repo w))
        as [[[p [e|]]|msg] r']; inversion Hop; subst.
      right. exists r'. reflexivity.
  - intros Collection Cursor Aggregate All r userID from to userCursor allUsersCursor
      userResults allUsersResults rank HA HAll HA' HAll' Hrank Hint.
    destruct (Percentile_range Aggregate All r userID from to userCursor allUsersCursor
                userResults allUsersResults rank HA HAll HA' HAll' Hrank Hint)
      as [p [Hp [Hrange [Hzero Hiff]]]].
    exists p. split; [exact Hp|]. split; [exact Hrange|]. split; [exact Hzero|].
    split; [|exact Hiff].
    intros Hnz.
    rewrite (Percentile_ranked Aggregate All r userID from to userCursor allUsersCursor
               userResults allUsersResults rank HA HAll Hnz HA' HAll' (Hrank Hnz)) in Hp.
    injection Hp as <-. reflexivity.
  - intros C Collection Cursor cacheImpl AggregateRows Aggregate All PF w userID from to
      v found c1 userCursor allUsersCursor userResults allUsersResults rank
      HGet Hmiss HA HAll HA' HAll' Hrank Hint.
    destruct (Percentile_range Aggregate All (repo w) userID from to userCursor
                allUsersCursor userResults allUsersResults rank HA HAll HA' HAll' Hrank Hint)
      as [p [Hp [Hrange [_ Hiff]]]].
    rewrite (Percentile_miss
               (repoImpl := TransactionRepository_Interface AggregateRows Aggregate All)
               PF w userID from to v found c1 HGet Hmiss).
    cbn. rewrite Hp.
    eexists. eexists. split; [reflexivity|]. split; [exact Hrange|exact Hiff].
Qed.

Lemma percentile_range_by_path_witness :
  exists p,
    TransactionRepository_CalculateUserWagerPercentile ranking_Aggregate ranking_All
      "u3" jan01 jan31 five_users = Ret (p, None)
    /\ in_range p = true
    /\ (len (Some [total_row "u3" "50"]) = 0 -> p = 0%float)
    /\ (len (Some [total_row "u3" "50"]) <> 0 ->
        p = (100 - (float64_of_int (Z.of_nat 3 - 1)
                    / float64_of_int (len (Some (collection five_users))) * 100))%float)
    /\ (len (Some (collection five_users)) <= 2 ^ 53 ->
        (p = 0%float <-> len (Some [total_row "u3" "50"]) = 0)).
Proof.
  destruct percentile_range_by_path as [_ [Hrepo _]].
  exact (Hrepo (list bsonM) (slice bsonM) ranking_Aggregate ranking_All five_users
           "u3" jan01 jan31 (Some [total_row "u3" "50"]) (Some (collection five_users))
           (Some [total_row "u3" "50"]) (Some (collection five_users)) 3%nat
           eq_refl eq_refl eq_refl eq_refl (fun _ => third_is_ranked) eq_refl).
Defined.

(** Where the bounds end: a cached number comes back as it is, and the last
    of more than [2 ^ 53] users would get 0. *)
Example percentile_of_last_is_zero :
  in_range (percentile_of 5 5) = true
  /\ (0 <? percentile_of 5 5)%float = true
  /\ percentile_of (2 ^ 53 + 1) (2 ^ 53 + 1) = 0%float.
Proof. vm_compute. repeat split; reflexivity. Qed.
